(** * Termômetro da Economia: the data core of [streamlit_app.py]

    A shallow embedding of the parts of the dashboard script that carry
    logic: the data layer ([get_db_connection], [fetch_data]), the period
    grouping ([get_period_groups]), the sidebar's choice of years and its
    label, the year filter ([filter_df_by_years]), the cards of the latest
    values, the correlation section and the forecast section.

    Python integers are [Z]; strings are [string]; a pandas DataFrame is a
    list of column names and a list of labelled rows; DataFrame objects live
    in a heap, because the script shares them between the cache and the
    sections; what Streamlit shows is a log of events. *)

From Stdlib Require Import ZArith QArith Qreals Reals Lra Lia List Sorted Permutation DecimalString.
From Equations Require Import Equations.
From stdpp Require Import base gmap strings list.

Local Open Scope Z_scope.

(** ** Python builtins *)

Module Py.

(** The exceptions the modelled code can raise. *)
Inductive exc : Type :=
| KeyError (key : string)
| IndexError
| TypeError
| ValueError
| NameError
| LibraryError (what : string).

(** [str(n)] for an integer, as an f-string formats it. *)
Definition str (n : Z) : string := NilZero.string_of_int (Z.to_int n).

(** [list(range(a, b))]. *)
Definition range (a b : Z) : list Z :=
  List.map (fun i => a + Z.of_nat i) (seq 0 (Z.to_nat (b - a))).

(** [min(l)] and [max(l)] of a non-empty list [y :: ys]. *)
Definition min (y : Z) (ys : list Z) : Z := fold_left Z.min ys y.
Definition max (y : Z) (ys : list Z) : Z := fold_left Z.max ys y.

(** A stable sort by a comparison [leb]: an element goes in front of the
    first element it is below or equal to. *)
Fixpoint insert_by {A : Type} (leb : A -> A -> bool) (x : A) (l : list A) : list A :=
  match l with
  | [] => [x]
  | y :: l' => if leb x y then x :: y :: l' else y :: insert_by leb x l'
  end.

Definition sort_by {A : Type} (leb : A -> A -> bool) (l : list A) : list A :=
  fold_right (insert_by leb) [] l.

(** [sorted(l, reverse=True)] on integers. *)
Definition sorted_reverse (l : list Z) : list Z := sort_by (fun a b => b <=? a) l.

(** [sorted(l)] on integers. *)
Definition sorted (l : list Z) : list Z := sort_by Z.leb l.

End Py.

(** ** Period grouping (lines 73-85) *)

Definition period_group : Type := string * list Z.

(** The [while current_year >= min_year] loop of [get_period_groups], with
    [groups] the list it appends to.  It is entered with [group_size >= 1],
    which is what makes [current_year] go down. *)
Equations? while_groups (min_year group_size : Z) (Hgs : 1 <= group_size)
    (current_year : Z) (groups : list period_group) : list period_group
    by wf (Z.to_nat (current_year - min_year + 1)) lt :=
  while_groups min_year group_size Hgs current_year groups
    with Z_lt_dec current_year min_year => {
    | left _ := groups;
    | right _ :=
        let start_year := Z.max min_year (current_year - (group_size - 1)) in
        let group_label := (Py.str start_year +:+ "-" +:+ Py.str current_year)%string in
        while_groups min_year group_size Hgs (current_year - group_size)
          (groups ++ [(group_label, Py.range start_year (current_year + 1))]) }.
Proof. lia. Qed.

Definition get_period_groups (years : list Z) (group_size : Z) : list period_group :=
  match years with
  | [] => []
  | y :: ys =>
      match Z_lt_dec group_size 1 with
      | left _ => []
      | right Hgs =>
          let min_year := Py.min y ys in
          let max_year := Py.max y ys in
          while_groups min_year group_size (proj1 (Z.nlt_ge _ _) Hgs) max_year []
      end
  end.

(** The label the specification describes: the year alone for a one-year
    window.  It is compared with the label the code builds. *)
Definition spec_label (start_year end_year : Z) : string :=
  if start_year =? end_year then Py.str start_year
  else (Py.str start_year +:+ "-" +:+ Py.str end_year)%string.

(** ** DataFrames *)

(** One cell of a frame.  [Num] is a number (an int64, a float64 or a Python
    number; float arithmetic is idealised as exact), [Date] a timestamp of day
    granularity (its day number), [Str] any string object, [NaN] a missing
    number (also [None]) and [NaT] a missing timestamp. *)
Inductive cell : Type :=
| Num (q : Q)
| Date (day : Z)
| Str (s : string)
| NaN
| NaT.

(** A row carries its index label and one cell per column. *)
Record row : Type := Row { label : cell; cells : list cell }.

Record DataFrame : Type := Frame { columns : list string; rows : list row }.

(** What pandas itself decides and the script does not show.
    [to_numeric_str] is the parser behind [pd.to_numeric] on a string.
    [tie_order] is the choice [sort_values] makes between rows with equal
    keys: its default [kind="quicksort"] is not a stable sort, so such rows
    come out in an order the library does not promise.  In [pd.sort_values]
    the rows are first rearranged by [tie_order], whatever it is, and then
    sorted by a sort that keeps the order of equal keys; this makes every
    arrangement of the rows in the order of their keys a possible result
    ([every_sort_is_a_tie_order] below). *)
Class Pandas : Type := {
  to_numeric_str : string -> option Q;
  tie_order : bool -> (row -> cell) -> list row -> list row;
  tie_order_perm : forall ascending key l, Permutation (tie_order ascending key l) l }.

(** Python's [int(s)] on a string. *)
Class Python : Type := { int_str : string -> option Z }.

Module pd.

(** [pd.isna(c)]. *)
Definition isna (c : cell) : bool :=
  match c with NaN | NaT => true | _ => false end.

(** [pd.DataFrame()]. *)
Definition empty_frame : DataFrame := Frame [] [].

(** [df.empty]: some axis has length 0. *)
Definition empty (df : DataFrame) : bool :=
  (length (columns df) =? 0)%nat || (length (rows df) =? 0)%nat.

(** [name in df.columns]. *)
Definition has_column (name : string) (df : DataFrame) : bool :=
  existsb (String.eqb name) (columns df).

(** Position of a column name. *)
Fixpoint index_of (name : string) (cols : list string) : option nat :=
  match cols with
  | [] => None
  | c :: cols' => if String.eqb name c then Some 0%nat else S <$> index_of name cols'
  end.

Definition cell_at (i : nat) (r : row) : cell := nth i (cells r) NaN.

Definition set_cell (i : nat) (c : cell) (r : row) : row :=
  Row (label r) (<[i := c]> (cells r)).

(** [df[name]]: the cells of one column, top to bottom. *)
Definition getitem (name : string) (df : DataFrame) : Py.exc + list cell :=
  match index_of name (columns df) with
  | None => inl (Py.KeyError name)
  | Some i => inr (List.map (cell_at i) (rows df))
  end.

(** [df[name] = values], for values that come row by row from [df] itself:
    an existing column is overwritten, a new one is appended. *)
Definition setitem (name : string) (values : list cell) (df : DataFrame) : DataFrame :=
  match index_of name (columns df) with
  | Some i => Frame (columns df) (zip_with (set_cell i) values (rows df))
  | None =>
      Frame (columns df ++ [name])
            (zip_with (fun v r => Row (label r) (cells r ++ [v])) values (rows df))
  end.

(** [pd.to_numeric(c, errors="coerce")] on one cell: a number stays, a string
    is parsed, everything else becomes [NaN].  (The column it is applied to,
    ["ano"], is not a datetime column.) *)
Definition to_numeric_coerce `{Pandas} (c : cell) : cell :=
  match c with
  | Num q => Num q
  | Str s => match to_numeric_str s with Some q => Num q | None => NaN end
  | Date _ | NaN | NaT => NaN
  end.

(** [c.isin(values)] for a list of Python integers. *)
Definition isin (values : list Z) (c : cell) : bool :=
  match c with
  | Num q => existsb (fun y => Qeq_bool q (inject_Z y)) values
  | _ => false
  end.

(** [df[mask]] with a boolean mask, one entry per row. *)
Definition getitem_mask (mask : list bool) (df : DataFrame) : DataFrame :=
  Frame (columns df) (List.map fst (List.filter snd (combine (rows df) mask))).

(** The kind of a cell, for comparisons: Python orders numbers with numbers,
    timestamps with timestamps and strings with strings. *)
Definition kind (c : cell) : option nat :=
  match c with
  | Num _ => Some 0%nat
  | Date _ => Some 1%nat
  | Str _ => Some 2%nat
  | NaN | NaT => None
  end.

Fixpoint kinds_agree (k : option nat) (l : list cell) : bool :=
  match l with
  | [] => true
  | c :: l' =>
      match kind c, k with
      | None, _ => kinds_agree k l'
      | Some a, None => kinds_agree (Some a) l'
      | Some a, Some b => (a =? b)%nat && kinds_agree k l'
      end
  end.

(** A column can be sorted when its present cells are of one kind. *)
Definition sortable (l : list cell) : bool := kinds_agree None l.

(** The order [sort_values] puts keys in: ascending, missing keys last. *)
Definition key_leb (a b : cell) : bool :=
  if isna b then true
  else if isna a then false
  else match a, b with
       | Date d, Date e => d <=? e
       | Num p, Num q => Qle_bool p q
       | Str s, Str t => String.leb s t
       | _, _ => true
       end.

(** [df.sort_values(by=name)]: [KeyError] without the column, [TypeError]
    when its cells cannot be compared.  The rows come out in the order of
    their keys; which of two rows with equal keys comes first is pandas'
    choice, [tie_order]. *)
Definition sort_values `{Pandas} (by_ : string) (df : DataFrame) : Py.exc + DataFrame :=
  match index_of by_ (columns df) with
  | None => inl (Py.KeyError by_)
  | Some i =>
      if sortable (List.map (cell_at i) (rows df)) then
        inr (Frame (columns df)
               (Py.sort_by (fun a b => key_leb (cell_at i a) (cell_at i b))
                  (tie_order true (cell_at i) (rows df))))
      else inl Py.TypeError
  end.

(** [pd.api.types.is_datetime64_any_dtype] of a column, read off its cells. *)
Definition is_datetime64 (l : list cell) : bool :=
  forallb (fun c => match c with Date _ | NaT => true | _ => false end) l.

(** Two index labels are the same join key. *)
Definition same_key (a b : cell) : bool :=
  match a, b with
  | Num p, Num q => Qeq_bool p q
  | Date d, Date e => d =? e
  | Str s, Str t => String.eqb s t
  | NaN, NaN | NaT, NaT => true
  | _, _ => false
  end.

Definition remove_nth {A : Type} (i : nat) (l : list A) : list A :=
  firstn i l ++ skipn (S i) l.

(** [df.set_index(name)]: the column becomes the row labels and leaves the
    columns. *)
Definition set_index (name : string) (df : DataFrame) : Py.exc + DataFrame :=
  match index_of name (columns df) with
  | None => inl (Py.KeyError name)
  | Some i =>
      inr (Frame (remove_nth i (columns df))
             (List.map (fun r => Row (cell_at i r) (remove_nth i (cells r))) (rows df)))
  end.

(** Column names of a merge: a name both sides have gets the suffix. *)
Definition suffixed (suffix : string) (others : list string) (name : string) : string :=
  if existsb (String.eqb name) others then (name +:+ suffix)%string else name.

(** [pd.merge(left, right, left_index=True, right_index=True, how="inner")]:
    one row per pair of rows with the same label; the columns of [left]
    first, then those of [right]. *)
Definition merge_inner (left right : DataFrame) : DataFrame :=
  Frame (List.map (suffixed "_x" (columns right)) (columns left) ++
         List.map (suffixed "_y" (columns left)) (columns right))
        (flat_map (fun a =>
           List.map (fun b => Row (label a) (cells a ++ cells b))
             (List.filter (fun b => same_key (label a) (label b)) (rows right)))
           (rows left)).

(** [df[[a, b]]]: the two columns, in this order. *)
Definition getitem_two (a b : string) (df : DataFrame) : Py.exc + DataFrame :=
  match index_of a (columns df), index_of b (columns df) with
  | None, _ => inl (Py.KeyError a)
  | _, None => inl (Py.KeyError b)
  | Some i, Some j =>
      inr (Frame [a; b] (List.map (fun r => Row (label r) [cell_at i r; cell_at j r]) (rows df)))
  end.

(** [df.rename(columns={a: a', b: b'})]. *)
Definition rename (a a' b b' : string) (df : DataFrame) : DataFrame :=
  Frame (List.map (fun c => if String.eqb c b then b'
                            else if String.eqb c a then a' else c) (columns df))
        (rows df).

(** [df.dropna(subset=[a, b])]: rows with a missing cell in one of the two
    columns go. *)
Definition dropna (a b : string) (df : DataFrame) : Py.exc + DataFrame :=
  match index_of a (columns df), index_of b (columns df) with
  | None, _ => inl (Py.KeyError a)
  | _, None => inl (Py.KeyError b)
  | Some i, Some j =>
      inr (Frame (columns df)
             (List.filter (fun r => negb (isna (cell_at i r)) && negb (isna (cell_at j r)))
                (rows df)))
  end.

(** The pairs of numbers two columns give, row by row; a pair with a missing
    side is left out, as [Series.corr] does. *)
Definition numeric_pairs (xs ys : list cell) : list (Q * Q) :=
  flat_map (fun p => match p with
                     | (Num a, Num b) => [(a, b)]
                     | _ => []
                     end) (combine xs ys).

Definition Qsum (l : list Q) : Q := fold_right Qplus 0%Q l.

Definition mean (l : list Q) : Q := (Qsum l / inject_Z (Z.of_nat (length l)))%Q.

(** Sum of the products of the deviations from the means. *)
Definition co_moment (ps : list (Q * Q)) (f g : Q * Q -> Q) : Q :=
  let mf := mean (List.map f ps) in
  let mg := mean (List.map g ps) in
  Qsum (List.map (fun p => ((f p - mf) * (g p - mg))%Q) ps).

(** Pearson's coefficient, covariance over the product of the standard
    deviations; [None] is the NaN that a zero variance (also a single pair, or
    none) gives. *)
Definition pearson (ps : list (Q * Q)) : option R :=
  let sxy := co_moment ps fst snd in
  let sxx := co_moment ps fst fst in
  let syy := co_moment ps snd snd in
  if Qeq_bool (sxx * syy) 0 then None
  else Some (Q2R sxy / sqrt (Q2R (sxx * syy)))%R.

(** [xs.corr(ys)]. *)
Definition corr (xs ys : list cell) : option R := pearson (numeric_pairs xs ys).

End pd.

(** ** The script's world: shared frames and what Streamlit shows *)

Definition loc : Type := positive.

(** The texts of the warnings and errors the two sections can show. *)
Inductive message : Type :=
| InsufficientCommonData (indicator1 indicator2 : string)
| NoCommonDates (indicator1 indicator2 : string)
| ForecastBadData (indicator : string)
| ForecastTooFewPoints (indicator : string)
| ForecastFailed (indicator : string) (e : Py.exc).

(** What a run leaves on the page, and the call into the forecasting
    library.  The value of a metric is the coefficient formatted with three
    decimals; [None] is shown as nan. *)
Inductive ui_event : Type :=
| st_warning (msg : message)
| st_error (msg : message)
| st_subheader (indicators : list string)
| st_metric (value : option R)
| st_scatter (x y : string) (data : DataFrame)
| st_forecast (forecast : DataFrame) (periods : Z)
| prophet_fit (df : DataFrame) (periods : Z).

Record world : Type := World { heap : gmap loc DataFrame; ui : list ui_event }.

(** A piece of script: it may raise, and it changes the world either way. *)
Definition script (A : Type) : Type := world -> (Py.exc + A) * world.

#[export] Instance script_ret : MRet script := fun A x w => (inr x, w).

#[export] Instance script_bind : MBind script := fun A B f m w =>
  match m w with
  | (inr x, w') => f x w'
  | (inl e, w') => (inl e, w')
  end.

Definition raise {A : Type} (e : Py.exc) : script A := fun w => (inl e, w).

(** A library call that returns or raises without touching the world. *)
Definition lift {A : Type} (r : Py.exc + A) : script A := fun w => (r, w).

(** [try: body except Exception as e: handler e]. *)
Definition try_except {A : Type} (body : script A) (handler : Py.exc -> script A) : script A :=
  fun w => match body w with
           | (inr x, w') => (inr x, w')
           | (inl e, w') => handler e w'
           end.

(** The frame a reference points to. *)
Definition load (l : loc) : script DataFrame := fun w =>
  match heap w !! l with
  | Some d => (inr d, w)
  | None => (inl Py.NameError, w)
  end.

(** A new object. *)
Definition alloc (d : DataFrame) : script loc := fun w =>
  let l := fresh (dom (heap w)) in
  (inr l, World (<[l := d]> (heap w)) (ui w)).

(** An update in place of the object at [l]. *)
Definition modify (l : loc) (f : DataFrame -> DataFrame) : script unit := fun w =>
  match heap w !! l with
  | Some d => (inr tt, World (<[l := f d]> (heap w)) (ui w))
  | None => (inl Py.NameError, w)
  end.

Definition emit (e : ui_event) : script unit := fun w =>
  (inr tt, World (heap w) (ui w ++ [e])).

Fixpoint for_each {A B : Type} (f : A -> script B) (l : list A) : script (list B) :=
  match l with
  | [] => mret []
  | x :: l' => y ← f x; ys ← for_each f l'; mret (y :: ys)
  end.

(** ** The year filter (lines 168-173) *)

Definition filter_df_by_years `{Pandas} (df : loc) (years : list Z) : script loc :=
  d ← load df;
  if pd.empty d || negb (pd.has_column "ano" d) then mret df
  else
    df_copy ← alloc d;
    ano ← (c ← load df_copy; lift (pd.getitem "ano" c));
    modify df_copy (pd.setitem "ano" (List.map pd.to_numeric_coerce ano));;
    c ← load df_copy;
    ano' ← lift (pd.getitem "ano" c);
    sorted ← lift (pd.sort_values "data_referencia"
                     (pd.getitem_mask (List.map (pd.isin years) ano') c));
    alloc sorted.

(** ** The sidebar: which years are shown (lines 120-165) *)

(** The five cached frames [fetch_data] returned. *)
Record originals : Type := Originals {
  df_selic_orig : loc;
  df_ipca_orig : loc;
  df_cambio_orig : loc;
  df_desemprego_orig : loc;
  df_pib_orig : loc }.

Definition original_frames (o : originals) : list loc :=
  [df_selic_orig o; df_ipca_orig o; df_cambio_orig o; df_desemprego_orig o; df_pib_orig o].

(** A Python set of cells, kept as a list without repeated values. *)
Definition set_add (s : list cell) (c : cell) : list cell :=
  if existsb (pd.same_key c) s then s else s ++ [c].

(** [s.update(values)]. *)
Definition set_update (s : list cell) (values : list cell) : list cell :=
  fold_left set_add values s.

(** [int(y)]: a number is cut towards zero, a string is parsed. *)
Definition py_int `{Python} (y : cell) : Py.exc + Z :=
  match y with
  | Num q => inr (Z.quot (Qnum q) (Zpos (Qden q)))
  | Str s => match int_str s with Some n => inr n | None => inl Py.ValueError end
  | Date _ => inl Py.TypeError
  | NaN | NaT => inl Py.ValueError
  end.

(** One of the lines 121-125:
    [if not df.empty and "ano" in df.columns: all_years.update(df["ano"].unique())]. *)
Definition update_all_years (all_years : list cell) (df : loc) : script (list cell) :=
  d ← load df;
  if negb (pd.empty d) && pd.has_column "ano" d then
    ano ← lift (pd.getitem "ano" d);
    mret (set_update all_years ano)
  else mret all_years.

(** Lines 120-127: [sorted_years], the years the frames have, most recent
    first. *)
Definition sorted_years `{Python} (o : originals) : script (list Z) :=
  all_years ← update_all_years [] (df_selic_orig o);
  all_years ← update_all_years all_years (df_ipca_orig o);
  all_years ← update_all_years all_years (df_cambio_orig o);
  all_years ← update_all_years all_years (df_desemprego_orig o);
  all_years ← update_all_years all_years (df_pib_orig o);
  years ← for_each (fun y => lift (py_int y))
            (List.filter (fun x => negb (pd.isna x)) all_years);
  mret (Py.sorted_reverse years).

Inductive filter_type : Type :=
| AnosEspecificos
| Bienio.

(** The values of the sidebar widgets in one run of the script. *)
Record sidebar : Type := Sidebar {
  hist_filter_type : filter_type;
  hist_selected_years : list Z;
  hist_selected_biennio : option string }.

(** [{label: years for label, years in biennios_options}]. *)
Definition biennio_dict (biennios_options : list period_group) : gmap string (list Z) :=
  fold_left (fun m g => <[fst g := snd g]> m) biennios_options ∅.

(** Lines 136-165: [selected_years_final]. *)
Definition selected_years_final (sb : sidebar) (sorted_years : list Z) : Py.exc + list Z :=
  match hist_filter_type sb with
  | AnosEspecificos =>
      let selected_years := hist_selected_years sb in
      match selected_years with
      | [] => inr sorted_years
      | _ :: _ => inr selected_years
      end
  | Bienio =>
      let biennios_options := get_period_groups sorted_years 2 in
      match hist_selected_biennio sb with
      | Some selected_biennio_label =>
          if String.eqb selected_biennio_label "" then inr sorted_years
          else match biennio_dict biennios_options !! selected_biennio_label with
               | Some years => inr years
               | None => inl (Py.KeyError selected_biennio_label)
               end
      | None => inr sorted_years
      end
  end.

(** Lines 175-179: every original goes through the filter. *)
Definition filter_data `{Pandas} (o : originals) (years : list Z) : script (list loc) :=
  for_each (fun df => filter_df_by_years df years) (original_frames o).

(** Lines 120-179. *)
Definition historical_view `{Pandas} `{Python} (o : originals) (sb : sidebar)
    : script (list loc) :=
  ys ← sorted_years o;
  selected ← lift (selected_years_final sb ys);
  filter_data o selected.

(** ** The correlation section (lines 278-292) *)

(** [df.columns[i]]. *)
Definition column_name (i : nat) (df : DataFrame) : Py.exc + string :=
  match columns df !! i with
  | Some c => inr c
  | None => inl Py.IndexError
  end.

Definition correlation_section (indicator1_name indicator2_name : string)
    (a b : loc) : script unit :=
  fa ← load a;
  fb ← load b;
  df1 ← lift (pd.set_index "data_referencia" fa);
  df2 ← lift (pd.set_index "data_referencia" fb);
  let df_merged := pd.merge_inner df1 df2 in
  if negb (pd.empty df_merged) && (1 <? length (rows df_merged))%nat then
    col_name1 ← lift (column_name 0 df_merged);
    col_name2 ← lift (column_name 1 df_merged);
    xs ← lift (pd.getitem col_name1 df_merged);
    ys ← lift (pd.getitem col_name2 df_merged);
    let correlation := pd.corr xs ys in
    emit (st_subheader [indicator1_name; indicator2_name]);;
    emit (st_metric correlation);;
    emit (st_scatter col_name1 col_name2 df_merged)
  else if (length (rows df_merged) <=? 1)%nat then
    emit (st_warning (InsufficientCommonData indicator1_name indicator2_name))
  else
    emit (st_warning (NoCommonDates indicator1_name indicator2_name)).

(** ** The forecast section (lines 320-364) *)

(** The forecasting library: fit on a frame, predict [periods] days ahead;
    it returns its forecast or raises. *)
Class Prophet : Type := { fit_predict : DataFrame -> Z -> Py.exc + DataFrame }.

Definition forecast_section `{Pandas} `{Prophet} (selected_indicator_forecast_name : string)
    (df_to_forecast_orig : loc) (y_col_name : string) (forecast_periods : Z)
    : script unit :=
  d ← load df_to_forecast_orig;
  datetime ← (if pd.empty d then mret false
              else ds ← lift (pd.getitem "data_referencia" d);
                   mret (pd.is_datetime64 ds));
  if negb datetime then
    emit (st_error (ForecastBadData selected_indicator_forecast_name))
  else
    df_prophet ← lift (pd.getitem_two "data_referencia" y_col_name d);
    let df_prophet := pd.rename "data_referencia" "ds" y_col_name "y" df_prophet in
    df_prophet ← lift (pd.dropna "ds" "y" df_prophet);
    df_prophet ← lift (pd.sort_values "ds" df_prophet);
    if (length (rows df_prophet) <? 2)%nat then
      emit (st_error (ForecastTooFewPoints selected_indicator_forecast_name))
    else
      try_except
        (emit (prophet_fit df_prophet forecast_periods);;
         forecast ← lift (fit_predict df_prophet forecast_periods);
         emit (st_subheader [selected_indicator_forecast_name]);;
         emit (st_forecast forecast forecast_periods))
        (fun e => emit (st_error (ForecastFailed selected_indicator_forecast_name e))).

(** ** Notions the properties are stated with *)

(** The label [get_period_groups] gives the window from [start_year] to
    [end_year]. *)
Definition code_label (start_year end_year : Z) : string :=
  (Py.str start_year +:+ "-" +:+ Py.str end_year)%string.

(** [tiling min_year hi groups]: the groups are labelled windows of
    consecutive years that cover the years from [min_year] to [hi] without
    gap or overlap, the window that ends in [hi] first. *)
Inductive tiling (min_year : Z) : Z -> list period_group -> Prop :=
| tiling_done hi : hi < min_year -> tiling min_year hi []
| tiling_window hi s rest :
    min_year <= s -> s <= hi -> tiling min_year (s - 1) rest ->
    tiling min_year hi ((code_label s hi, Py.range s (hi + 1)) :: rest).

(** Every group carries the label the specification describes. *)
Definition labels_as_specified (years : list Z) (group_size : Z) : Prop :=
  forall label ys, In (label, ys) (get_period_groups years group_size) ->
    exists s e, s <= e /\ ys = Py.range s (e + 1) /\ label = spec_label s e.

(** A row as line 172 leaves it in the copy: its year coerced to a number. *)
Definition coerce_year `{Pandas} (i : nat) (r : row) : row :=
  pd.set_cell i (pd.to_numeric_coerce (pd.cell_at i r)) r.

(** The rows line 173 keeps, before they are sorted. *)
Definition filtered_rows `{Pandas} (i : nat) (years : list Z) (l : list row) : list row :=
  List.filter (fun r => pd.isin years (pd.cell_at i r)) (List.map (coerce_year i) l).

(** The frame has a ["data_referencia"] column of timestamps, as
    [pd.to_datetime] in [fetch_data] leaves it. *)
Definition timestamped (d : DataFrame) : bool :=
  match pd.index_of "data_referencia" (columns d) with
  | Some t => pd.is_datetime64 (List.map (pd.cell_at t) (rows d))
  | None => false
  end.

(** The rows are in ascending order of the column at position [t], missing
    keys last. *)
Definition ascending (t : nat) (l : list row) : Prop :=
  Sorted (fun a b => pd.key_leb (pd.cell_at t a) (pd.cell_at t b) = true) l.

(** The rows as [sort_values(by="data_referencia")] leaves them, the
    timestamps at position [t]. *)
Definition sorted_by_timestamp `{Pandas} (t : nat) (l : list row) : list row :=
  Py.sort_by (fun a b => pd.key_leb (pd.cell_at t a) (pd.cell_at t b))
    (tie_order true (pd.cell_at t) l).

(** No two rows of the frame have the same timestamp. *)
Definition distinct_timestamps (d : DataFrame) : Prop :=
  forall t, pd.index_of "data_referencia" (columns d) = Some t ->
    List.NoDup (List.map (pd.cell_at t) (rows d)).


(** The filter leaves its input as it was and returns an object that did not
    exist before the call: a new copy. *)
Definition returns_new_copy `{Pandas} (w : world) (df : loc) (years : list Z) : Prop :=
  forall d, heap w !! df = Some d ->
    let out := filter_df_by_years df years w in
    heap (snd out) !! df = Some d /\
    forall res, fst out = inr res -> heap w !! res = None.

(** A value of a Python set stands for every value that compares equal to
    it. *)
Definition represented (s : list cell) (c : cell) : Prop :=
  exists c', In c' s /\ pd.same_key c c' = true.

(** A series as the two sections get it: timestamps and at least one more
    column. *)
Definition series (d : DataFrame) : bool :=
  pd.has_column "data_referencia" d && (2 <=? length (columns d))%nat.

Definition swap_pair (p : Q * Q) : Q * Q := (snd p, fst p).

(** The two cells of a row the forecast keeps: timestamp and value. *)
Definition prophet_row (i j : nat) (r : row) : row :=
  Row (label r) [pd.cell_at i r; pd.cell_at j r].

(** A row of [df_prophet] with both its timestamp and its value. *)
Definition complete (r : row) : bool :=
  negb (pd.isna (pd.cell_at 0 r)) && negb (pd.isna (pd.cell_at 1 r)).

(** The rows of [df_prophet] that are left once the rows with a missing
    timestamp or value are dropped. *)
Definition prophet_rows (i j : nat) (d : DataFrame) : list row :=
  List.filter complete (List.map (prophet_row i j) (rows d)).

(** The rows of a series that the forecast can use: those of the frame's
    timestamp and value columns that have both.  Without one of the columns
    there are none. *)
Definition forecast_rows (y_col_name : string) (d : DataFrame) : list row :=
  match pd.index_of "data_referencia" (columns d), pd.index_of y_col_name (columns d) with
  | Some i, Some j => prophet_rows i j d
  | _, _ => []
  end.

(** ** Example data *)

(** Parsers that accept plain decimal integers, a sort that leaves rows with
    equal keys in the order they had, and a forecasting library that returns
    the frame it was fitted on. *)
Definition decimal_pandas : Pandas :=
  {| to_numeric_str s := (fun n => inject_Z (Z.of_int n)) <$> NilZero.int_of_string s;
     tie_order ascending key l := l;
     tie_order_perm ascending key l := Permutation_refl l |}.

(** The same parser with a sort that turns rows with equal keys round. *)
Definition reversing_pandas : Pandas :=
  {| to_numeric_str s := (fun n => inject_Z (Z.of_int n)) <$> NilZero.int_of_string s;
     tie_order ascending key l := rev l;
     tie_order_perm ascending key l := Permutation_sym (Permutation_rev l) |}.

Definition decimal_python : Python :=
  {| int_str s := Z.of_int <$> NilZero.int_of_string s |}.

Definition echo_prophet : Prophet := {| fit_predict df periods := inr df |}.

(** What [fetch_data] returns when the query fails: [pd.DataFrame()]. *)
Definition failed_fetch_world : world := World {[ 1%positive := pd.empty_frame ]} [].

(** A series out of order, with years that are strings or missing. *)
Definition selic_rows : list row :=
  [Row (Num 0) [Date 18300; Num 1; Num 2020];
   Row (Num 1) [Date 18700; Num 2; Num 2021];
   Row (Num 2) [Date 18200; Num 3; Str "2019"];
   Row (Num 3) [Date 19000; Num 4; NaN];
   Row (Num 4) [Date 17000; Num 5; Str "abc"];
   Row (Num 5) [Date 18250; Num 7; Num 2019]].

Definition selic_frame : DataFrame := Frame ["data_referencia"; "selic"; "ano"] selic_rows.

Definition selic_world : world := World {[ 1%positive := selic_frame ]} [].



(** Two series on the same two days, 2020-01-01 and 2021-01-01: one rises
    from 1 to 2, the other falls from 2 to 1. *)
Definition selic_two : DataFrame :=
  Frame ["data_referencia"; "selic"; "ano"]
    [Row (Num 0) [Date 18262; Num 1; Num 2020];
     Row (Num 1) [Date 18628; Num 2; Num 2021]].

Definition ipca_two : DataFrame :=
  Frame ["data_referencia"; "ipca"; "ano"]
    [Row (Num 0) [Date 18262; Num 2; Num 2020];
     Row (Num 1) [Date 18628; Num 1; Num 2021]].

Definition two_world : world :=
  World (<[2%positive := ipca_two]> {[ 1%positive := selic_two ]}) [].

Definition two_originals : originals :=
  Originals 1%positive 2%positive 1%positive 2%positive 1%positive.

(** The merge of the two series on their timestamps, in both orders. *)
Definition selic_ipca_merged : DataFrame :=
  Frame ["selic"; "ano_x"; "ipca"; "ano_y"]
    [Row (Date 18262) [Num 1; Num 2020; Num 2; Num 2020];
     Row (Date 18628) [Num 2; Num 2021; Num 1; Num 2021]].

Definition ipca_selic_merged : DataFrame :=
  Frame ["ipca"; "ano_x"; "selic"; "ano_y"]
    [Row (Date 18262) [Num 2; Num 2020; Num 1; Num 2020];
     Row (Date 18628) [Num 1; Num 2021; Num 2; Num 2021]].

(** Two series on the same two days of one year, 2020-01-01 and 2020-02-01:
    both rise, the second twice as fast. *)
Definition selic_2020 : DataFrame :=
  Frame ["data_referencia"; "selic"; "ano"]
    [Row (Num 0) [Date 18262; Num 1; Num 2020];
     Row (Num 1) [Date 18293; Num 2; Num 2020]].

Definition ipca_2020 : DataFrame :=
  Frame ["data_referencia"; "ipca"; "ano"]
    [Row (Num 0) [Date 18262; Num 2; Num 2020];
     Row (Num 1) [Date 18293; Num 4; Num 2020]].

Definition year_world : world :=
  World (<[2%positive := ipca_2020]> {[ 1%positive := selic_2020 ]}) [].

Definition selic_ipca_2020 : DataFrame :=
  Frame ["selic"; "ano_x"; "ipca"; "ano_y"]
    [Row (Date 18262) [Num 1; Num 2020; Num 2; Num 2020];
     Row (Date 18293) [Num 2; Num 2020; Num 4; Num 2020]].

(** A series with one value and one timestamp missing. *)
Definition gappy_frame : DataFrame :=
  Frame ["data_referencia"; "pib"; "ano"]
    [Row (Num 0) [Date 18262; NaN; Num 2020];
     Row (Num 1) [NaT; Num 5; NaN];
     Row (Num 2) [Date 18628; Num 7; Num 2021]].

Definition gappy_world : world := World {[ 1%positive := gappy_frame ]} [].

(** A cell of the ["ano"] column of one of the originals that is not empty. *)
Definition year_cell (o : originals) (w : world) (c : cell) : Prop :=
  exists df d col, In df (original_frames o) /\ heap w !! df = Some d /\
    pd.empty d = false /\ pd.getitem "ano" d = inr col /\ In c col.

(** ** The data layer (lines 25-70) *)

(** A setting as [st.secrets.get(key, os.environ.get(key))] gives it: absent,
    a text or a number. *)
Inductive setting : Type :=
| Unset
| Text (s : string)
| Number (n : Z).

(** Python's truth value of a setting, which [all] tests. *)
Definition truthy (v : setting) : bool :=
  match v with
  | Unset => false
  | Text s => negb (String.eqb s "")
  | Number n => negb (n =? 0)
  end.

Record credentials : Type := Credentials {
  DB_HOST : setting;
  DB_PORT : setting;
  DB_NAME : setting;
  DB_USER : setting;
  DB_PASSWORD : setting }.

(** Every row has one cell per column. *)
Definition well_formed (d : DataFrame) : bool :=
  forallb (fun r => (length (cells r) =? length (columns d))%nat) (rows d).

(** What [psycopg2.connect] does: it returns a connection, raises the
    [OperationalError] the script catches, or raises something else. *)
Inductive connect_result (C : Type) : Type :=
| Connected (c : C)
| OperationalError (e : string)
| ConnectRaised (e : Py.exc).
Arguments Connected {C} c.
Arguments OperationalError {C} e.
Arguments ConnectRaised {C} e.

(** The database behind the script: [psycopg2.connect] and
    [pd.read_sql_query], whose frames have one cell per column in every
    row. *)
Class Database : Type := {
  connection : Type;
  connect : credentials -> connect_result connection;
  read_sql_query : string -> connection -> Py.exc + DataFrame;
  read_sql_query_shape :
    forall query conn d, read_sql_query query conn = inr d -> well_formed d = true }.

(** pandas' timestamps: [pd.to_datetime] on a column gives one timestamp or
    [NaT] per cell, or raises; [year_of] is the calendar year of a day, which
    [.dt.year] reads. *)
Class Datetimes : Type := {
  to_datetime : list cell -> Py.exc + list (option Z);
  to_datetime_length :
    forall col ts, to_datetime col = inr ts -> length ts = length col;
  year_of : Z -> Z }.

(** The cell of a timestamp, and the cell of its year. *)
Definition timestamp_cell (t : option Z) : cell :=
  match t with Some day => Date day | None => NaT end.

Definition dt_year `{Datetimes} (c : cell) : cell :=
  match c with
  | Date day => Num (inject_Z (year_of day))
  | _ => NaN
  end.

(** The messages of the data layer, and what a call leaves behind: errors on
    the page, lines on the standard output, and the calls to the database. *)
Inductive db_message : Type :=
| CredentialsNotConfigured
| ConnectionFailed (e : string)
| FetchFailed (e : Py.exc).

Inductive db_event : Type :=
| db_st_error (m : db_message)
| db_print (m : db_message)
| db_connect (c : credentials)
| db_read_sql (query : string).

(** The body of [get_db_connection] (lines 34-52); [None] is no
    connection. *)
Definition get_db_connection `{Database} (creds : credentials)
    : (Py.exc + option connection) * list db_event :=
  if negb (forallb truthy [DB_HOST creds; DB_PORT creds; DB_NAME creds;
                           DB_USER creds; DB_PASSWORD creds])
  then (inr None, [db_st_error CredentialsNotConfigured])
  else
    match connect creds with
    | Connected conn => (inr (Some conn), [db_connect creds])
    | OperationalError e =>
        (inr None, [db_connect creds; db_st_error (ConnectionFailed e);
                    db_print (ConnectionFailed e)])
    | ConnectRaised e => (inl e, [db_connect creds])
    end.

(** Lines 61-63: with a ["data_referencia"] column, it becomes timestamps and
    the year of each goes to the column ["ano"]. *)
Definition add_year `{Datetimes} (df : DataFrame) : Py.exc + DataFrame :=
  if pd.has_column "data_referencia" df then
    match pd.getitem "data_referencia" df with
    | inl e => inl e
    | inr col =>
        match to_datetime col with
        | inl e => inl e
        | inr ts =>
            let df := pd.setitem "data_referencia" (List.map timestamp_cell ts) df in
            match pd.getitem "data_referencia" df with
            | inl e => inl e
            | inr col' => inr (pd.setitem "ano" (List.map dt_year col') df)
            end
        end
    end
  else inr df.

(** The body of [fetch_data] (lines 55-70). *)
Definition fetch_data `{Database} `{Datetimes} (creds : credentials) (query : string)
    : (Py.exc + DataFrame) * list db_event :=
  match get_db_connection creds with
  | (inl e, log) => (inl e, log)
  | (inr None, log) => (inr pd.empty_frame, log)
  | (inr (Some conn), log) =>
      match (match read_sql_query query conn with
             | inl e => inl e
             | inr df => add_year df
             end) with
      | inr df => (inr df, log ++ [db_read_sql query])
      | inl e =>
          (inr pd.empty_frame,
           log ++ [db_read_sql query; db_st_error (FetchFailed e); db_print (FetchFailed e)])
      end
  end.


(** ** Example data for the data layer *)

(** A database with one table, and a calendar of 365-day years that reads a
    cell that is no timestamp as [NaT]. *)
Definition selic_table : DataFrame :=
  Frame ["data_referencia"; "selic"]
    [Row (Num 0) [Date 18262; Num 1];
     Row (Num 1) [Date 18628; Num 2]].

Definition memory_database : Database :=
  {| connection := unit;
     connect creds := Connected tt;
     read_sql_query query conn := inr selic_table;
     read_sql_query_shape := ltac:(intros query conn d [= <-]; reflexivity) |}.

Definition plain_datetimes : Datetimes :=
  {| to_datetime col :=
       inr (List.map (fun c => match c with Date day => Some day | _ => None end) col);
     to_datetime_length := ltac:(intros col ts [= <-]; apply length_map);
     year_of day := 1970 + day / 365 |}.

Definition full_credentials : credentials :=
  Credentials (Text "localhost") (Number 5432) (Text "bi") (Text "reader") (Text "secret").

Definition no_password : credentials :=
  Credentials (Text "localhost") (Number 5432) (Text "bi") (Text "reader") Unset.

(** ** Choosing the two indicators to correlate (lines 259-294) *)











(** ** The latest values (lines 190-224) *)

(** The order [sort_values(ascending=False)] puts keys in: descending,
    missing keys last all the same. *)
Definition key_geb (a b : cell) : bool :=
  if pd.isna b then true
  else if pd.isna a then false
  else pd.key_leb b a.

(** [df.sort_values(by=name, ascending=False)]; the order of rows with equal
    keys is pandas' choice, as in [pd.sort_values]. *)
Definition sort_values_descending `{Pandas} (by_ : string) (df : DataFrame)
    : Py.exc + DataFrame :=
  match pd.index_of by_ (columns df) with
  | None => inl (Py.KeyError by_)
  | Some i =>
      if pd.sortable (List.map (pd.cell_at i) (rows df)) then
        inr (Frame (columns df)
               (Py.sort_by (fun a b => key_geb (pd.cell_at i a) (pd.cell_at i b))
                  (tie_order false (pd.cell_at i) (rows df))))
      else inl Py.TypeError
  end.

(** [df.iloc[0]] and [row[name]]. *)
Definition iloc0 (df : DataFrame) : Py.exc + row :=
  match rows df with
  | r :: _ => inr r
  | [] => inl Py.IndexError
  end.

Definition row_getitem (name : string) (df : DataFrame) (r : row) : Py.exc + cell :=
  match pd.index_of name (columns df) with
  | Some i => inr (pd.cell_at i r)
  | None => inl (Py.KeyError name)
  end.

(** The day [strftime] formats: [NaT] raises [ValueError], and a cell that is
    no timestamp has no such method. *)
Definition strftime_day (c : cell) : Py.exc + Z :=
  match c with
  | Date day => inr day
  | NaT => inl Py.ValueError
  | _ => inl (Py.LibraryError "AttributeError")
  end.

(** What one of the five cards is made from: ["N/D"], or the day and the
    value of a row.  How the two are formatted into the label and the value
    of [st.metric] is left out. *)
Inductive latest_value : Type :=
| NotAvailable
| Latest (day : Z) (value : cell).

(** One of the five cards, lines 192-196 for the Selic, up to the day that
    [strftime] formats and the value that the f-string formats. *)
Definition latest_metric `{Pandas} (df_orig : loc) (value_col : string)
    : script latest_value :=
  d ← load df_orig;
  if negb (pd.empty d) then
    sorted ← lift (sort_values_descending "data_referencia" d);
    latest ← lift (iloc0 sorted);
    ts ← lift (row_getitem "data_referencia" sorted latest);
    day ← lift (strftime_day ts);
    value ← lift (row_getitem value_col sorted latest);
    mret (Latest day value)
  else mret NotAvailable.

(** A table whose timestamps are all missing. *)
Definition undated_frame : DataFrame :=
  Frame ["data_referencia"; "pib"; "ano"]
    [Row (Num 0) [NaT; Num 5; NaN];
     Row (Num 1) [NaT; Num 7; NaN]].

Definition undated_world : world := World {[ 1%positive := undated_frame ]} [].

(** ** From the database to the filtered frames (lines 96-179) *)

(** A frame as the page gets it from [fetch_data] (lines 104-108): what a
    call returned, which is the empty frame after a failure and has the
    ["data_referencia"] column the five queries select otherwise. *)
Definition fetched `{Database} `{Datetimes} (d : DataFrame) : Prop :=
  exists creds query log,
    fetch_data creds query = (inr d, log) /\
    (d = pd.empty_frame \/ pd.has_column "data_referencia" d = true).

(** The row has a timestamp in one of the years. *)
Definition in_years `{Datetimes} (years : list Z) (d : DataFrame) (r : row) : Prop :=
  exists t day,
    pd.index_of "data_referencia" (columns d) = Some t /\
    pd.cell_at t r = Date day /\ In (year_of day) years.

(** One fetch that worked and four that failed. *)
Definition fetched_world : world :=
  World (<[5%positive := pd.empty_frame]>
           (<[4%positive := pd.empty_frame]>
              (<[3%positive := pd.empty_frame]>
                 (<[2%positive := pd.empty_frame]> {[ 1%positive := selic_two ]})))) [].

Definition five_originals : originals :=
  Originals 1%positive 2%positive 3%positive 4%positive 5%positive.

(** ** The label of the period in the headers (lines 136-165) *)

(** [filter_label], which the headers of the charts and of the correlation
    show, computed along [selected_years_final]. *)
Definition filter_label (sb : sidebar) (sorted_years : list Z) : Py.exc + string :=
  match hist_filter_type sb with
  | AnosEspecificos =>
      let selected_years := hist_selected_years sb in
      let selected_years_final :=
        match selected_years with
        | [] => sorted_years
        | _ :: _ => selected_years
        end in
      inr (String.concat ", " (List.map Py.str (Py.sorted selected_years_final)))
  | Bienio =>
      let biennios_options := get_period_groups sorted_years 2 in
      match hist_selected_biennio sb with
      | Some selected_biennio_label =>
          if String.eqb selected_biennio_label "" then inr "Todos os Anos"%string
          else match biennio_dict biennios_options !! selected_biennio_label with
               | Some years => inr ("Biênio " +:+ selected_biennio_label)%string
               | None => inl (Py.KeyError selected_biennio_label)
               end
      | None => inr "Todos os Anos"%string
      end
  end.

(** * Properties *)

(** ** Period grouping *)

Lemma range_In a b y : In y (Py.range a b) <-> a <= y < b.
Proof.
  unfold Py.range. rewrite in_map_iff. split.
  - intros (i & <- & Hi). apply in_seq in Hi. lia.
  - intros Hy. exists (Z.to_nat (y - a)). split; [lia |]. apply in_seq. lia.
Qed.

Lemma fold_min_le l : forall a, fold_left Z.min l a <= a /\ forall x, In x l -> fold_left Z.min l a <= x.
Proof.
  induction l as [|b l IH]; intros a; simpl.
  - split; [lia | tauto].
  - destruct (IH (Z.min a b)) as [H1 H2]. split; [lia |].
    intros x [<- | Hx]; [lia | auto].
Qed.

Lemma fold_max_ge l : forall a, a <= fold_left Z.max l a /\ forall x, In x l -> x <= fold_left Z.max l a.
Proof.
  induction l as [|b l IH]; intros a; simpl.
  - split; [lia | tauto].
  - destruct (IH (Z.max a b)) as [H1 H2]. split; [lia |].
    intros x [<- | Hx]; [lia | auto].
Qed.

Lemma min_max_bounds y ys x : In x (y :: ys) -> Py.min y ys <= x <= Py.max y ys.
Proof.
  unfold Py.min, Py.max. destruct (fold_min_le ys y) as [H1 H2].
  destruct (fold_max_ge ys y) as [H3 H4].
  intros [<- | Hx]; [lia |]. split; auto.
Qed.

Lemma while_groups_stop min_year group_size Hgs current_year groups :
  current_year < min_year ->
  while_groups min_year group_size Hgs current_year groups = groups.
Proof.
  intros Hlt. simp while_groups.
  destruct (Z_lt_dec current_year min_year) as [Hl|Hge]; [reflexivity | lia].
Qed.

Lemma while_groups_step min_year group_size Hgs current_year groups :
  min_year <= current_year ->
  while_groups min_year group_size Hgs current_year groups =
  while_groups min_year group_size Hgs (current_year - group_size)
    (groups ++ [(code_label (Z.max min_year (current_year - (group_size - 1))) current_year,
                 Py.range (Z.max min_year (current_year - (group_size - 1))) (current_year + 1))]).
Proof.
  intros Hle. rewrite while_groups_equation_1.
  destruct (Z_lt_dec current_year min_year) as [Hlt|Hg]; [lia | reflexivity].
Qed.

Lemma while_groups_acc min_year group_size Hgs current_year groups :
  while_groups min_year group_size Hgs current_year groups =
  groups ++ while_groups min_year group_size Hgs current_year [].
Proof.
  remember (Z.to_nat (current_year - min_year + 1)) as n eqn:Hn.
  assert (Hb : (Z.to_nat (current_year - min_year + 1) <= n)%nat) by lia. clear Hn.
  revert current_year groups Hb.
  induction n as [|n IH]; intros cur groups Hb.
  - rewrite !while_groups_stop by lia. now rewrite app_nil_r.
  - destruct (Z_lt_dec cur min_year) as [Hlt|Hge].
    + rewrite !while_groups_stop by lia. now rewrite app_nil_r.
    + rewrite !(while_groups_step _ _ _ cur) by lia.
      rewrite (IH _ (groups ++ _)) by lia. rewrite (IH _ ([] ++ _)) by lia.
      now rewrite <- !app_assoc.
Qed.

Lemma while_groups_tiling min_year group_size Hgs current_year :
  tiling min_year current_year (while_groups min_year group_size Hgs current_year []).
Proof.
  remember (Z.to_nat (current_year - min_year + 1)) as n eqn:Hn.
  assert (Hb : (Z.to_nat (current_year - min_year + 1) <= n)%nat) by lia. clear Hn.
  revert current_year Hb.
  induction n as [|n IH]; intros cur Hb.
  - rewrite while_groups_stop by lia. constructor. lia.
  - destruct (Z_lt_dec cur min_year) as [Hlt|Hge].
    + rewrite while_groups_stop by lia. constructor. lia.
    + rewrite while_groups_step by lia. rewrite while_groups_acc. simpl.
      constructor; [lia | lia |].
      destruct (Z_lt_dec (cur - group_size) min_year) as [Hend|Hmore].
      * rewrite while_groups_stop by lia. constructor. lia.
      * replace (Z.max min_year (cur - (group_size - 1)) - 1) with (cur - group_size) by lia.
        apply IH. lia.
Qed.

Lemma get_period_groups_tiling y ys group_size :
  1 <= group_size ->
  tiling (Py.min y ys) (Py.max y ys) (get_period_groups (y :: ys) group_size).
Proof.
  intros Hgs. unfold get_period_groups.
  destruct (Z_lt_dec group_size 1) as [Hlt|Hge]; [lia |].
  apply while_groups_tiling.
Qed.

Lemma tiling_bounds min_year hi groups :
  tiling min_year hi groups ->
  forall g y, In g groups -> In y (snd g) -> min_year <= y <= hi.
Proof.
  induction 1 as [hi Hhi | hi s rest Hs Hhi Hrest IH]; intros g y Hg Hy.
  - destruct Hg.
  - destruct Hg as [<- | Hg].
    + simpl in Hy. apply range_In in Hy. lia.
    + specialize (IH g y Hg Hy). lia.
Qed.

Lemma tiling_cover min_year hi groups :
  tiling min_year hi groups ->
  forall y, min_year <= y <= hi -> exists i g, groups !! i = Some g /\ In y (snd g).
Proof.
  induction 1 as [hi Hhi | hi s rest Hs Hhi Hrest IH]; intros y Hy.
  - lia.
  - destruct (Z_lt_dec y s) as [Hlt|Hge].
    + destruct (IH y) as (i & g & Hi & Hin); [lia |].
      exists (S i), g. split; [exact Hi | exact Hin].
    + exists 0%nat, (code_label s hi, Py.range s (hi + 1)). split; [reflexivity |].
      simpl. apply range_In. lia.
Qed.

Lemma tiling_recent_first min_year hi groups :
  tiling min_year hi groups ->
  forall (i j : nat) g g' y y', (i < j)%nat ->
    groups !! i = Some g -> groups !! j = Some g' ->
    In y (snd g) -> In y' (snd g') -> y' < y.
Proof.
  induction 1 as [hi Hhi | hi s rest Hs Hhi Hrest IH]; intros i j g g' y y' Hij Hi Hj Hy Hy'.
  - discriminate.
  - destruct j as [|j]; [lia |]. simpl in Hj.
    destruct i as [|i].
    + simpl in Hi. injection Hi as <-. simpl in Hy. apply range_In in Hy.
      apply list_elem_of_lookup_2, list_elem_of_In in Hj.
      pose proof (tiling_bounds _ _ _ Hrest g' y' Hj Hy'). lia.
    + simpl in Hi. eapply (IH i j); eauto. lia.
Qed.

Lemma tiling_windows min_year hi groups :
  tiling min_year hi groups ->
  forall g, In g groups ->
    exists s e, s <= e /\ snd g = Py.range s (e + 1) /\ fst g = code_label s e.
Proof.
  induction 1 as [hi Hhi | hi s rest Hs Hhi Hrest IH]; intros g Hg.
  - destruct Hg.
  - destruct Hg as [<- | Hg]; [| auto].
    exists s, hi. simpl. auto.
Qed.

(** Claim C1.  For a non-empty list of years and a group size of at least 1,
    [get_period_groups] returns groups such that every input year is in
    exactly one group; every group is a window of consecutive years; a group
    and the next one are adjacent windows; no two groups share a year; and
    the groups come most recent first: every year of a group is later than
    every year of every later group. *)
Theorem get_period_groups_partition (years : list Z) (group_size : Z) :
  years <> [] -> 1 <= group_size ->
  let groups := get_period_groups years group_size in
  (forall y, In y years ->
     exists i g, groups !! i = Some g /\ In y (snd g) /\
       forall j g', groups !! j = Some g' -> In y (snd g') -> j = i) /\
  (forall g, In g groups -> exists s e, s <= e /\ snd g = Py.range s (e + 1)) /\
  (forall (i : nat) g g', groups !! i = Some g -> groups !! (S i) = Some g' ->
     exists s m e, snd g' = Py.range s m /\ snd g = Py.range m (e + 1)) /\
  (forall (i j : nat) g g' y, i <> j -> groups !! i = Some g -> groups !! j = Some g' ->
     In y (snd g) -> ~ In y (snd g')) /\
  (forall (i j : nat) g g' y y', (i < j)%nat -> groups !! i = Some g -> groups !! j = Some g' ->
     In y (snd g) -> In y' (snd g') -> y' < y).
Proof.
  intros Hne Hgs groups. destruct years as [|y0 ys]; [congruence |].
  pose proof (get_period_groups_tiling y0 ys group_size Hgs) as Ht. fold groups in Ht.
  assert (Hord := tiling_recent_first _ _ _ Ht).
  assert (Hdisj : forall (i j : nat) g g' y, i <> j -> groups !! i = Some g ->
            groups !! j = Some g' -> In y (snd g) -> ~ In y (snd g')).
  { intros i j g g' y Hij Hi Hj Hy Hy'.
    destruct (Nat.lt_total i j) as [Hlt | [Heq | Hgt]]; [| congruence |].
    - pose proof (Hord i j g g' y y Hlt Hi Hj Hy Hy'). lia.
    - pose proof (Hord j i g' g y y Hgt Hj Hi Hy' Hy). lia. }
  repeat split.
  - intros y Hy. apply min_max_bounds in Hy.
    destruct (tiling_cover _ _ _ Ht y Hy) as (i & g & Hi & Hin).
    exists i, g. repeat split; [exact Hi | exact Hin |].
    intros j g' Hj Hin'. destruct (Nat.eq_dec j i) as [-> | Hne']; [reflexivity |].
    exfalso. exact (Hdisj j i g' g y Hne' Hj Hi Hin' Hin).
  - intros g Hg. destruct (tiling_windows _ _ _ Ht g Hg) as (s & e & Hse & Hr & _). eauto.
  - clear Hord Hdisj. revert Ht. generalize (Py.max y0 ys). generalize groups.
    intros gs hi Ht. induction Ht as [hi Hhi | hi s rest Hs Hhi Hrest IH]; intros i g g' Hi Hi'.
    + discriminate.
    + destruct i as [|i].
      * simpl in Hi, Hi'. injection Hi as <-.
        inversion Hrest as [h Hh Heq1 Heq2 | h s' rest' Hs' Hh' Hrest' Heq1 Heq2];
          subst rest; [discriminate |].
        simpl in Hi'. injection Hi' as <-. simpl.
        exists s', s, hi. split; [f_equal; lia | reflexivity].
      * simpl in Hi, Hi'. eapply IH; eauto.
  - exact Hdisj.
  - exact Hord.
Qed.

Lemma get_period_groups_partition_witness :
  let groups := get_period_groups [2022; 2021; 2020; 2019] 2 in
  groups = [("2021-2022"%string, [2021; 2022]); ("2019-2020"%string, [2019; 2020])] /\
  (forall y, In y [2022; 2021; 2020; 2019] ->
     exists i g, groups !! i = Some g /\ In y (snd g) /\
       forall j g', groups !! j = Some g' -> In y (snd g') -> j = i).
Proof.
  split; [reflexivity |].
  apply (get_period_groups_partition [2022; 2021; 2020; 2019] 2); [discriminate | lia].
Defined.

Lemma get_period_groups_small_size years group_size :
  group_size < 1 -> get_period_groups years group_size = [].
Proof.
  intros Hgs. unfold get_period_groups. destruct years as [|y ys]; [reflexivity |].
  destruct (Z_lt_dec group_size 1) as [Hlt|Hge]; [reflexivity | lia].
Qed.

(** Claim C7.  [get_period_groups] fails closed: with an empty list of years,
    or with a group size below 1, it returns the empty list. *)
Theorem get_period_groups_fails_closed (years : list Z) (group_size : Z) :
  years = [] \/ group_size < 1 -> get_period_groups years group_size = [].
Proof.
  intros [-> | Hgs]; [reflexivity | now apply get_period_groups_small_size].
Qed.

Lemma get_period_groups_fails_closed_witness :
  get_period_groups [] 2 = [] /\ get_period_groups [2020; 2021] 0 = [].
Proof.
  split.
  - apply (get_period_groups_fails_closed [] 2). left. reflexivity.
  - apply (get_period_groups_fails_closed [2020; 2021] 0). right. lia.
Defined.

(** Against claim C2 as stated: for the years 2019 to 2021 in groups of 2,
    the last group is the one-year window of 2019, and its label is
    "2019-2019", not "2019". *)
Lemma single_year_window_label :
  ~ labels_as_specified [2021; 2020; 2019] 2.
Proof.
  intros Hspec.
  destruct (Hspec "2019-2019"%string [2019]) as (s & e & Hse & Hys & Hlabel).
  { right. left. reflexivity. }
  assert (Hs : In 2019 (Py.range s (e + 1))) by (rewrite <- Hys; left; reflexivity).
  assert (He : forall y, In y (Py.range s (e + 1)) -> y = 2019).
  { intros y Hy. rewrite <- Hys in Hy. destruct Hy as [<- | []]. reflexivity. }
  apply range_In in Hs.
  assert (s = 2019) by (apply He, range_In; lia).
  assert (e = 2019) by (apply He, range_In; lia).
  subst s e. discriminate Hlabel.
Qed.

(** Claim C2, as the code has it.  Every group [get_period_groups] returns
    is a window from a start year [s] to an end year [e], and its label is
    always ["{s}-{e}"], also for a window of one year; so it is the label the
    specification describes whenever the window spans more than one year. *)
Theorem get_period_groups_labels (years : list Z) (group_size : Z) (label : string) (ys : list Z) :
  In (label, ys) (get_period_groups years group_size) ->
  exists s e, s <= e /\ ys = Py.range s (e + 1) /\
    label = (Py.str s +:+ "-" +:+ Py.str e)%string /\
    (s < e -> label = spec_label s e).
Proof.
  intros Hin. destruct years as [|y0 ys0]; [destruct Hin |].
  destruct (Z_lt_dec group_size 1) as [Hlt|Hge].
  - rewrite get_period_groups_small_size in Hin by lia. destruct Hin.
  - pose proof (get_period_groups_tiling y0 ys0 group_size ltac:(lia)) as Ht.
    destruct (tiling_windows _ _ _ Ht _ Hin) as (s & e & Hse & Hr & Hl). simpl in Hr, Hl.
    exists s, e. repeat split; auto.
    intros Hlt'. unfold spec_label. destruct (Z.eqb_spec s e); [lia | exact Hl].
Qed.

Lemma get_period_groups_labels_witness :
  exists s e, s <= e /\ [2019] = Py.range s (e + 1) /\
    "2019-2019"%string = (Py.str s +:+ "-" +:+ Py.str e)%string /\
    (s < e -> "2019-2019"%string = spec_label s e).
Proof.
  apply (get_period_groups_labels [2021; 2020; 2019] 2 "2019-2019" [2019]).
  right. left. reflexivity.
Defined.

(** ** Sorting and frames *)

Section Sorting.
Context {A : Type} (leb : A -> A -> bool).
Hypothesis leb_total : forall x y, leb x y = false -> leb y x = true.

Lemma insert_by_perm x l : Permutation (Py.insert_by leb x l) (x :: l).
Proof.
  induction l as [|y l IH]; simpl; [reflexivity |].
  destruct (leb x y); [reflexivity |].
  rewrite IH. apply perm_swap.
Qed.

Lemma sort_by_perm l : Permutation (Py.sort_by leb l) l.
Proof.
  induction l as [|x l IH]; simpl; [reflexivity |].
  rewrite insert_by_perm. now constructor.
Qed.

Lemma insert_by_sorted x l :
  Sorted (fun a b => leb a b = true) l -> Sorted (fun a b => leb a b = true) (Py.insert_by leb x l).
Proof using leb_total.
  induction 1 as [|y l Hl IH Hhd]; simpl; [repeat constructor |].
  destruct (leb x y) eqn:Hxy.
  - constructor; [constructor; assumption | constructor; exact Hxy].
  - constructor; [exact IH |].
    destruct l as [|z l]; simpl.
    + constructor. auto.
    + destruct (leb x z); constructor; [auto |]. now inversion Hhd.
Qed.

Lemma sort_by_sorted l : Sorted (fun a b => leb a b = true) (Py.sort_by leb l).
Proof using leb_total.
  induction l as [|x l IH]; simpl; [constructor |]. now apply insert_by_sorted.
Qed.

Lemma sort_by_fixed l : Sorted (fun a b => leb a b = true) l -> Py.sort_by leb l = l.
Proof.
  induction 1 as [|x l Hl IH Hhd]; simpl; [reflexivity |].
  rewrite IH. destruct Hhd as [|y l' Hxy]; simpl; [reflexivity |]. now rewrite Hxy.
Qed.

Lemma sort_by_idempotent l : Py.sort_by leb (Py.sort_by leb l) = Py.sort_by leb l.
Proof using leb_total. apply sort_by_fixed, sort_by_sorted. Qed.

End Sorting.

Lemma key_leb_total a b : pd.key_leb a b = false -> pd.key_leb b a = true.
Proof.
  unfold pd.key_leb.
  destruct a as [p|d|s| |], b as [q|e|t| |]; simpl; try congruence.
  - intros Hpq. destruct (Qle_bool q p) eqn:Hqp; [reflexivity |].
    exfalso. assert (~ (p <= q)%Q) by (rewrite <- Qle_bool_iff; congruence).
    assert (~ (q <= p)%Q) by (rewrite <- Qle_bool_iff; congruence).
    destruct (Qlt_le_dec p q) as [Hlt | Hle]; [apply Qlt_le_weak in Hlt |]; tauto.
  - intros Hde. apply Z.leb_le. apply Z.leb_gt in Hde. lia.
  - unfold String.leb. rewrite (String.compare_antisym s t).
    destruct (String.compare t s); simpl; congruence.
Qed.

Lemma index_of_none name cols :
  pd.index_of name cols = None <-> existsb (String.eqb name) cols = false.
Proof.
  induction cols as [|c cols IH]; simpl; [tauto |].
  destruct (String.eqb name c); simpl; [split; discriminate |].
  destruct (pd.index_of name cols); simpl in *; [| tauto].
  split; [discriminate |]. intros E. apply IH in E. discriminate.
Qed.

Lemma has_column_index_of name d :
  pd.has_column name d = true <-> exists i, pd.index_of name (columns d) = Some i.
Proof.
  unfold pd.has_column. pose proof (index_of_none name (columns d)) as Hn.
  destruct (pd.index_of name (columns d)) as [i|].
  - split; [eauto |]. intros _. destruct (existsb _ _); [reflexivity |]. destruct Hn as [_ Hn].
    discriminate (Hn eq_refl).
  - destruct Hn as [Hn _]. rewrite (Hn eq_refl). split; [discriminate |]. intros [i Hi]. discriminate.
Qed.

Lemma index_of_lookup name cols i :
  pd.index_of name cols = Some i -> cols !! i = Some name.
Proof.
  revert i. induction cols as [|c cols IH]; intros i; simpl; [discriminate |].
  destruct (String.eqb_spec name c) as [-> | Hne].
  - now intros [= <-].
  - destruct (pd.index_of name cols) as [j|]; simpl; [| discriminate].
    intros [= <-]. simpl. now apply IH.
Qed.

Lemma index_of_inj a b cols i :
  pd.index_of a cols = Some i -> pd.index_of b cols = Some i -> a = b.
Proof.
  intros Ha Hb. apply index_of_lookup in Ha, Hb. congruence.
Qed.

Lemma lookup_index_of (cols : list string) (i : nat) name :
  cols !! i = Some name -> exists j, pd.index_of name cols = Some j.
Proof.
  intros Hi. destruct (pd.index_of name cols) as [j|] eqn:Hj; [eauto |].
  apply index_of_none in Hj. exfalso.
  assert (Hex : existsb (String.eqb name) cols = true).
  { apply existsb_exists. exists name. split; [| apply String.eqb_refl].
    apply list_elem_of_In. eapply list_elem_of_lookup_2; eauto. }
  congruence.
Qed.

Lemma zip_with_map_self {A B C : Type} (f : B -> A -> C) (g : A -> B) (l : list A) :
  zip_with f (List.map g l) l = List.map (fun r => f (g r) r) l.
Proof. induction l as [|x l IH]; simpl; [reflexivity | now rewrite IH]. Qed.

Lemma filter_combine_map {A : Type} (h : A -> bool) (l : list A) :
  List.map fst (List.filter snd (combine l (List.map h l))) = List.filter h l.
Proof.
  induction l as [|x l IH]; simpl; [reflexivity |].
  destruct (h x); simpl; now rewrite IH.
Qed.

Lemma cell_at_lookup i r : pd.cell_at i r = default NaN (cells r !! i).
Proof. unfold pd.cell_at. apply nth_lookup. Qed.

Lemma cell_at_set_cell_ne t i v r : t <> i -> pd.cell_at t (pd.set_cell i v r) = pd.cell_at t r.
Proof.
  intros Hne. rewrite !cell_at_lookup. simpl. now rewrite list_lookup_insert_ne.
Qed.

Lemma cell_at_set_cell_eq i v r :
  pd.cell_at i (pd.set_cell i v r) = if (i <? length (cells r))%nat then v else NaN.
Proof.
  rewrite cell_at_lookup. simpl. destruct (Nat.ltb_spec i (length (cells r))) as [Hlt | Hge].
  - now rewrite list_lookup_insert_eq.
  - rewrite list_insert_ge by lia. now rewrite lookup_ge_None_2.
Qed.

Lemma set_cell_same i r c : pd.cell_at i r = c -> c <> NaN -> pd.set_cell i c r = r.
Proof.
  intros Hc Hne. destruct r as [lbl cs]. unfold pd.set_cell. simpl. f_equal.
  rewrite cell_at_lookup in Hc. simpl in Hc.
  destruct (cs !! i) as [c'|] eqn:Hi; simpl in Hc; [| congruence].
  subst c'. now apply list_insert_id.
Qed.

Section Filter.
Context `{Pandas}.

Lemma filter_df_by_years_guard w df d years :
  heap w !! df = Some d ->
  pd.empty d = true \/ pd.has_column "ano" d = false ->
  filter_df_by_years df years w = (inr df, w).
Proof.
  intros Hd Hg. unfold filter_df_by_years, mbind, script_bind, load. rewrite Hd.
  destruct Hg as [-> | ->]; [reflexivity |]. now rewrite orb_true_r.
Qed.

Lemma filter_df_by_years_run w df d years i :
  heap w !! df = Some d -> pd.empty d = false ->
  pd.index_of "ano" (columns d) = Some i ->
  let l1 := fresh (dom (heap w)) in
  let h1 := <[l1 := Frame (columns d) (List.map (coerce_year i) (rows d))]>
              (<[l1 := d]> (heap w)) in
  filter_df_by_years df years w =
    match pd.sort_values "data_referencia"
            (Frame (columns d) (filtered_rows i years (rows d))) with
    | inl e => (inl e, World h1 (ui w))
    | inr s => (inr (fresh (dom h1)), World (<[fresh (dom h1) := s]> h1) (ui w))
    end.
Proof.
  intros Hd He Hi l1 h1.
  assert (Hc : pd.has_column "ano" d = true) by (apply has_column_index_of; eauto).
  unfold filter_df_by_years, mbind, script_bind, load. rewrite Hd, He, Hc. simpl.
  fold l1. rewrite lookup_insert_eq. unfold lift, pd.getitem. rewrite Hi.
  unfold modify. simpl. rewrite lookup_insert_eq. simpl. rewrite lookup_insert_eq.
  unfold pd.setitem. rewrite Hi. simpl. rewrite Hi.
  rewrite (List.map_map (pd.cell_at i) pd.to_numeric_coerce), zip_with_map_self.
  change (fun r => pd.set_cell i (pd.to_numeric_coerce (pd.cell_at i r)) r) with (coerce_year i).
  unfold pd.getitem_mask. simpl.
  rewrite (List.map_map (pd.cell_at i) (pd.isin years)), filter_combine_map.
  fold (filtered_rows i years (rows d)). fold h1.
  destruct (pd.sort_values _ _) as [e | s]; reflexivity.
Qed.

End Filter.

Lemma datetime_kinds l :
  pd.is_datetime64 l = true ->
  pd.kinds_agree None l = true /\ pd.kinds_agree (Some 1%nat) l = true.
Proof.
  induction l as [|c l IH]; simpl; [auto |].
  destruct c; simpl; try discriminate; intros Hl; destruct (IH Hl); auto.
Qed.

Lemma datetime_sortable l : pd.is_datetime64 l = true -> pd.sortable l = true.
Proof. intros Hl. now destruct (datetime_kinds l Hl). Qed.

Lemma datetime_incl l l' :
  (forall c, In c l' -> In c l) -> pd.is_datetime64 l = true -> pd.is_datetime64 l' = true.
Proof.
  unfold pd.is_datetime64. intros Hincl Hl. apply forallb_forall. intros c Hc.
  rewrite forallb_forall in Hl. auto.
Qed.

Lemma isin_num years c :
  pd.isin years c = true -> exists q, c = Num q.
Proof. destruct c; simpl; try discriminate. eauto. Qed.

Lemma isin_spec years c :
  pd.isin years c = true <-> exists q y, c = Num q /\ In y years /\ (q == inject_Z y)%Q.
Proof.
  split.
  - destruct c as [q| | | |]; simpl; try discriminate.
    intros Hex. apply existsb_exists in Hex as (y & Hy & Hq).
    apply Qeq_bool_iff in Hq. eauto.
  - intros (q & y & -> & Hy & Hq). simpl. apply existsb_exists. exists y.
    split; [exact Hy |]. now apply Qeq_bool_iff.
Qed.

Lemma insert_keeps (h : gmap loc DataFrame) k v l :
  is_Some (h !! l) -> is_Some (<[k := v]> h !! l).
Proof.
  intros Hl. destruct (decide (k = l)) as [-> | Hne].
  - rewrite lookup_insert_eq. eauto.
  - now rewrite lookup_insert_ne.
Qed.

Lemma fresh_not_allocated (h h' : gmap loc DataFrame) :
  (forall l, is_Some (h !! l) -> is_Some (h' !! l)) -> h !! fresh (dom h') = None.
Proof.
  intros Hsub. destruct (h !! fresh (dom h')) as [x|] eqn:E; [| reflexivity].
  exfalso. apply (is_fresh (dom h')). apply elem_of_dom. apply Hsub. eauto.
Qed.

Section FilterProperties.
Context `{Pandas}.

Lemma coerce_year_timestamp t i r : t <> i -> pd.cell_at t (coerce_year i r) = pd.cell_at t r.
Proof. intros Hne. unfold coerce_year. now apply cell_at_set_cell_ne. Qed.

Lemma coerce_year_fixed i years r :
  pd.isin years (pd.cell_at i r) = true -> coerce_year i r = r.
Proof.
  intros Hin. destruct (isin_num _ _ Hin) as [q Hq]. unfold coerce_year.
  rewrite Hq. simpl. apply set_cell_same; [exact Hq | discriminate].
Qed.

Lemma coerce_year_missing i r :
  pd.to_numeric_coerce (pd.cell_at i r) = NaN -> pd.cell_at i (coerce_year i r) = NaN.
Proof.
  intros Hc. unfold coerce_year. rewrite cell_at_set_cell_eq, Hc.
  now destruct (_ <? _)%nat.
Qed.

Lemma filtered_rows_In i years l r :
  In r (filtered_rows i years l) ->
  pd.isin years (pd.cell_at i r) = true /\ exists r0, In r0 l /\ r = coerce_year i r0.
Proof.
  unfold filtered_rows. rewrite filter_In, in_map_iff.
  intros [(r0 & <- & Hr0) Hin]. eauto.
Qed.


Lemma filtered_rows_datetime t i years l :
  t <> i -> pd.is_datetime64 (List.map (pd.cell_at t) l) = true ->
  pd.is_datetime64 (List.map (pd.cell_at t) (filtered_rows i years l)) = true.
Proof.
  intros Hne. apply datetime_incl. intros c Hc.
  apply in_map_iff in Hc as (r & <- & Hr).
  apply filtered_rows_In in Hr as (_ & r0 & Hr0 & ->).
  rewrite coerce_year_timestamp by exact Hne. now apply in_map.
Qed.

Lemma timestamp_not_year d i t :
  pd.index_of "ano" (columns d) = Some i ->
  pd.index_of "data_referencia" (columns d) = Some t -> t <> i.
Proof.
  intros Hi Ht ->. pose proof (index_of_inj _ _ _ _ Hi Ht). discriminate.
Qed.

(** The frame the filter returns for a frame with years and timestamps. *)
Lemma filter_df_by_years_value w df d years i t :
  heap w !! df = Some d -> pd.empty d = false ->
  pd.index_of "ano" (columns d) = Some i ->
  pd.index_of "data_referencia" (columns d) = Some t ->
  pd.is_datetime64 (List.map (pd.cell_at t) (rows d)) = true ->
  exists res w',
    filter_df_by_years df years w = (inr res, w') /\
    heap w !! res = None /\
    heap w' !! res =
      Some (Frame (columns d) (sorted_by_timestamp t (filtered_rows i years (rows d)))).
Proof.
  intros Hd He Hi Ht Hdt.
  pose proof (timestamp_not_year d i t Hi Ht) as Hne.
  rewrite (filter_df_by_years_run w df d years i Hd He Hi).
  unfold pd.sort_values. simpl. rewrite Ht.
  rewrite datetime_sortable by (now apply filtered_rows_datetime).
  do 2 eexists. split; [exact eq_refl |]. simpl. split.
  - apply fresh_not_allocated. intros l Hl. now do 2 apply insert_keeps.
  - now rewrite lookup_insert_eq.
Qed.

End FilterProperties.

(** *** The order of rows with equal timestamps *)

Lemma key_leb_datetime_trans a b c :
  pd.is_datetime64 [a; b; c] = true ->
  pd.key_leb a b = true -> pd.key_leb b c = true -> pd.key_leb a c = true.
Proof.
  destruct a, b, c; simpl; try discriminate; try reflexivity; unfold pd.key_leb; simpl;
    try discriminate.
  intros _ Hab Hbc. apply Z.leb_le in Hab, Hbc. apply Z.leb_le. lia.
Qed.

Lemma key_leb_datetime_antisym a b :
  pd.is_datetime64 [a; b] = true ->
  pd.key_leb a b = true -> pd.key_leb b a = true -> a = b.
Proof.
  destruct a, b; simpl; try discriminate; try reflexivity; unfold pd.key_leb; simpl;
    try discriminate.
  intros _ Hab Hba. apply Z.leb_le in Hab, Hba. f_equal. lia.
Qed.

Lemma datetime_In l c :
  pd.is_datetime64 l = true -> In c l -> pd.is_datetime64 [c] = true.
Proof.
  unfold pd.is_datetime64. rewrite forallb_forall. intros Hl Hc. simpl.
  now rewrite (Hl c Hc).
Qed.

Lemma datetime_three a b c :
  pd.is_datetime64 [a] = true -> pd.is_datetime64 [b] = true -> pd.is_datetime64 [c] = true ->
  pd.is_datetime64 [a; b; c] = true.
Proof. simpl. destruct a, b, c; simpl; congruence. Qed.

Lemma datetime_two a b :
  pd.is_datetime64 [a] = true -> pd.is_datetime64 [b] = true ->
  pd.is_datetime64 [a; b] = true.
Proof. simpl. destruct a, b; simpl; congruence. Qed.

(** In an ascending list of timestamped rows the first row is not later
    than any other. *)
Lemma ascending_head t x l :
  pd.is_datetime64 (List.map (pd.cell_at t) (x :: l)) = true ->
  ascending t (x :: l) ->
  forall z, In z l -> pd.key_leb (pd.cell_at t x) (pd.cell_at t z) = true.
Proof.
  revert x. induction l as [|y l IH]; intros x Hdt Hs z Hz; [destruct Hz |].
  apply Sorted_inv in Hs as [Hs Hhd]. apply HdRel_inv in Hhd.
  destruct Hz as [<- | Hz]; [exact Hhd |].
  assert (Hdt' : pd.is_datetime64 (List.map (pd.cell_at t) (y :: l)) = true).
  { revert Hdt. apply datetime_incl. intros c Hc. now right. }
  specialize (IH y Hdt' Hs z Hz).
  apply (key_leb_datetime_trans _ (pd.cell_at t y)); [| exact Hhd | exact IH].
  apply datetime_three; apply (datetime_In _ _ Hdt).
  - now left.
  - right. now left.
  - right. right. now apply in_map.
Qed.

(** Rows with distinct timestamps have one ascending order only. *)
Lemma ascending_unique t l1 : forall l2,
  Permutation l1 l2 ->
  pd.is_datetime64 (List.map (pd.cell_at t) l1) = true ->
  List.NoDup (List.map (pd.cell_at t) l1) ->
  ascending t l1 -> ascending t l2 -> l1 = l2.
Proof.
  induction l1 as [|x l1 IH]; intros l2 Hperm Hdt Hnd Hs1 Hs2.
  - apply Permutation_nil in Hperm. now subst.
  - destruct l2 as [|y l2]; [apply Permutation_sym, Permutation_nil in Hperm; discriminate |].
    assert (Hdt2 : pd.is_datetime64 (List.map (pd.cell_at t) (y :: l2)) = true).
    { revert Hdt. apply datetime_incl. intros c Hc. apply in_map_iff in Hc as (r & <- & Hr).
      apply in_map. now apply (Permutation_in _ (Permutation_sym Hperm)). }
    assert (Hxy : x = y).
    { assert (Hy : In y (x :: l1))
        by (apply (Permutation_in _ (Permutation_sym Hperm)); now left).
      destruct Hy as [Hy | Hy]; [exact Hy | exfalso].
      assert (Hx : In x (y :: l2)) by (apply (Permutation_in _ Hperm); now left).
      assert (Hle : pd.key_leb (pd.cell_at t x) (pd.cell_at t y) = true)
        by now apply (ascending_head t x l1).
      assert (Hkey : pd.cell_at t x = pd.cell_at t y).
      { destruct Hx as [Hx | Hx]; [now subst |].
        apply key_leb_datetime_antisym; [| exact Hle | now apply (ascending_head t y l2)].
        apply datetime_two; apply (datetime_In _ _ Hdt); [now left |].
        right. now apply in_map. }
      simpl in Hnd. apply List.NoDup_cons_iff in Hnd as [Hnot _]. apply Hnot.
      rewrite Hkey. now apply in_map. }
    subst y. f_equal. apply IH.
    + now apply Permutation_cons_inv in Hperm.
    + revert Hdt. apply datetime_incl. intros c Hc. now right.
    + simpl in Hnd. now apply List.NoDup_cons_iff in Hnd.
    + now apply Sorted_inv in Hs1.
    + now apply Sorted_inv in Hs2.
Qed.

(** Whatever pandas does with equal keys, [sort_values] returns the rows it
    got, in ascending order. *)
Lemma sorted_by_timestamp_perm `{Pandas} t l : Permutation (sorted_by_timestamp t l) l.
Proof. unfold sorted_by_timestamp. rewrite sort_by_perm. apply tie_order_perm. Qed.

Lemma sorted_by_timestamp_In `{Pandas} t l r : In r (sorted_by_timestamp t l) <-> In r l.
Proof.
  split; apply Permutation_in; [| symmetry]; apply sorted_by_timestamp_perm.
Qed.

Lemma sorted_by_timestamp_ascending `{Pandas} t l : ascending t (sorted_by_timestamp t l).
Proof. apply sort_by_sorted. intros a b. apply key_leb_total. Qed.

Lemma sorted_by_timestamp_datetime `{Pandas} t l :
  pd.is_datetime64 (List.map (pd.cell_at t) l) = true ->
  pd.is_datetime64 (List.map (pd.cell_at t) (sorted_by_timestamp t l)) = true.
Proof.
  apply datetime_incl. intros c Hc. apply in_map_iff in Hc as (r & <- & Hr).
  apply in_map. now apply sorted_by_timestamp_In in Hr.
Qed.

(** The model leaves no sort out: a sort that returns the rows in ascending
    order, in whatever order it puts equal timestamps, is what
    [sorted_by_timestamp] returns when it is taken for the [tie_order]. *)
Lemma every_sort_is_a_tie_order t (sort : list row -> list row) l :
  ascending t (sort l) ->
  Py.sort_by (fun a b => pd.key_leb (pd.cell_at t a) (pd.cell_at t b)) (sort l) = sort l.
Proof. apply sort_by_fixed. Qed.

(** With timestamps that are all different there is one ascending order, so
    the choice does not show: rows in ascending order stay as they are. *)
Lemma sorted_by_timestamp_fixed `{Pandas} t l :
  pd.is_datetime64 (List.map (pd.cell_at t) l) = true ->
  List.NoDup (List.map (pd.cell_at t) l) ->
  ascending t l -> sorted_by_timestamp t l = l.
Proof.
  intros Hdt Hnd Hasc. symmetry. apply (ascending_unique t l); auto.
  - symmetry. apply sorted_by_timestamp_perm.
  - apply sorted_by_timestamp_ascending.
Qed.

Lemma NoDup_map_filter {A B : Type} (f : A -> B) (p : A -> bool) l :
  List.NoDup (List.map f l) -> List.NoDup (List.map f (List.filter p l)).
Proof.
  induction l as [|x l IH]; simpl; intros Hnd; [constructor |].
  apply List.NoDup_cons_iff in Hnd as [Hnew Hnd]. destruct (p x); simpl; [| now apply IH].
  constructor; [| now apply IH]. intros Hin. apply Hnew.
  apply in_map_iff in Hin as (y & Hy & Hin). apply filter_In in Hin as [Hin _].
  apply in_map_iff. eauto.
Qed.

Lemma filtered_rows_distinct `{Pandas} t i years l :
  t <> i -> List.NoDup (List.map (pd.cell_at t) l) ->
  List.NoDup (List.map (pd.cell_at t) (filtered_rows i years l)).
Proof.
  intros Hne Hnd. unfold filtered_rows. apply NoDup_map_filter.
  rewrite List.map_map.
  rewrite (map_ext _ (pd.cell_at t)); [exact Hnd |].
  intros r. now apply coerce_year_timestamp.
Qed.

Section FilterClaims.
Context `{Pandas}.

(** Claim C4.  [filter_df_by_years] returns its input, with nothing changed,
    when the frame is empty or has no ["ano"] column.  Otherwise, for a frame
    with timestamps in ["data_referencia"], it returns without raising a
    frame with the same columns whose rows are exactly the rows whose year,
    coerced to a number, is one of [years], in ascending order of timestamp;
    a row whose year is missing or fails the coercion is not among them. *)
Theorem filter_df_by_years_rows (w : world) (df : loc) (d : DataFrame) (years : list Z) :
  heap w !! df = Some d ->
  (pd.empty d = true \/ pd.has_column "ano" d = false ->
     filter_df_by_years df years w = (inr df, w)) /\
  (forall i t,
     pd.empty d = false -> pd.index_of "ano" (columns d) = Some i ->
     pd.index_of "data_referencia" (columns d) = Some t ->
     pd.is_datetime64 (List.map (pd.cell_at t) (rows d)) = true ->
     exists res w' d',
       filter_df_by_years df years w = (inr res, w') /\
       heap w' !! res = Some d' /\
       columns d' = columns d /\
       Permutation (rows d')
         (List.filter (fun r => pd.isin years (pd.cell_at i r))
            (List.map (coerce_year i) (rows d))) /\
       ascending t (rows d') /\
       (forall r, In r (rows d) -> pd.to_numeric_coerce (pd.cell_at i r) = NaN ->
          ~ In (coerce_year i r) (rows d'))).
Proof.
  intros Hd. split; [now apply filter_df_by_years_guard |].
  intros i t He Hi Ht Hdt.
  destruct (filter_df_by_years_value w df d years i t Hd He Hi Ht Hdt)
    as (res & w' & Hrun & _ & Hres).
  exists res, w'. eexists. split; [exact Hrun |]. split; [exact Hres |]. simpl.
  split; [reflexivity |]. split; [apply sorted_by_timestamp_perm |].
  split.
  - apply sorted_by_timestamp_ascending.
  - intros r Hr Hnan Hin.
    apply sorted_by_timestamp_In in Hin.
    apply filtered_rows_In in Hin as [Hsel _].
    rewrite coerce_year_missing in Hsel by exact Hnan. discriminate.
Qed.


(** Claim C9, as the code has it.  [filter_df_by_years] never changes a frame
    that exists when it is called, the input least of all, and shows nothing
    on the page.  What it returns is an object that did not exist before when
    the frame is not empty and has an ["ano"] column; when the frame is empty
    or has no such column it is the input object itself, with the world as it
    was. *)
Theorem filter_df_by_years_keeps_input (w : world) (df : loc) (d : DataFrame) (years : list Z) :
  heap w !! df = Some d ->
  let out := filter_df_by_years df years w in
  heap (snd out) !! df = Some d /\
  (forall l x, heap w !! l = Some x -> heap (snd out) !! l = Some x) /\
  ui (snd out) = ui w /\
  (forall res, fst out = inr res ->
     if pd.empty d || negb (pd.has_column "ano" d)
     then res = df /\ snd out = w
     else heap w !! res = None).
Proof.
  intros Hd out.
  destruct (pd.empty d || negb (pd.has_column "ano" d)) eqn:Hg.
  - assert (Hout : out = (inr df, w)).
    { apply (filter_df_by_years_guard w df d years Hd).
      apply orb_true_iff in Hg as [Hg | Hg]; [now left | right].
      now apply negb_true_iff. }
    rewrite Hout. simpl. split; [exact Hd |]. split; [auto |]. split; [reflexivity |].
    now intros res [= <-].
  - apply orb_false_iff in Hg as [He Hc]. apply negb_false_iff in Hc.
    apply has_column_index_of in Hc as [i Hi].
    pose proof (filter_df_by_years_run w df d years i Hd He Hi) as Hrun. simpl in Hrun.
    fold out in Hrun.
    set (l1 := fresh (dom (heap w))) in *.
    set (h1 := <[l1 := _]> (<[l1 := d]> (heap w))) in *.
    assert (Hl1 : heap w !! l1 = None) by (apply fresh_not_allocated; auto).
    assert (Hh1 : forall l x, heap w !! l = Some x -> h1 !! l = Some x).
    { intros l x Hl. unfold h1. rewrite !lookup_insert_ne by congruence. exact Hl. }
    destruct (pd.sort_values _ _) as [e | s]; rewrite Hrun; simpl.
    + split; [eauto |]. split; [exact Hh1 |]. split; [reflexivity | discriminate].
    + assert (Hl2 : heap w !! fresh (dom h1) = None).
      { apply fresh_not_allocated. intros l [x Hl]. rewrite (Hh1 l x Hl). eauto. }
      assert (Hh2 : forall l x, heap w !! l = Some x -> <[fresh (dom h1) := s]> h1 !! l = Some x).
      { intros l x Hl. rewrite lookup_insert_ne by congruence. auto. }
      split; [eauto |]. split; [exact Hh2 |]. split; [reflexivity |]. now intros res [= <-].
Qed.

End FilterClaims.

(** Against claim C9 as stated: for the empty frame of a failed fetch the
    filter returns the very object it was given, not a new one. *)
Lemma filter_returns_empty_input :
  ~ @returns_new_copy decimal_pandas failed_fetch_world 1%positive [2020].
Proof.
  intros Hnew. destruct (Hnew pd.empty_frame eq_refl) as [_ Hres].
  specialize (Hres 1%positive eq_refl). discriminate Hres.
Qed.

Lemma filter_df_by_years_rows_witness :
  exists res w' d',
    @filter_df_by_years decimal_pandas 1%positive [2019; 2020] selic_world = (inr res, w') /\
    heap w' !! res = Some d' /\
    rows d' = [Row (Num 2) [Date 18200; Num 3; Num 2019];
               Row (Num 5) [Date 18250; Num 7; Num 2019];
               Row (Num 0) [Date 18300; Num 1; Num 2020]].
Proof.
  destruct (@filter_df_by_years_rows decimal_pandas selic_world 1%positive selic_frame
              [2019; 2020] eq_refl) as [_ Hrows].
  destruct (Hrows 2%nat 0%nat eq_refl eq_refl eq_refl eq_refl)
    as (res & w' & d' & Hrun & Hres & _).
  exists res, w', d'. split; [exact Hrun |]. split; [exact Hres |].
  vm_compute in Hrun. injection Hrun as <- <-. vm_compute in Hres. now injection Hres as <-.
Defined.



Lemma filter_df_by_years_keeps_input_witness :
  heap (snd (@filter_df_by_years decimal_pandas 1%positive [2019; 2020] selic_world))
    !! 1%positive = Some selic_frame.
Proof.
  exact (proj1 (@filter_df_by_years_keeps_input decimal_pandas selic_world 1%positive
                  selic_frame [2019; 2020] eq_refl)).
Defined.

(** ** The sidebar *)

Lemma load_run w l d : heap w !! l = Some d -> load l w = (inr d, w).
Proof. intros Hl. unfold load. now rewrite Hl. Qed.

Lemma bind_run {A B : Type} (m : script A) (f : A -> script B) w :
  (m ≫= f) w = match m w with
               | (inr x, w') => f x w'
               | (inl e, w') => (inl e, w')
               end.
Proof. reflexivity. Qed.

Lemma same_key_refl c : pd.same_key c c = true.
Proof.
  destruct c as [q|d|s| |]; simpl; auto.
  - apply Qeq_bool_iff. reflexivity.
  - apply Z.eqb_refl.
  - apply String.eqb_refl.
Qed.

Lemma set_add_incl s x c : In c s -> In c (set_add s x).
Proof.
  intros Hc. unfold set_add. destruct (existsb _ _); [exact Hc |].
  apply in_or_app. now left.
Qed.

Lemma set_add_represented s x : represented (set_add s x) x.
Proof.
  unfold set_add, represented. destruct (existsb (pd.same_key x) s) eqn:Hex.
  - apply existsb_exists in Hex as (c' & Hc' & Hk). eauto.
  - exists x. split; [apply in_or_app; right; now left | apply same_key_refl].
Qed.

Lemma set_update_incl values : forall s c, In c s -> In c (set_update s values).
Proof.
  induction values as [|v values IH]; intros s c Hc; simpl; [exact Hc |].
  apply IH. now apply set_add_incl.
Qed.

Lemma set_update_represented values : forall s c, In c values -> represented (set_update s values) c.
Proof.
  induction values as [|v values IH]; intros s c Hc; simpl; [destruct Hc |].
  destruct Hc as [<- | Hc]; [| now apply IH].
  destruct (set_add_represented s v) as (c' & Hc' & Hk).
  exists c'. split; [| exact Hk]. now apply set_update_incl.
Qed.

Lemma represented_update s values c :
  represented s c -> represented (set_update s values) c.
Proof. intros (c' & Hc' & Hk). exists c'. split; [now apply set_update_incl | exact Hk]. Qed.

Lemma quot_Qeq p q : (p == q)%Q -> Qnum p ÷ Zpos (Qden p) = Qnum q ÷ Zpos (Qden q).
Proof.
  unfold Qeq. intros Heq.
  rewrite <- (Z.quot_mul_cancel_r (Qnum p) (Zpos (Qden p)) (Zpos (Qden q))) by lia.
  rewrite Heq, (Z.mul_comm (Zpos (Qden p))).
  apply Z.quot_mul_cancel_r; lia.
Qed.

Lemma same_key_isna c c' : pd.same_key c c' = true -> pd.isna c' = pd.isna c.
Proof. destruct c, c'; simpl; congruence. Qed.

Lemma same_key_int `{Python} c c' : pd.same_key c c' = true -> py_int c' = py_int c.
Proof.
  destruct c as [p|d|s| |], c' as [q|e|t| |]; simpl; try congruence.
  - intros Hk. apply Qeq_bool_iff in Hk. f_equal. symmetry. now apply quot_Qeq.
  - intros Hk. apply String.eqb_eq in Hk. now subst t.
Qed.

Lemma for_each_lift {A B : Type} (f : A -> Py.exc + B) (l : list A) w :
  forall r w', for_each (fun x => lift (f x)) l w = (r, w') ->
    w' = w /\ forall ys, r = inr ys -> Forall2 (fun x y => f x = inr y) l ys.
Proof.
  induction l as [|x l IH]; simpl; intros r w' Hrun.
  - injection Hrun as <- <-. split; [reflexivity |]. intros ys [= <-]. constructor.
  - rewrite bind_run in Hrun. unfold lift at 1 in Hrun. destruct (f x) as [e | y] eqn:Hx.
    + injection Hrun as <- <-. split; [reflexivity | discriminate].
    + rewrite bind_run in Hrun.
      destruct (for_each (fun x => lift (f x)) l w) as [[e | ys'] w1] eqn:Hrest.
      * injection Hrun as <- <-. destruct (IH _ _ eq_refl) as [-> _].
        split; [reflexivity | discriminate].
      * unfold mret, script_ret in Hrun. injection Hrun as <- <-.
        destruct (IH _ _ eq_refl) as [-> Hys]. split; [reflexivity |].
        intros ys [= <-]. constructor; [exact Hx | now apply Hys].
Qed.

Lemma update_all_years_run s df w r w' :
  update_all_years s df w = (r, w') ->
  w' = w /\ forall s', r = inr s' ->
    exists d, heap w !! df = Some d /\
      (forall c, represented s c -> represented s' c) /\
      (forall col c, pd.empty d = false -> pd.getitem "ano" d = inr col -> In c col ->
         represented s' c).
Proof.
  unfold update_all_years, mbind, script_bind, load.
  destruct (heap w !! df) as [d|] eqn:Hd.
  2:{ intros [= <- <-]. split; [reflexivity | discriminate]. }
  destruct (negb (pd.empty d) && pd.has_column "ano" d) eqn:Hg.
  - apply andb_true_iff in Hg as [He Hc]. apply negb_true_iff in He.
    unfold lift. destruct (pd.getitem "ano" d) as [e | col] eqn:Hcol.
    + intros [= <- <-]. split; [reflexivity | discriminate].
    + unfold mret, script_ret. intros [= <- <-]. split; [reflexivity |].
      intros s' [= <-]. exists d. split; [reflexivity |]. split.
      * intros c. apply represented_update.
      * intros col' c _ Hcol' Hc'. assert (col' = col) as -> by congruence.
        now apply set_update_represented.
  - unfold mret, script_ret. intros [= <- <-]. split; [reflexivity |].
    intros s' [= <-]. exists d. split; [reflexivity |]. split; [auto |].
    intros col c He Hcol Hc. exfalso.
    assert (Hhas : pd.has_column "ano" d = true).
    { unfold pd.has_column. unfold pd.getitem in Hcol.
      destruct (pd.index_of "ano" (columns d)) as [i|] eqn:Hi; [| discriminate].
      destruct (existsb _ _) eqn:Hex; [reflexivity |].
      apply index_of_none in Hex. congruence. }
    rewrite He, Hhas in Hg. discriminate.
Qed.

Lemma Forall2_In_l {A B : Type} (R : A -> B -> Prop) l ys x :
  Forall2 R l ys -> In x l -> exists y, In y ys /\ R x y.
Proof.
  induction 1 as [|a b l ys Hab Hrest IH]; intros Hx; [destruct Hx |].
  destruct Hx as [<- | Hx].
  - exists b. split; [now left | exact Hab].
  - destruct (IH Hx) as (y & Hy & Hr). exists y. split; [now right | exact Hr].
Qed.

Tactic Notation "update_step" hyp(Hrun) ident(s) ident(d) ident(Hd) ident(Hmono) ident(Hhas) :=
  rewrite bind_run in Hrun;
  match type of Hrun with
  | context [update_all_years ?s0 ?df ?w] =>
      let E := fresh "E" in
      destruct (update_all_years s0 df w) as [[? | s] ?] eqn:E; [discriminate Hrun |];
      apply update_all_years_run in E as [-> E];
      destruct (E _ eq_refl) as (d & Hd & Hmono & Hhas); clear E
  end.

Section Selection.
Context `{Pandas} `{Python}.

Lemma sorted_years_complete o w ys w' :
  sorted_years o w = (inr ys, w') ->
  w' = w /\
  forall df d col c, In df (original_frames o) -> heap w !! df = Some d ->
    pd.empty d = false -> pd.getitem "ano" d = inr col -> In c col -> pd.isna c = false ->
    exists y, py_int c = inr y /\ In y ys.
Proof.
  intros Hrun. unfold sorted_years in Hrun.
  update_step Hrun s1 d1 Hd1 Hmono1 Hhas1.
  update_step Hrun s2 d2 Hd2 Hmono2 Hhas2.
  update_step Hrun s3 d3 Hd3 Hmono3 Hhas3.
  update_step Hrun s4 d4 Hd4 Hmono4 Hhas4.
  update_step Hrun s5 d5 Hd5 Hmono5 Hhas5.
  rewrite bind_run in Hrun.
  destruct (for_each _ _ w) as [[e | years] w1] eqn:Hyears; [discriminate Hrun |].
  apply for_each_lift in Hyears as [-> Hall]. specialize (Hall _ eq_refl).
  unfold mret, script_ret in Hrun. injection Hrun as <- <-.
  split; [reflexivity |].
  intros df d col c Hdf Hd He Hcol Hc Hna.
  assert (Hrep : represented s5 c).
  { unfold original_frames in Hdf. simpl in Hdf.
    destruct Hdf as [<- | [<- | [<- | [<- | [<- | []]]]]].
    - rewrite Hd1 in Hd. injection Hd as <-.
      apply Hmono5, Hmono4, Hmono3, Hmono2. exact (Hhas1 col c He Hcol Hc).
    - rewrite Hd2 in Hd. injection Hd as <-.
      apply Hmono5, Hmono4, Hmono3. exact (Hhas2 col c He Hcol Hc).
    - rewrite Hd3 in Hd. injection Hd as <-.
      apply Hmono5, Hmono4. exact (Hhas3 col c He Hcol Hc).
    - rewrite Hd4 in Hd. injection Hd as <-.
      apply Hmono5. exact (Hhas4 col c He Hcol Hc).
    - rewrite Hd5 in Hd. injection Hd as <-. exact (Hhas5 col c He Hcol Hc). }
  destruct Hrep as (c' & Hc' & Hk).
  assert (Hsel : In c' (List.filter (fun x => negb (pd.isna x)) s5)).
  { apply filter_In. split; [exact Hc' |]. rewrite (same_key_isna c c' Hk), Hna. reflexivity. }
  destruct (Forall2_In_l _ _ _ _ Hall Hsel) as (y & Hy & Hint).
  exists y. split.
  - rewrite <- (same_key_int c c' Hk). exact Hint.
  - unfold Py.sorted_reverse. apply (Permutation_in _ (Permutation_sym (sort_by_perm _ _))).
    exact Hy.
Qed.

(** Claim C10.  With the filter on specific years and nothing selected, the
    years in effect are [sorted_years]: the five originals are filtered with
    it, and it has the year of every non-missing ["ano"] cell of every
    original that is not empty. *)
Theorem empty_selection_selects_all_years (o : originals) (sb : sidebar) :
  hist_filter_type sb = AnosEspecificos -> hist_selected_years sb = [] ->
  (forall ys, selected_years_final sb ys = inr ys) /\
  (forall w, historical_view o sb w = (ys ← sorted_years o; filter_data o ys) w) /\
  (forall w ys w', sorted_years o w = (inr ys, w') ->
     forall df d col c, In df (original_frames o) -> heap w !! df = Some d ->
       pd.empty d = false -> pd.getitem "ano" d = inr col -> In c col -> pd.isna c = false ->
       exists y, py_int c = inr y /\ In y ys).
Proof.
  intros Hmode Hsel.
  assert (Hfinal : forall ys, selected_years_final sb ys = inr ys).
  { intros ys. unfold selected_years_final. now rewrite Hmode, Hsel. }
  split; [exact Hfinal |]. split.
  - intros w. unfold historical_view. rewrite !bind_run.
    destruct (sorted_years o w) as [[e | ys] w1]; [reflexivity |].
    rewrite bind_run. unfold lift. now rewrite Hfinal.
  - intros w ys w' Hrun. now apply (sorted_years_complete o w ys w').
Qed.

End Selection.

Lemma empty_selection_selects_all_years_witness :
  selected_years_final (Sidebar AnosEspecificos [] None) [2021; 2020] = inr [2021; 2020] /\
  fst (@sorted_years decimal_python two_originals two_world) = inr [2021; 2020].
Proof.
  split; [| reflexivity].
  apply (@empty_selection_selects_all_years decimal_pandas decimal_python two_originals
           (Sidebar AnosEspecificos [] None) eq_refl eq_refl).
Defined.

(** ** The correlation section *)

Lemma index_of_length name cols i : pd.index_of name cols = Some i -> (i < length cols)%nat.
Proof. intros Hi. apply index_of_lookup in Hi. eapply lookup_lt_Some; eauto. Qed.

Lemma remove_nth_length {A : Type} (i : nat) (l : list A) :
  (i < length l)%nat -> length (pd.remove_nth i l) = (length l - 1)%nat.
Proof.
  intros Hi. unfold pd.remove_nth.
  rewrite length_app, length_firstn, length_skipn. lia.
Qed.

Lemma series_set_index d :
  series d = true ->
  exists df1, pd.set_index "data_referencia" d = inr df1 /\ (1 <= length (columns df1))%nat.
Proof.
  unfold series. intros Hs. apply andb_true_iff in Hs as [Hc Hlen].
  apply has_column_index_of in Hc as [i Hi]. apply Nat.leb_le in Hlen.
  unfold pd.set_index. rewrite Hi. eexists. split; [reflexivity |]. simpl.
  rewrite remove_nth_length by (eapply index_of_length; eauto). lia.
Qed.

Lemma merge_inner_columns l r :
  length (columns (pd.merge_inner l r)) = (length (columns l) + length (columns r))%nat.
Proof. unfold pd.merge_inner. simpl. now rewrite length_app, !length_map. Qed.

Lemma getitem_present (d : DataFrame) (i : nat) name :
  columns d !! i = Some name -> exists xs, pd.getitem name d = inr xs.
Proof.
  intros Hi. destruct (lookup_index_of _ _ _ Hi) as [j Hj].
  unfold pd.getitem. rewrite Hj. eauto.
Qed.

Lemma emit_run e w : emit e w = (inr tt, World (heap w) (ui w ++ [e])).
Proof. reflexivity. Qed.

Lemma correlation_section_run indicator1_name indicator2_name a b w fa fb df1 df2 :
  heap w !! a = Some fa -> heap w !! b = Some fb ->
  pd.set_index "data_referencia" fa = inr df1 ->
  pd.set_index "data_referencia" fb = inr df2 ->
  correlation_section indicator1_name indicator2_name a b w =
    (let df_merged := pd.merge_inner df1 df2 in
     if negb (pd.empty df_merged) && (1 <? length (rows df_merged))%nat then
       col_name1 ← lift (column_name 0 df_merged);
       col_name2 ← lift (column_name 1 df_merged);
       xs ← lift (pd.getitem col_name1 df_merged);
       ys ← lift (pd.getitem col_name2 df_merged);
       emit (st_subheader [indicator1_name; indicator2_name]);;
       emit (st_metric (pd.corr xs ys));;
       emit (st_scatter col_name1 col_name2 df_merged)
     else if (length (rows df_merged) <=? 1)%nat then
       emit (st_warning (InsufficientCommonData indicator1_name indicator2_name))
     else emit (st_warning (NoCommonDates indicator1_name indicator2_name))) w.
Proof.
  intros Ha Hb H1 H2.
  unfold correlation_section. rewrite bind_run, (load_run w a fa Ha).
  rewrite bind_run, (load_run w b fb Hb). rewrite bind_run. unfold lift at 1. rewrite H1.
  rewrite bind_run. unfold lift at 1. rewrite H2. reflexivity.
Qed.

Lemma correlation_section_warning indicator1_name indicator2_name a b w fa fb df1 df2 :
  heap w !! a = Some fa -> heap w !! b = Some fb ->
  pd.set_index "data_referencia" fa = inr df1 ->
  pd.set_index "data_referencia" fb = inr df2 ->
  (length (rows (pd.merge_inner df1 df2)) < 2)%nat ->
  correlation_section indicator1_name indicator2_name a b w =
    (inr tt, World (heap w)
               (ui w ++ [st_warning (InsufficientCommonData indicator1_name
                                       indicator2_name)])).
Proof.
  intros Ha Hb H1 H2 Hlt.
  rewrite (correlation_section_run _ _ a b w fa fb df1 df2 Ha Hb H1 H2). cbv zeta.
  destruct (Nat.ltb_spec 1 (length (rows (pd.merge_inner df1 df2)))) as [Hgt | Hle]; [lia |].
  rewrite andb_false_r.
  destruct (Nat.leb_spec (length (rows (pd.merge_inner df1 df2))) 1) as [Hle' | Hgt']; [| lia].
  apply emit_run.
Qed.

Lemma correlation_section_metric indicator1_name indicator2_name a b w fa fb df1 df2
    col_name1 col_name2 xs ys :
  heap w !! a = Some fa -> heap w !! b = Some fb ->
  pd.set_index "data_referencia" fa = inr df1 ->
  pd.set_index "data_referencia" fb = inr df2 ->
  (2 <= length (rows (pd.merge_inner df1 df2)))%nat ->
  columns (pd.merge_inner df1 df2) !! 0%nat = Some col_name1 ->
  columns (pd.merge_inner df1 df2) !! 1%nat = Some col_name2 ->
  pd.getitem col_name1 (pd.merge_inner df1 df2) = inr xs ->
  pd.getitem col_name2 (pd.merge_inner df1 df2) = inr ys ->
  correlation_section indicator1_name indicator2_name a b w =
    (inr tt, World (heap w)
               (ui w ++ [st_subheader [indicator1_name; indicator2_name];
                         st_metric (pd.corr xs ys);
                         st_scatter col_name1 col_name2 (pd.merge_inner df1 df2)])).
Proof.
  intros Ha Hb H1 H2 Hge H0 H1' Hxs Hys.
  rewrite (correlation_section_run _ _ a b w fa fb df1 df2 Ha Hb H1 H2). cbv zeta.
  generalize dependent (pd.merge_inner df1 df2). intros df_merged Hge H0 H1' Hxs Hys.
  assert (He : pd.empty df_merged = false).
  { unfold pd.empty. destruct (columns df_merged) as [|c cols]; [discriminate H0 |]. simpl.
    destruct (Nat.eqb_spec (length (rows df_merged)) 0); [lia | reflexivity]. }
  rewrite He.
  destruct (Nat.ltb_spec 1 (length (rows df_merged))) as [Hgt | Hle]; [| lia].
  change (negb false && true) with true. cbv iota.
  rewrite bind_run. unfold lift at 1, column_name at 1. rewrite H0.
  rewrite bind_run. unfold lift at 1, column_name at 1. rewrite H1'.
  rewrite bind_run. unfold lift at 1. rewrite Hxs.
  rewrite bind_run. unfold lift at 1. rewrite Hys.
  do 2 (rewrite bind_run, emit_run). rewrite emit_run. simpl.
  now rewrite <- !app_assoc.
Qed.



Lemma pearson_value ps sxy v :
  (pd.co_moment ps fst snd == sxy)%Q ->
  (pd.co_moment ps fst fst * pd.co_moment ps snd snd == v)%Q ->
  Qeq_bool v 0 = false ->
  pd.pearson ps = Some (Q2R sxy / sqrt (Q2R v))%R.
Proof.
  intros Hxy Hv Hnz. unfold pd.pearson.
  destruct (Qeq_bool (pd.co_moment ps fst fst * pd.co_moment ps snd snd) 0) eqn:E.
  - apply Qeq_bool_iff in E. rewrite Hv in E. apply Qeq_bool_iff in E. congruence.
  - f_equal. now rewrite (Qeq_eqR _ _ Hxy), (Qeq_eqR _ _ Hv).
Qed.

Lemma sqrt_quarter : sqrt (Q2R (1 # 4)) = (/ 2)%R.
Proof.
  replace (Q2R (1 # 4)) with (/ 2 * / 2)%R by (unfold Q2R; simpl; lra).
  apply sqrt_square. lra.
Qed.

Lemma pearson_rising : pd.pearson [(1, 2020); (2, 2021)]%Q = Some 1%R.
Proof.
  rewrite (pearson_value _ (1 # 2) (1 # 4)); [| vm_compute; reflexivity .. | reflexivity].
  f_equal. rewrite sqrt_quarter. unfold Q2R. simpl. lra.
Qed.

Lemma pearson_falling : pd.pearson [(2, 2020); (1, 2021)]%Q = Some (-1)%R.
Proof.
  rewrite (pearson_value _ (- 1 # 2) (1 # 4)); [| vm_compute; reflexivity .. | reflexivity].
  f_equal. rewrite sqrt_quarter. unfold Q2R. simpl. lra.
Qed.

Lemma Qsum_ext {A : Type} (f g : A -> Q) l :
  (forall x, f x == g x)%Q -> (pd.Qsum (List.map f l) == pd.Qsum (List.map g l))%Q.
Proof.
  intros Hfg. induction l as [|x l IH]; simpl; [reflexivity |]. now rewrite IH, Hfg.
Qed.

Lemma co_moment_swap ps f g :
  pd.co_moment (List.map swap_pair ps) f g =
  pd.co_moment ps (fun p => f (swap_pair p)) (fun p => g (swap_pair p)).
Proof. unfold pd.co_moment. now rewrite !List.map_map. Qed.

Lemma co_moment_comm ps f g : (pd.co_moment ps f g == pd.co_moment ps g f)%Q.
Proof. unfold pd.co_moment. apply Qsum_ext. intros p. apply Qmult_comm. Qed.

(** Pearson's coefficient does not depend on the order of the two
    variables. *)
Lemma pearson_symmetric ps : pd.pearson (List.map swap_pair ps) = pd.pearson ps.
Proof.
  unfold pd.pearson. rewrite !co_moment_swap.
  change (fun p => fst (swap_pair p)) with (@snd Q Q).
  change (fun p => snd (swap_pair p)) with (@fst Q Q).
  assert (Hv : (pd.co_moment ps snd snd * pd.co_moment ps fst fst ==
                pd.co_moment ps fst fst * pd.co_moment ps snd snd)%Q) by apply Qmult_comm.
  destruct (Qeq_bool (pd.co_moment ps fst fst * pd.co_moment ps snd snd) 0) eqn:E.
  - apply Qeq_bool_iff in E. rewrite <- Hv in E. apply Qeq_bool_iff in E. now rewrite E.
  - destruct (Qeq_bool (pd.co_moment ps snd snd * pd.co_moment ps fst fst) 0) eqn:E'.
    + apply Qeq_bool_iff in E'. rewrite Hv in E'. apply Qeq_bool_iff in E'. congruence.
    + f_equal. now rewrite (Qeq_eqR _ _ Hv), (Qeq_eqR _ _ (co_moment_comm ps snd fst)).
Qed.

Lemma pearson_of_values :
  pd.pearson [(1, 2); (2, 1)]%Q = Some (-1)%R /\
  pd.pearson (List.map swap_pair [(1, 2); (2, 1)]%Q) = Some (-1)%R.
Proof.
  assert (Hp : pd.pearson [(1, 2); (2, 1)]%Q = Some (-1)%R).
  { rewrite (pearson_value _ (- 1 # 2) (1 # 4)); [| vm_compute; reflexivity .. | reflexivity].
    f_equal. rewrite sqrt_quarter. unfold Q2R. simpl. lra. }
  split; [exact Hp |]. now rewrite pearson_symmetric.
Qed.

Lemma pearson_doubling : pd.pearson [(1, 2); (2, 4)]%Q = Some 1%R.
Proof.
  rewrite (pearson_value _ 1 1); [| vm_compute; reflexivity .. | reflexivity].
  f_equal. replace (Q2R 1) with 1%R by (unfold Q2R; simpl; lra).
  rewrite sqrt_1. lra.
Qed.

(** Claim C3, on the code.  The two example series have 2 common timestamps,
    both in 2020, and the Pearson coefficient of their aligned pairs is 1.
    The section shows no warning and no such coefficient: it correlates the
    first indicator with the year column ["ano_x"], which is constant, and
    shows the metric nan. *)
Theorem correlation_shows_nan_for_two_pairs :
  correlation_section "Selic" "IPCA" 1%positive 2%positive year_world =
    (inr tt, World (heap year_world)
               [st_subheader ["Selic"; "IPCA"]; st_metric None;
                st_scatter "selic" "ano_x" selic_ipca_2020]) /\
  length (rows selic_ipca_2020) = 2%nat /\
  exists xs ys,
    pd.getitem "selic" selic_ipca_2020 = inr xs /\
    pd.getitem "ipca" selic_ipca_2020 = inr ys /\
    pd.corr xs ys = Some 1%R.
Proof.
  split; [| split; [reflexivity |]].
  - rewrite (correlation_section_metric "Selic" "IPCA" 1%positive 2%positive year_world
               selic_2020 ipca_2020 _ _ "selic" "ano_x"
               [Num 1; Num 2] [Num 2020; Num 2020] eq_refl eq_refl eq_refl eq_refl);
      [| vm_compute; lia | reflexivity ..].
    reflexivity.
  - exists [Num 1; Num 2], [Num 2; Num 4].
    split; [reflexivity |]. split; [reflexivity |].
    unfold pd.corr. change (pd.numeric_pairs _ _) with [(1, 2); (2, 4)]%Q.
    apply pearson_doubling.
Qed.

(** Claim C6, on the code.  For the two example series, which rise and fall
    on the same two days, the section correlates the first indicator with the
    year column ["ano_x"], not with the second indicator: it shows 1 for
    (Selic, IPCA) and -1 for (IPCA, Selic), where the coefficient of the two
    indicators is -1 in both orders ([pearson_of_values]). *)
Theorem correlation_uses_year_column :
  correlation_section "Selic" "IPCA" 1%positive 2%positive two_world =
    (inr tt, World (heap two_world)
               [st_subheader ["Selic"; "IPCA"]; st_metric (Some 1%R);
                st_scatter "selic" "ano_x" selic_ipca_merged]) /\
  correlation_section "IPCA" "Selic" 2%positive 1%positive two_world =
    (inr tt, World (heap two_world)
               [st_subheader ["IPCA"; "Selic"]; st_metric (Some (-1)%R);
                st_scatter "ipca" "ano_x" ipca_selic_merged]).
Proof.
  split.
  - rewrite (correlation_section_metric "Selic" "IPCA" 1%positive 2%positive two_world
               selic_two ipca_two _ _ "selic" "ano_x"
               [Num 1; Num 2] [Num 2020; Num 2021] eq_refl eq_refl eq_refl eq_refl);
      [| vm_compute; lia | reflexivity ..].
    unfold pd.corr. change (pd.numeric_pairs _ _) with [(1, 2020); (2, 2021)]%Q.
    rewrite pearson_rising. reflexivity.
  - rewrite (correlation_section_metric "IPCA" "Selic" 2%positive 1%positive two_world
               ipca_two selic_two _ _ "ipca" "ano_x"
               [Num 2; Num 1] [Num 2020; Num 2021] eq_refl eq_refl eq_refl eq_refl);
      [| vm_compute; lia | reflexivity ..].
    unfold pd.corr. change (pd.numeric_pairs _ _) with [(2, 2020); (1, 2021)]%Q.
    rewrite pearson_falling. reflexivity.
Qed.

(** ** The forecast section *)

Section Forecast.
Context `{Pandas} `{Prophet}.

Lemma forecast_section_run name df y periods w d i j :
  heap w !! df = Some d ->
  pd.index_of "data_referencia" (columns d) = Some i ->
  pd.index_of y (columns d) = Some j ->
  y <> "data_referencia"%string ->
  forecast_section name df y periods w =
    if pd.empty d || negb (pd.is_datetime64 (List.map (pd.cell_at i) (rows d))) then
      (inr tt, World (heap w) (ui w ++ [st_error (ForecastBadData name)]))
    else
      let df_prophet :=
        Frame ["ds"; "y"]%string (sorted_by_timestamp 0 (prophet_rows i j d)) in
      if (length (rows df_prophet) <? 2)%nat then
        (inr tt, World (heap w) (ui w ++ [st_error (ForecastTooFewPoints name)]))
      else
        match fit_predict df_prophet periods with
        | inr forecast =>
            (inr tt, World (heap w)
                       (ui w ++ [prophet_fit df_prophet periods; st_subheader [name];
                                 st_forecast forecast periods]))
        | inl e =>
            (inr tt, World (heap w)
                       (ui w ++ [prophet_fit df_prophet periods;
                                 st_error (ForecastFailed name e)]))
        end.
Proof.
  intros Hd Hi Hj Hy.
  unfold forecast_section. rewrite bind_run, (load_run w df d Hd).
  rewrite bind_run.
  destruct (pd.empty d) eqn:He.
  { reflexivity. }
  rewrite bind_run. unfold lift at 1, pd.getitem at 1. rewrite Hi.
  unfold mret at 1, script_ret at 1. simpl orb.
  destruct (pd.is_datetime64 (List.map (pd.cell_at i) (rows d))) eqn:Hdt; [| reflexivity].
  change (negb true) with false. cbv iota.
  rewrite bind_run. unfold lift at 1, pd.getitem_two at 1. rewrite Hi, Hj.
  assert (Hren : pd.rename "data_referencia" "ds" y "y"
            (Frame ["data_referencia"%string; y]
               (List.map (fun r => Row (label r) [pd.cell_at i r; pd.cell_at j r]) (rows d))) =
          Frame ["ds"; "y"]%string (List.map (prophet_row i j) (rows d))).
  { unfold pd.rename. cbn [columns rows List.map]. rewrite !String.eqb_refl.
    destruct (String.eqb_spec "data_referencia" y) as [E | _]; [congruence | reflexivity]. }
  cbv beta iota. rewrite Hren. rewrite bind_run. unfold lift at 1.
  change (pd.dropna "ds" "y" (Frame ["ds"; "y"]%string (List.map (prophet_row i j) (rows d))))
    with (@inr Py.exc _ (Frame ["ds"; "y"]%string (prophet_rows i j d))).
  cbv beta iota. rewrite bind_run. unfold lift at 1.
  assert (Hsort : pd.sort_values "ds" (Frame ["ds"; "y"]%string (prophet_rows i j d)) =
            inr (Frame ["ds"; "y"]%string (sorted_by_timestamp 0 (prophet_rows i j d)))).
  { unfold pd.sort_values. simpl.
    rewrite datetime_sortable; [reflexivity |].
    revert Hdt. apply datetime_incl. intros c Hc.
    apply in_map_iff in Hc as (r & <- & Hr). unfold prophet_rows in Hr.
    apply filter_In in Hr as [Hr _]. apply in_map_iff in Hr as (r0 & <- & Hr0).
    change (pd.cell_at 0 (prophet_row i j r0)) with (pd.cell_at i r0). now apply in_map. }
  rewrite Hsort. cbv beta iota zeta.
  destruct (length _ <? 2)%nat; [reflexivity |].
  unfold try_except. rewrite bind_run, emit_run. rewrite bind_run. unfold lift at 1.
  destruct (fit_predict _ periods) as [e | forecast].
  - rewrite emit_run. simpl. now rewrite <- app_assoc.
  - rewrite bind_run, emit_run, emit_run. simpl. now rewrite <- !app_assoc.
Qed.

Lemma prophet_rows_complete i j d r :
  In r (prophet_rows i j d) ->
  pd.isna (pd.cell_at 0 r) = false /\ pd.isna (pd.cell_at 1 r) = false.
Proof.
  unfold prophet_rows. rewrite filter_In. intros [_ Hc]. unfold complete in Hc.
  apply andb_true_iff in Hc as [Hds Hy]. now rewrite negb_true_iff in Hds, Hy.
Qed.

Lemma forecast_section_empty name df y periods w d :
  heap w !! df = Some d -> pd.empty d = true ->
  forecast_section name df y periods w =
    (inr tt, World (heap w) (ui w ++ [st_error (ForecastBadData name)])).
Proof.
  intros Hd He. unfold forecast_section. rewrite bind_run, (load_run w df d Hd).
  rewrite bind_run, He. reflexivity.
Qed.

Lemma forecast_rows_empty y d : pd.empty d = true -> forecast_rows y d = [].
Proof.
  unfold pd.empty, forecast_rows. intros He. apply orb_true_iff in He as [He | He].
  - apply Nat.eqb_eq in He. destruct (columns d); [reflexivity | discriminate].
  - apply Nat.eqb_eq in He. destruct (rows d) eqn:Hr; [| discriminate].
    unfold prophet_rows. rewrite Hr.
    destruct (pd.index_of _ _); [| reflexivity]. now destruct (pd.index_of _ _).
Qed.

(** Claim C8.  For a series as [fetch_data] returns it, empty or with the
    ["data_referencia"] column and the value column, the forecast section
    drops the rows with a missing timestamp or value before it fits: when
    fewer than 2 rows remain it shows one error message, that the data does
    not suffice, and does not call the library; and every frame it does pass
    to the library has exactly the remaining rows, at least 2, none with a
    missing cell. *)
Theorem forecast_section_needs_two_points (selected_indicator_forecast_name : string)
    (df_to_forecast_orig : loc) (y_col_name : string) (forecast_periods : Z)
    (w : world) (d : DataFrame) :
  heap w !! df_to_forecast_orig = Some d ->
  pd.empty d = true \/
    (pd.has_column "data_referencia" d = true /\ pd.has_column y_col_name d = true) ->
  y_col_name <> "data_referencia"%string ->
  let remaining := forecast_rows y_col_name d in
  let out := forecast_section selected_indicator_forecast_name df_to_forecast_orig
               y_col_name forecast_periods w in
  ((length remaining < 2)%nat ->
     exists msg,
       (msg = ForecastBadData selected_indicator_forecast_name \/
        msg = ForecastTooFewPoints selected_indicator_forecast_name) /\
       out = (inr tt, World (heap w) (ui w ++ [st_error msg]))) /\
  (forall fitted p, In (prophet_fit fitted p) (ui (snd out)) ->
     In (prophet_fit fitted p) (ui w) \/
     (p = forecast_periods /\ columns fitted = ["ds"; "y"]%string /\
      Permutation (rows fitted) remaining /\ (2 <= length (rows fitted))%nat /\
      forall r, In r (rows fitted) ->
        pd.isna (pd.cell_at 0 r) = false /\ pd.isna (pd.cell_at 1 r) = false)).
Proof.
  intros Hd Hshape Hy remaining out.
  assert (Herr : forall msg fitted p,
            In (prophet_fit fitted p) (ui w ++ [st_error msg]) -> In (prophet_fit fitted p) (ui w)).
  { intros msg fitted p Hin. apply in_app_or in Hin as [Hin | [Hin | []]]; [exact Hin | discriminate]. }
  destruct (pd.empty d) eqn:He.
  { pose proof (forecast_section_empty selected_indicator_forecast_name df_to_forecast_orig
                  y_col_name forecast_periods w d Hd He) as Hrun.
    fold out in Hrun. rewrite Hrun. split.
    - intros _. eexists. split; [left; reflexivity | reflexivity].
    - intros fitted p Hin. left. exact (Herr _ _ _ Hin). }
  destruct Hshape as [Hshape | [Hts Hval]]; [discriminate |].
  apply has_column_index_of in Hts as [i Hi]. apply has_column_index_of in Hval as [j Hj].
  assert (Hrem : remaining = prophet_rows i j d).
  { unfold remaining, forecast_rows. now rewrite Hi, Hj. }
  pose proof (forecast_section_run selected_indicator_forecast_name df_to_forecast_orig
                y_col_name forecast_periods w d i j Hd Hi Hj Hy) as Hrun.
  fold out in Hrun. cbv zeta in Hrun. rewrite He, <- Hrem in Hrun. simpl orb in Hrun.
  clearbody remaining out.
  assert (Hperm : Permutation (sorted_by_timestamp 0 remaining) remaining)
    by apply sorted_by_timestamp_perm.
  assert (Hlen : length (sorted_by_timestamp 0 remaining) = length remaining)
    by now apply Permutation_length.
  destruct (negb (pd.is_datetime64 (List.map (pd.cell_at i) (rows d)))).
  { rewrite Hrun. split.
    - intros _. eexists. split; [left; reflexivity | reflexivity].
    - intros fitted p Hin. left. exact (Herr _ _ _ Hin). }
  simpl rows in Hrun. rewrite Hlen in Hrun.
  destruct (Nat.ltb_spec (length remaining) 2) as [Hlt | Hge].
  { rewrite Hrun. split.
    - intros _. eexists. split; [right; reflexivity | reflexivity].
    - intros fitted p Hin. left. exact (Herr _ _ _ Hin). }
  split; [lia |].
  assert (Hfit : forall fitted p rest,
            In (prophet_fit fitted p)
               (ui w ++ prophet_fit (Frame ["ds"; "y"]%string
                                       (sorted_by_timestamp 0 remaining))
                                    forecast_periods :: rest) ->
            (forall e, In e rest -> forall f q, e <> prophet_fit f q) ->
            In (prophet_fit fitted p) (ui w) \/
            (p = forecast_periods /\ columns fitted = ["ds"; "y"]%string /\
             Permutation (rows fitted) remaining /\ (2 <= length (rows fitted))%nat /\
             forall r, In r (rows fitted) ->
               pd.isna (pd.cell_at 0 r) = false /\ pd.isna (pd.cell_at 1 r) = false)).
  { intros fitted p rest Hin Hrest.
    apply in_app_or in Hin as [Hin | [Hin | Hin]]; [now left | | ].
    - right. injection Hin as <- <-. simpl.
      split; [reflexivity |]. split; [reflexivity |]. split; [exact Hperm |].
      split; [lia |]. intros r Hr. apply (prophet_rows_complete i j d).
      rewrite <- Hrem. now apply (Permutation_in _ Hperm).
    - exfalso. exact (Hrest _ Hin fitted p eq_refl). }
  intros fitted p Hin. rewrite Hrun in Hin.
  destruct (fit_predict _ forecast_periods) as [e | forecast]; simpl in Hin.
  - apply (Hfit _ _ _ Hin). intros e' [<- | []]. discriminate.
  - apply (Hfit _ _ _ Hin). intros e' [<- | [<- | []]]; discriminate.
Qed.

End Forecast.

Lemma forecast_section_needs_two_points_witness :
  exists msg,
    (msg = ForecastBadData "PIB" \/ msg = ForecastTooFewPoints "PIB") /\
    @forecast_section decimal_pandas echo_prophet "PIB" 1%positive "pib" 365 gappy_world =
      (inr tt, World (heap gappy_world) (ui gappy_world ++ [st_error msg])).
Proof.
  apply (proj1 (@forecast_section_needs_two_points decimal_pandas echo_prophet "PIB" 1%positive "pib" 365
                  gappy_world gappy_frame eq_refl (or_intror (conj eq_refl eq_refl))
                  ltac:(discriminate))).
  vm_compute. lia.
Defined.

(** ** Further properties of the period grouping *)

Lemma range_length a b : length (Py.range a b) = Z.to_nat (b - a).
Proof. unfold Py.range. now rewrite length_map, length_seq. Qed.

Lemma while_groups_cons min_year group_size Hgs current_year :
  min_year <= current_year ->
  while_groups min_year group_size Hgs current_year [] =
    (code_label (Z.max min_year (current_year - (group_size - 1))) current_year,
     Py.range (Z.max min_year (current_year - (group_size - 1))) (current_year + 1))
    :: while_groups min_year group_size Hgs (current_year - group_size) [].
Proof.
  intros Hle. rewrite while_groups_step by exact Hle. now rewrite while_groups_acc.
Qed.

Lemma while_groups_count min_year group_size Hgs current_year :
  min_year <= current_year ->
  Z.of_nat (length (while_groups min_year group_size Hgs current_year [])) =
    (current_year - min_year) / group_size + 1.
Proof.
  remember (Z.to_nat (current_year - min_year + 1)) as n eqn:Hn.
  assert (Hb : (Z.to_nat (current_year - min_year + 1) <= n)%nat) by lia. clear Hn.
  revert current_year Hb.
  induction n as [|n IH]; intros cur Hb Hle; [lia |].
  rewrite while_groups_cons by exact Hle. cbn [length]. rewrite Nat2Z.inj_succ.
  destruct (Z_lt_dec (cur - group_size) min_year) as [Hend | Hmore].
  - rewrite while_groups_stop by exact Hend. cbn [length].
    rewrite Z.div_small by lia. reflexivity.
  - rewrite IH by lia.
    replace (cur - min_year) with ((cur - group_size - min_year) + 1 * group_size) by lia.
    rewrite Z.div_add by lia. lia.
Qed.

Lemma while_groups_sizes min_year group_size Hgs current_year :
  forall (i : nat) g,
    while_groups min_year group_size Hgs current_year [] !! i = Some g ->
    (1 <= Z.of_nat (length (snd g)) <= group_size) /\
    ((S i < length (while_groups min_year group_size Hgs current_year []))%nat ->
       Z.of_nat (length (snd g)) = group_size).
Proof.
  remember (Z.to_nat (current_year - min_year + 1)) as n eqn:Hn.
  assert (Hb : (Z.to_nat (current_year - min_year + 1) <= n)%nat) by lia. clear Hn.
  revert current_year Hb.
  induction n as [|n IH]; intros cur Hb i g Hi.
  - rewrite while_groups_stop in Hi by lia. discriminate.
  - destruct (Z_lt_dec cur min_year) as [Hlt | Hge].
    { rewrite while_groups_stop in Hi by lia. discriminate. }
    rewrite while_groups_cons in * by lia.
    destruct i as [|i].
    + cbn in Hi. injection Hi as <-. cbn [snd]. rewrite range_length. split; [lia |].
      cbn [length]. intros Hnext.
      destruct (Z_lt_dec (cur - group_size) min_year) as [Hend | Hmore].
      * rewrite while_groups_stop in Hnext by exact Hend. cbn in Hnext. lia.
      * lia.
    + cbn in Hi. destruct (IH (cur - group_size) ltac:(lia) i g Hi) as [Hsize Hfull].
      split; [exact Hsize |]. cbn [length]. intros Hnext. apply Hfull. lia.
Qed.

Lemma get_period_groups_unfold y ys group_size (Hgs : 1 <= group_size) :
  exists H, get_period_groups (y :: ys) group_size =
              while_groups (Py.min y ys) group_size H (Py.max y ys) [].
Proof.
  unfold get_period_groups. destruct (Z_lt_dec group_size 1) as [Hlt | Hge]; [lia |].
  eexists. reflexivity.
Qed.

Lemma min_le_max y ys : Py.min y ys <= Py.max y ys.
Proof. pose proof (min_max_bounds y ys y ltac:(now left)). lia. Qed.

(** Property X1.  With a group size of at least 1, the groups hold exactly
    the years from the earliest to the latest input year: a year is in some
    group if and only if it lies between the two, whether or not it is an
    input year itself. *)
Theorem get_period_groups_covers_range (y : Z) (ys : list Z) (group_size : Z) (x : Z) :
  1 <= group_size ->
  (exists g, In g (get_period_groups (y :: ys) group_size) /\ In x (snd g)) <->
  Py.min y ys <= x <= Py.max y ys.
Proof.
  intros Hgs. pose proof (get_period_groups_tiling y ys group_size Hgs) as Ht. split.
  - intros (g & Hg & Hx). exact (tiling_bounds _ _ _ Ht g x Hg Hx).
  - intros Hx. destruct (tiling_cover _ _ _ Ht x Hx) as (i & g & Hi & Hin).
    exists g. split; [| exact Hin].
    apply list_elem_of_In. eapply list_elem_of_lookup_2; eauto.
Qed.

Lemma get_period_groups_covers_range_witness :
  (exists g, In g (get_period_groups [2019; 2022] 2) /\ In 2020 (snd g)) <->
  Py.min 2019 [2022] <= 2020 <= Py.max 2019 [2022].
Proof. apply (get_period_groups_covers_range 2019 [2022] 2 2020). lia. Defined.

(** Property X2.  With a group size of at least 1, every group has at least
    one year and at most [group_size] years, and every group but the last has
    exactly [group_size]. *)
Theorem get_period_groups_sizes (y : Z) (ys : list Z) (group_size : Z) (i : nat)
    (g : period_group) :
  1 <= group_size ->
  get_period_groups (y :: ys) group_size !! i = Some g ->
  (1 <= Z.of_nat (length (snd g)) <= group_size) /\
  ((S i < length (get_period_groups (y :: ys) group_size))%nat ->
     Z.of_nat (length (snd g)) = group_size).
Proof.
  intros Hgs Hi. destruct (get_period_groups_unfold y ys group_size Hgs) as [H Heq].
  rewrite Heq in *. now apply while_groups_sizes.
Qed.

Lemma get_period_groups_sizes_witness :
  (1 <= Z.of_nat (length [2019]) <= 2) /\
  ((2 < length (get_period_groups [2021; 2020; 2019]%Z 2%Z))%nat ->
     Z.of_nat (length [2019]) = 2).
Proof.
  apply (get_period_groups_sizes 2021 [2020; 2019] 2 1 ("2019-2019"%string, [2019]));
    [lia | reflexivity].
Defined.

(** Property X3.  With a group size of at least 1, the number of groups is
    the span between the earliest and the latest year divided by the group
    size, rounded down, plus one. *)
Theorem get_period_groups_count (y : Z) (ys : list Z) (group_size : Z) :
  1 <= group_size ->
  Z.of_nat (length (get_period_groups (y :: ys) group_size)) =
    (Py.max y ys - Py.min y ys) / group_size + 1.
Proof.
  intros Hgs. destruct (get_period_groups_unfold y ys group_size Hgs) as [H Heq].
  rewrite Heq. apply while_groups_count. apply min_le_max.
Qed.

Lemma get_period_groups_count_witness :
  Z.of_nat (length (get_period_groups [2021; 2020; 2019] 2)) =
    (Py.max 2021 [2020; 2019] - Py.min 2021 [2020; 2019]) / 2 + 1.
Proof. apply (get_period_groups_count 2021 [2020; 2019] 2). lia. Defined.

(** ** Further properties of the sidebar *)

Lemma set_add_sound s x c : In c (set_add s x) -> In c s \/ c = x.
Proof.
  unfold set_add. destruct (existsb _ _); [now left |].
  intros Hc. apply in_app_or in Hc as [Hc | [Hc | []]]; auto.
Qed.

Lemma set_update_sound values : forall s c,
  In c (set_update s values) -> In c s \/ In c values.
Proof.
  induction values as [|v values IH]; intros s c Hc; simpl in *; [now left |].
  destruct (IH _ _ Hc) as [Hs | Hv]; [| auto].
  destruct (set_add_sound _ _ _ Hs) as [Hs' | ->]; auto.
Qed.

Lemma update_all_years_sound s df w s' w' :
  update_all_years s df w = (inr s', w') ->
  forall c, In c s' ->
    In c s \/ exists d col, heap w !! df = Some d /\ pd.empty d = false /\
                pd.getitem "ano" d = inr col /\ In c col.
Proof.
  unfold update_all_years. rewrite bind_run. unfold load.
  destruct (heap w !! df) as [d|] eqn:Hd; [| discriminate].
  destruct (negb (pd.empty d) && pd.has_column "ano" d) eqn:Hg.
  - apply andb_true_iff in Hg as [He _]. apply negb_true_iff in He.
    rewrite bind_run. unfold lift. destruct (pd.getitem "ano" d) as [e | col] eqn:Hcol;
      [discriminate |].
    unfold mret, script_ret. intros [= <- <-] c Hc.
    destruct (set_update_sound _ _ _ Hc) as [Hs | Hv]; [now left | right].
    exists d, col. auto.
  - unfold mret, script_ret. intros [= <- <-] c Hc. now left.
Qed.

Lemma Forall2_In_r {A B : Type} (R : A -> B -> Prop) l ys y :
  Forall2 R l ys -> In y ys -> exists x, In x l /\ R x y.
Proof.
  induction 1 as [|a b l ys Hab Hrest IH]; intros Hy; [destruct Hy |].
  destruct Hy as [<- | Hy].
  - exists a. split; [now left | exact Hab].
  - destruct (IH Hy) as (x & Hx & Hr). exists x. split; [now right | exact Hr].
Qed.

Lemma Sorted_weaken {A : Type} (R S : A -> A -> Prop) l :
  (forall a b, R a b -> S a b) -> Sorted R l -> Sorted S l.
Proof.
  intros HRS. induction 1 as [|x l Hl IH Hhd]; constructor; [exact IH |].
  destruct Hhd; constructor. auto.
Qed.

Tactic Notation "sound_step" hyp(Hrun) ident(s) ident(Hs) :=
  rewrite bind_run in Hrun;
  match type of Hrun with
  | context [update_all_years ?s0 ?df ?w] =>
      let E := fresh "E" in
      destruct (update_all_years s0 df w) as [[? | s] ?] eqn:E; [discriminate Hrun |];
      pose proof (update_all_years_sound _ _ _ _ _ E) as Hs;
      apply update_all_years_run in E as [-> _]
  end.

Section SidebarYears.
Context `{Python}.

Lemma sorted_years_run o w ys w' :
  sorted_years o w = (inr ys, w') ->
  w' = w /\
  exists all_years years,
    (forall c, In c all_years -> year_cell o w c) /\
    Forall2 (fun c y => py_int c = inr y)
      (List.filter (fun x => negb (pd.isna x)) all_years) years /\
    ys = Py.sorted_reverse years.
Proof.
  intros Hrun. unfold sorted_years in Hrun.
  sound_step Hrun s1 Hs1. sound_step Hrun s2 Hs2. sound_step Hrun s3 Hs3.
  sound_step Hrun s4 Hs4. sound_step Hrun s5 Hs5.
  rewrite bind_run in Hrun.
  destruct (for_each _ _ w) as [[e | years] w1] eqn:Hyears; [discriminate Hrun |].
  apply for_each_lift in Hyears as [-> Hall]. specialize (Hall _ eq_refl).
  unfold mret, script_ret in Hrun. injection Hrun as <- <-.
  split; [reflexivity |]. exists s5, years. split; [| split; [exact Hall | reflexivity]].
  assert (Hfrom : forall df c,
            In df (original_frames o) ->
            (exists d col, heap w !! df = Some d /\ pd.empty d = false /\
               pd.getitem "ano" d = inr col /\ In c col) -> year_cell o w c).
  { intros df c Hdf (d & col & Hd & He & Hcol & Hc). exists df, d, col. auto. }
  unfold original_frames in Hfrom.
  intros c Hc.
  destruct (Hs5 c Hc) as [Hc4 | Hd]; [| eapply Hfrom; [| exact Hd]; simpl; auto 10].
  destruct (Hs4 c Hc4) as [Hc3 | Hd]; [| eapply Hfrom; [| exact Hd]; simpl; auto 10].
  destruct (Hs3 c Hc3) as [Hc2 | Hd]; [| eapply Hfrom; [| exact Hd]; simpl; auto 10].
  destruct (Hs2 c Hc2) as [Hc1 | Hd]; [| eapply Hfrom; [| exact Hd]; simpl; auto 10].
  destruct (Hs1 c Hc1) as [[] | Hd]. eapply Hfrom; [| exact Hd]. simpl. auto.
Qed.

(** Property X4.  Computing [sorted_years] only reads the frames, and the
    years it returns are in descending order. *)
Theorem sorted_years_descending (o : originals) (w : world) (ys : list Z) (w' : world) :
  sorted_years o w = (inr ys, w') ->
  w' = w /\ Sorted (fun a b => b <= a) ys.
Proof.
  intros Hrun. apply sorted_years_run in Hrun as (-> & all_years & years & _ & _ & ->).
  split; [reflexivity |]. unfold Py.sorted_reverse.
  apply (Sorted_weaken (fun a b => (b <=? a) = true)).
  - intros a b Hab. now apply Z.leb_le.
  - apply sort_by_sorted. intros a b Hab. apply Z.leb_le. apply Z.leb_gt in Hab. lia.
Qed.

(** Property X5.  Every year of [sorted_years] is the integer of a cell that
    is not missing in the ["ano"] column of one of the five originals that is
    not empty: no year is made up. *)
Theorem sorted_years_sound (o : originals) (w : world) (ys : list Z) (w' : world) (y : Z) :
  sorted_years o w = (inr ys, w') -> In y ys ->
  exists c, year_cell o w c /\ pd.isna c = false /\ py_int c = inr y.
Proof.
  intros Hrun Hy.
  apply sorted_years_run in Hrun as (-> & all_years & years & Hcells & Hall & ->).
  unfold Py.sorted_reverse in Hy. apply (Permutation_in _ (sort_by_perm _ _)) in Hy.
  destruct (Forall2_In_r _ _ _ _ Hall Hy) as (c & Hc & Hint).
  apply filter_In in Hc as [Hc Hna]. apply negb_true_iff in Hna.
  exists c. auto.
Qed.

End SidebarYears.

Lemma sorted_years_descending_witness :
  Sorted (fun a b => b <= a) [2021; 2020].
Proof.
  apply (@sorted_years_descending decimal_python two_originals two_world [2021; 2020]
           two_world eq_refl).
Defined.

Lemma sorted_years_sound_witness :
  exists c, year_cell two_originals two_world c /\ pd.isna c = false /\
    @py_int decimal_python c = inr 2020.
Proof.
  apply (@sorted_years_sound decimal_python two_originals two_world [2021; 2020]
           two_world 2020 eq_refl). right. left. reflexivity.
Defined.

Lemma biennio_dict_fold opts : forall (m : gmap string (list Z)) l v,
  fold_left (fun m g => <[fst g := snd g]> m) opts m !! l = Some v ->
  m !! l = Some v \/ In (l, v) opts.
Proof.
  induction opts as [|[l0 v0] opts IH]; intros m l v Hl; simpl in *; [now left |].
  destruct (IH _ _ _ Hl) as [Hm | Hin]; [| auto].
  destruct (decide (l0 = l)) as [-> | Hne].
  - rewrite lookup_insert_eq in Hm. injection Hm as ->. auto.
  - rewrite lookup_insert_ne in Hm by exact Hne. now left.
Qed.

Lemma biennio_dict_sound opts l v : biennio_dict opts !! l = Some v -> In (l, v) opts.
Proof.
  intros Hl. destruct (biennio_dict_fold opts ∅ l v Hl) as [Hm | Hin]; [| exact Hin].
  rewrite lookup_empty in Hm. discriminate.
Qed.

Lemma biennio_dict_fold_offered opts : forall (m : gmap string (list Z)) l,
  is_Some (m !! l) \/ In l (List.map fst opts) ->
  is_Some (fold_left (fun m g => <[fst g := snd g]> m) opts m !! l).
Proof.
  induction opts as [|[l0 v0] opts IH]; intros m l Hl; simpl in *.
  - destruct Hl as [Hl | []]. exact Hl.
  - apply IH. destruct Hl as [Hl | [-> | Hl]]; [left | left | now right].
    + destruct (decide (l0 = l)) as [-> | Hne].
      * rewrite lookup_insert_eq. eauto.
      * now rewrite lookup_insert_ne.
    + rewrite lookup_insert_eq. eauto.
Qed.

Lemma code_label_not_empty s e : code_label s e <> ""%string.
Proof. unfold code_label. destruct (Py.str s); discriminate. Qed.

(** Property X6.  In biennium mode, selecting a label that is on offer does
    not raise: the years in effect are the years of an offered group with
    that label, one year or two consecutive years. *)
Theorem biennium_selection (sb : sidebar) (sorted_years : list Z) (label : string) :
  hist_filter_type sb = Bienio ->
  hist_selected_biennio sb = Some label ->
  In label (List.map fst (get_period_groups sorted_years 2)) ->
  exists years s e,
    selected_years_final sb sorted_years = inr years /\
    In (label, years) (get_period_groups sorted_years 2) /\
    years = Py.range s (e + 1) /\ s <= e <= s + 1.
Proof.
  intros Hmode Hsel Hoffered.
  destruct (biennio_dict_fold_offered (get_period_groups sorted_years 2) ∅ label
              (or_intror Hoffered)) as [years Hyears].
  fold (biennio_dict (get_period_groups sorted_years 2)) in Hyears.
  pose proof (biennio_dict_sound _ _ _ Hyears) as Hin.
  destruct sorted_years as [|y ys]; [destruct Hin |].
  pose proof (get_period_groups_tiling y ys 2 ltac:(lia)) as Ht.
  destruct (tiling_windows _ _ _ Ht _ Hin) as (s & e & Hse & Hr & Hl). simpl in Hr, Hl.
  exists years, s, e.
  assert (Hne : String.eqb label "" = false).
  { apply String.eqb_neq. rewrite Hl. apply code_label_not_empty. }
  split; [| split; [exact Hin | split; [exact Hr |]]].
  - unfold selected_years_final. now rewrite Hmode, Hsel, Hne, Hyears.
  - apply list_elem_of_In, list_elem_of_lookup_1 in Hin as [i Hi].
    destruct (get_period_groups_unfold y ys 2 ltac:(lia)) as [H Heq].
    rewrite Heq in Hi. destruct (while_groups_sizes _ _ _ _ _ _ Hi) as [Hsize _].
    simpl in Hsize. rewrite Hr, range_length in Hsize. lia.
Qed.

Lemma biennium_selection_witness :
  exists years s e,
    selected_years_final (Sidebar Bienio [] (Some "2019-2019"%string)) [2021; 2020; 2019] =
      inr years /\
    In ("2019-2019"%string, years) (get_period_groups [2021; 2020; 2019] 2) /\
    years = Py.range s (e + 1) /\ s <= e <= s + 1.
Proof.
  apply (biennium_selection (Sidebar Bienio [] (Some "2019-2019"%string))
           [2021; 2020; 2019] "2019-2019" eq_refl eq_refl).
  right. left. reflexivity.
Defined.

(** ** Further properties of the year filter *)

Lemma ascending_filter t (f : row -> bool) l :
  pd.is_datetime64 (List.map (pd.cell_at t) l) = true ->
  ascending t l -> ascending t (List.filter f l).
Proof.
  induction l as [|x l IH]; intros Hdt Hs; simpl; [constructor |].
  assert (Hdt' : pd.is_datetime64 (List.map (pd.cell_at t) l) = true).
  { revert Hdt. apply datetime_incl. intros c Hc. now right. }
  assert (Hs' : ascending t l) by now apply Sorted_inv in Hs.
  specialize (IH Hdt' Hs'). destruct (f x); [| exact IH].
  constructor; [exact IH |].
  destruct (List.filter f l) as [|z l'] eqn:Hfl; constructor.
  apply (ascending_head t x l Hdt Hs).
  assert (Hz : In z (List.filter f l)) by (rewrite Hfl; now left).
  now apply filter_In in Hz.
Qed.

Lemma filter_all_true {A : Type} (f : A -> bool) l :
  (forall x, In x l -> f x = true) -> List.filter f l = l.
Proof.
  induction l as [|x l IH]; intros Hall; simpl; [reflexivity |].
  rewrite Hall by now left. f_equal. apply IH. intros y Hy. apply Hall. now right.
Qed.

Lemma empty_rows d i name :
  pd.index_of name (columns d) = Some i -> pd.empty d = true -> rows d = [].
Proof.
  unfold pd.empty. intros Hi He. destruct (columns d); [discriminate Hi |]. simpl in He.
  apply Nat.eqb_eq in He. now destruct (rows d).
Qed.

Section FilterComposition.
Context `{Pandas}.

(** The rows of a frame the filter returned, filtered once more. *)
Lemma filtered_rows_again i years1 years2 l :
  (forall r, In r l -> pd.isin years1 (pd.cell_at i r) = true) ->
  filtered_rows i years2 l = List.filter (fun r => pd.isin years2 (pd.cell_at i r)) l.
Proof.
  intros Hsel. unfold filtered_rows.
  rewrite (map_ext_in (coerce_year i) (fun r => r)), List.map_id; [reflexivity |].
  intros r' Hr'. apply (coerce_year_fixed i years1). auto.
Qed.

(** Property X7.  Filtering a filtered frame with a second list of years
    drops just the rows whose year is not in the second list: for a frame
    with years and timestamps that is not empty, neither call raises, the
    columns stay, and the rows of the second result are the rows of the first
    result with a year in [years2], in ascending order of timestamp.  When
    the timestamps of the frame are all different, the rows are in the order
    they had in the first result. *)
Theorem filter_df_by_years_twice (w : world) (df : loc) (d : DataFrame)
    (years1 years2 : list Z) (i t : nat) :
  heap w !! df = Some d -> pd.empty d = false ->
  pd.index_of "ano" (columns d) = Some i ->
  pd.index_of "data_referencia" (columns d) = Some t ->
  pd.is_datetime64 (List.map (pd.cell_at t) (rows d)) = true ->
  exists l1 w1 d1 l2 w2 d2,
    filter_df_by_years df years1 w = (inr l1, w1) /\ heap w1 !! l1 = Some d1 /\
    filter_df_by_years l1 years2 w1 = (inr l2, w2) /\ heap w2 !! l2 = Some d2 /\
    columns d2 = columns d /\
    Permutation (rows d2)
      (List.filter (fun r => pd.isin years2 (pd.cell_at i r)) (rows d1)) /\
    ascending t (rows d2) /\
    (distinct_timestamps d ->
       rows d2 = List.filter (fun r => pd.isin years2 (pd.cell_at i r)) (rows d1)).
Proof.
  intros Hd He Hi Ht Hts.
  pose proof (timestamp_not_year d i t Hi Ht) as Hne.
  destruct (filter_df_by_years_value w df d years1 i t Hd He Hi Ht Hts)
    as (l1 & w1 & Hrun & _ & Hl1).
  set (d1 := Frame (columns d) (sorted_by_timestamp t (filtered_rows i years1 (rows d)))) in *.
  assert (Hsel : forall r, In r (rows d1) -> pd.isin years1 (pd.cell_at i r) = true).
  { intros r Hr. apply sorted_by_timestamp_In in Hr. now apply filtered_rows_In in Hr. }
  assert (Hdt1 : pd.is_datetime64 (List.map (pd.cell_at t) (rows d1)) = true).
  { apply sorted_by_timestamp_datetime. now apply filtered_rows_datetime. }
  assert (Hasc : ascending t (rows d1)) by apply sorted_by_timestamp_ascending.
  exists l1, w1, d1.
  destruct (pd.empty d1) eqn:He1.
  { exists l1, w1, d1. rewrite (filter_df_by_years_guard w1 l1 d1 years2 Hl1) by auto.
    pose proof (empty_rows d1 i "ano" Hi He1) as Hrows.
    split; [exact Hrun |]. split; [exact Hl1 |]. split; [reflexivity |].
    split; [exact Hl1 |]. split; [reflexivity |]. rewrite Hrows. simpl.
    split; [constructor |]. split; [constructor | reflexivity]. }
  destruct (filter_df_by_years_value w1 l1 d1 years2 i t Hl1 He1 Hi Ht Hdt1)
    as (l2 & w2 & Hrun2 & _ & Hl2).
  rewrite (filtered_rows_again i years1 years2 (rows d1)) in Hl2 by exact Hsel.
  exists l2, w2. eexists.
  split; [exact Hrun |]. split; [exact Hl1 |]. split; [exact Hrun2 |]. split; [exact Hl2 |].
  split; [reflexivity |]. cbn [rows].
  split; [apply sorted_by_timestamp_perm |].
  split; [apply sorted_by_timestamp_ascending |].
  intros Hnd. specialize (Hnd t Ht). apply sorted_by_timestamp_fixed.
  - revert Hdt1. apply datetime_incl. intros c Hc.
    apply in_map_iff in Hc as (r & <- & Hr). apply filter_In in Hr as [Hr _].
    now apply in_map.
  - apply NoDup_map_filter.
    apply (Permutation_NoDup (l := List.map (pd.cell_at t) (filtered_rows i years1 (rows d)))).
    + apply Permutation_map. symmetry. apply sorted_by_timestamp_perm.
    + now apply filtered_rows_distinct.
  - now apply ascending_filter.
Qed.

End FilterComposition.

Lemma filter_df_by_years_twice_witness :
  exists l1 w1 d1 l2 w2 d2,
    @filter_df_by_years reversing_pandas 1%positive [2019; 2020] selic_world = (inr l1, w1) /\
    heap w1 !! l1 = Some d1 /\
    @filter_df_by_years reversing_pandas l1 [2020; 2021] w1 = (inr l2, w2) /\
    heap w2 !! l2 = Some d2 /\
    columns d2 = columns selic_frame /\
    Permutation (rows d2)
      (List.filter (fun r => pd.isin [2020; 2021] (pd.cell_at 2 r)) (rows d1)) /\
    ascending 0 (rows d2) /\
    (distinct_timestamps selic_frame ->
       rows d2 = List.filter (fun r => pd.isin [2020; 2021] (pd.cell_at 2 r)) (rows d1)).
Proof.
  apply (@filter_df_by_years_twice reversing_pandas selic_world 1%positive selic_frame
           [2019; 2020] [2020; 2021] 2%nat 0%nat eq_refl eq_refl eq_refl eq_refl eq_refl).
Defined.

Lemma quot_integer q z : (q == inject_Z z)%Q -> Qnum q ÷ Zpos (Qden q) = z.
Proof.
  intros Hq. rewrite (quot_Qeq _ _ Hq). simpl. apply Z.quot_1_r.
Qed.

Section AllYears.
Context `{Pandas} `{Python}.

(** Property X8.  Filtering an original with [sorted_years], which is what
    an empty selection of years leads to, drops no row whose year is a whole
    number: such a row of an original with years and timestamps is a row of
    the filtered frame, as it was. *)
Theorem all_years_keep_rows (o : originals) (w : world) (ys : list Z) (w' : world)
    (df : loc) (d : DataFrame) (i : nat) (r : row) (q : Q) (z : Z) :
  sorted_years o w = (inr ys, w') ->
  In df (original_frames o) -> heap w !! df = Some d ->
  pd.empty d = false -> pd.index_of "ano" (columns d) = Some i -> timestamped d = true ->
  In r (rows d) -> pd.cell_at i r = Num q -> (q == inject_Z z)%Q ->
  exists res w2 d',
    filter_df_by_years df ys w = (inr res, w2) /\ heap w2 !! res = Some d' /\
    In r (rows d').
Proof.
  intros Hrun Hdf Hd He Hi Hts Hr Hcell Hq. unfold timestamped in Hts.
  destruct (pd.index_of "data_referencia" (columns d)) as [t|] eqn:Ht; [| discriminate].
  destruct (filter_df_by_years_value w df d ys i t Hd He Hi Ht Hts)
    as (res & w2 & Hfilter & _ & Hres).
  exists res, w2. eexists. split; [exact Hfilter |]. split; [exact Hres |]. cbn [rows].
  apply sorted_by_timestamp_In.
  assert (Hyear : pd.isin ys (pd.cell_at i r) = true).
  { destruct (sorted_years_complete o w ys w' Hrun) as [_ Hall].
    assert (Hcol : pd.getitem "ano" d = inr (List.map (pd.cell_at i) (rows d)))
      by (unfold pd.getitem; now rewrite Hi).
    destruct (Hall df d _ (Num q) Hdf Hd He Hcol) as (y & Hy & Hin).
    { rewrite <- Hcell. now apply in_map. }
    { reflexivity. }
    simpl in Hy. injection Hy as <-. rewrite (quot_integer q z Hq) in Hin.
    rewrite Hcell. apply isin_spec. exists q, z. auto. }
  unfold filtered_rows. apply filter_In. split; [| exact Hyear].
  apply in_map_iff. exists r. split; [| exact Hr].
  now apply (coerce_year_fixed i ys).
Qed.

End AllYears.

Lemma all_years_keep_rows_witness :
  exists res w2 d',
    @filter_df_by_years decimal_pandas 2%positive [2021; 2020] two_world = (inr res, w2) /\
    heap w2 !! res = Some d' /\
    In (Row (Num 1) [Date 18628; Num 1; Num 2021]) (rows d').
Proof.
  apply (@all_years_keep_rows decimal_pandas decimal_python two_originals two_world
           [2021; 2020] two_world 2%positive ipca_two 2%nat
           (Row (Num 1) [Date 18628; Num 1; Num 2021]) 2021 2021 eq_refl).
  - right. left. reflexivity.
  - reflexivity.
  - reflexivity.
  - reflexivity.
  - reflexivity.
  - right. left. reflexivity.
  - reflexivity.
  - reflexivity.
Defined.

(** ** The data layer *)

Lemma well_formed_cells d r : well_formed d = true -> In r (rows d) ->
  length (cells r) = length (columns d).
Proof.
  unfold well_formed. rewrite forallb_forall. intros Hwf Hr. now apply Nat.eqb_eq, Hwf.
Qed.

Lemma index_of_app name cols more i :
  pd.index_of name cols = Some i -> pd.index_of name (cols ++ more) = Some i.
Proof.
  revert i. induction cols as [|c cols IH]; intros i; simpl; [discriminate |].
  destruct (String.eqb name c); [auto |].
  destruct (pd.index_of name cols) as [j|]; simpl; [| discriminate].
  intros [= <-]. now rewrite (IH j eq_refl).
Qed.

Lemma index_of_new name cols :
  pd.index_of name cols = None -> pd.index_of name (cols ++ [name]) = Some (length cols).
Proof.
  induction cols as [|c cols IH]; simpl.
  - now rewrite String.eqb_refl.
  - destruct (String.eqb name c); [discriminate |].
    destruct (pd.index_of name cols); simpl; [discriminate |].
    intros _. now rewrite (IH eq_refl).
Qed.

Lemma zip_with_rows {A : Type} (f : A -> row -> row) (vals : list A) (l : list row) (r : row) :
  In r (zip_with f vals l) -> exists v r0, In r0 l /\ In v vals /\ r = f v r0.
Proof.
  revert l. induction vals as [|v vals IH]; intros [|r0 l]; simpl; try tauto.
  intros [<- | Hr].
  - exists v, r0. auto.
  - destruct (IH l Hr) as (v' & r' & H1 & H2 & H3). exists v', r'. auto.
Qed.

Lemma map_zip_with_cells {A : Type} (f : A -> row -> row) (g : row -> cell) (h : A -> cell)
    (vals : list A) (l : list row) :
  length vals = length l ->
  (forall v r, In r l -> g (f v r) = h v) ->
  List.map g (zip_with f vals l) = List.map h vals.
Proof.
  revert l. induction vals as [|v vals IH]; intros [|r l] Hlen Hg; simpl in *; try lia;
    [reflexivity |].
  rewrite Hg by now left. f_equal. apply IH; [lia |]. intros v' r' Hr'. apply Hg. now right.
Qed.

Lemma map_zip_with_other {A : Type} (f : A -> row -> row) (g : row -> cell)
    (vals : list A) (l : list row) :
  length vals = length l ->
  (forall v r, In r l -> g (f v r) = g r) ->
  List.map g (zip_with f vals l) = List.map g l.
Proof.
  revert l. induction vals as [|v vals IH]; intros [|r l] Hlen Hg; simpl in *; try lia;
    [reflexivity |].
  rewrite Hg by now left. f_equal. apply IH; [lia |]. intros v' r' Hr'. apply Hg. now right.
Qed.

Lemma cell_at_app_new r v : pd.cell_at (length (cells r)) (Row (label r) (cells r ++ [v])) = v.
Proof.
  unfold pd.cell_at. cbn [cells]. rewrite app_nth2 by lia. now rewrite Nat.sub_diag.
Qed.

Lemma cell_at_app_old i r v :
  (i < length (cells r))%nat ->
  pd.cell_at i (Row (label r) (cells r ++ [v])) = pd.cell_at i r.
Proof. intros Hi. unfold pd.cell_at. cbn [cells]. now rewrite app_nth1. Qed.

(** Reading back the column that was just set. *)
Lemma getitem_setitem name vals d :
  well_formed d = true -> length vals = length (rows d) ->
  pd.getitem name (pd.setitem name vals d) = inr vals.
Proof.
  intros Hwf Hlen. unfold pd.setitem.
  destruct (pd.index_of name (columns d)) as [i|] eqn:Hi.
  - unfold pd.getitem. cbn [columns rows]. rewrite Hi. f_equal.
    rewrite (map_zip_with_cells _ _ (fun v => v)) by
      (try exact Hlen; intros v r Hr; rewrite cell_at_set_cell_eq;
       rewrite (well_formed_cells d r Hwf Hr);
       apply index_of_length in Hi; apply Nat.ltb_lt in Hi; now rewrite Hi).
    apply List.map_id.
  - unfold pd.getitem. cbn [columns rows]. rewrite (index_of_new _ _ Hi). f_equal.
    rewrite (map_zip_with_cells _ _ (fun v => v)) by
      (try exact Hlen; intros v r Hr; rewrite <- (well_formed_cells d r Hwf Hr);
       apply cell_at_app_new).
    apply List.map_id.
Qed.

(** The other columns are as they were. *)
Lemma getitem_setitem_other name other vals d :
  well_formed d = true -> length vals = length (rows d) -> other <> name ->
  pd.has_column other d = true ->
  pd.getitem other (pd.setitem name vals d) = pd.getitem other d.
Proof.
  intros Hwf Hlen Hne Hhas. apply has_column_index_of in Hhas as [j Hj].
  unfold pd.setitem. destruct (pd.index_of name (columns d)) as [i|] eqn:Hi.
  - unfold pd.getitem. cbn [columns rows]. rewrite Hj. f_equal.
    apply map_zip_with_other; [exact Hlen |]. intros v r Hr.
    apply cell_at_set_cell_ne. intros ->. apply Hne. exact (index_of_inj _ _ _ _ Hj Hi).
  - unfold pd.getitem. cbn [columns rows]. rewrite (index_of_app _ _ _ _ Hj), Hj. f_equal.
    apply map_zip_with_other; [exact Hlen |]. intros v r Hr.
    apply cell_at_app_old. rewrite (well_formed_cells d r Hwf Hr).
    eapply index_of_length; eauto.
Qed.

Lemma length_zip_with_same {A : Type} (f : A -> row -> row) vals (l : list row) :
  length vals = length l -> length (zip_with f vals l) = length l.
Proof.
  revert l. induction vals as [|v vals IH]; intros [|r l] Hlen; simpl in *; try lia.
  now rewrite IH by lia.
Qed.

Lemma setitem_rows name vals d :
  length vals = length (rows d) -> length (rows (pd.setitem name vals d)) = length (rows d).
Proof.
  intros Hlen. unfold pd.setitem. destruct (pd.index_of name (columns d));
    cbn [rows]; now apply length_zip_with_same.
Qed.

Lemma setitem_well_formed name vals d :
  well_formed d = true -> well_formed (pd.setitem name vals d) = true.
Proof.
  intros Hwf. unfold well_formed, pd.setitem.
  destruct (pd.index_of name (columns d)) as [i|]; cbn [rows columns];
    apply forallb_forall; intros r Hr; apply Nat.eqb_eq;
    apply zip_with_rows in Hr as (v & r0 & Hr0 & _ & ->).
  - unfold pd.set_cell. cbn [cells]. rewrite length_insert.
    now apply well_formed_cells.
  - cbn [cells]. rewrite !length_app. cbn [length].
    now rewrite (well_formed_cells d r0 Hwf Hr0).
Qed.

Lemma setitem_has_column name vals d : pd.has_column name (pd.setitem name vals d) = true.
Proof.
  apply has_column_index_of. unfold pd.setitem.
  destruct (pd.index_of name (columns d)) as [i|] eqn:Hi; cbn [columns]; [eauto |].
  eexists. now apply index_of_new.
Qed.

Lemma setitem_keeps_column name other vals d :
  pd.has_column other d = true -> pd.has_column other (pd.setitem name vals d) = true.
Proof.
  intros Hhas. apply has_column_index_of in Hhas as [j Hj]. apply has_column_index_of.
  unfold pd.setitem. destruct (pd.index_of name (columns d)); cbn [columns]; [eauto |].
  exists j. now apply index_of_app.
Qed.

Lemma map_eq_pointwise {A B : Type} (f g : A -> B) l :
  List.map f l = List.map g l -> forall x, In x l -> f x = g x.
Proof.
  induction l as [|a l IH]; simpl; intros Heq x Hx; [destruct Hx |].
  injection Heq as Ha Hl. destruct Hx as [<- | Hx]; auto.
Qed.

Lemma getitem_cells name d col i :
  pd.index_of name (columns d) = Some i -> pd.getitem name d = inr col ->
  col = List.map (pd.cell_at i) (rows d).
Proof. unfold pd.getitem. intros ->. now intros [= <-]. Qed.

Lemma timestamp_cells_datetime ts : pd.is_datetime64 (List.map timestamp_cell ts) = true.
Proof.
  unfold pd.is_datetime64. apply forallb_forall. intros c Hc.
  apply in_map_iff in Hc as ([day|] & <- & _); reflexivity.
Qed.

Section DataLayer.
Context `{Database} `{Datetimes}.

(** What lines 61-63 make of a frame with a ["data_referencia"] column. *)
Lemma add_year_timestamps df d :
  well_formed df = true -> pd.has_column "data_referencia" df = true ->
  add_year df = inr d ->
  well_formed d = true /\ length (rows d) = length (rows df) /\
  exists i t,
    pd.index_of "ano" (columns d) = Some i /\
    pd.index_of "data_referencia" (columns d) = Some t /\
    pd.is_datetime64 (List.map (pd.cell_at t) (rows d)) = true /\
    forall r, In r (rows d) -> pd.cell_at i r = dt_year (pd.cell_at t r).
Proof.
  intros Hwf Hhas. unfold add_year. rewrite Hhas.
  destruct (pd.getitem "data_referencia" df) as [e | col] eqn:Hcol; [discriminate |].
  destruct (to_datetime col) as [e | ts] eqn:Hts; [discriminate |].
  assert (Hlen : length (List.map timestamp_cell ts) = length (rows df)).
  { rewrite length_map, (to_datetime_length _ _ Hts).
    destruct (proj1 (has_column_index_of _ _) Hhas) as [t Ht].
    rewrite (getitem_cells _ _ _ _ Ht Hcol). apply length_map. }
  set (df1 := pd.setitem "data_referencia" (List.map timestamp_cell ts) df).
  assert (Hwf1 : well_formed df1 = true) by now apply setitem_well_formed.
  assert (Hrows1 : length (rows df1) = length (rows df)) by now apply setitem_rows.
  assert (Hget1 : pd.getitem "data_referencia" df1 = inr (List.map timestamp_cell ts))
    by now apply getitem_setitem.
  rewrite Hget1. intros [= <-].
  assert (Hlen1 : length (List.map dt_year (List.map timestamp_cell ts)) = length (rows df1))
    by (rewrite length_map; lia).
  set (d := pd.setitem "ano" (List.map dt_year (List.map timestamp_cell ts)) df1).
  assert (Hano : pd.getitem "ano" d = inr (List.map dt_year (List.map timestamp_cell ts)))
    by now apply getitem_setitem.
  assert (Hdr : pd.getitem "data_referencia" d = inr (List.map timestamp_cell ts)).
  { unfold d. rewrite getitem_setitem_other;
      [now apply getitem_setitem | exact Hwf1 | exact Hlen1 | discriminate |].
    apply setitem_has_column. }
  split; [now apply setitem_well_formed |].
  split; [unfold d; rewrite setitem_rows by exact Hlen1; exact Hrows1 |].
  destruct (proj1 (has_column_index_of "ano" d) (setitem_has_column _ _ _)) as [i Hi].
  assert (Hhasdr : pd.has_column "data_referencia" d = true)
    by (apply setitem_keeps_column, setitem_has_column).
  destruct (proj1 (has_column_index_of _ _) Hhasdr) as [t Ht].
  exists i, t. split; [exact Hi |]. split; [exact Ht |].
  pose proof (getitem_cells _ _ _ _ Hi Hano) as Hci.
  pose proof (getitem_cells _ _ _ _ Ht Hdr) as Hct.
  split.
  - rewrite <- Hct. apply timestamp_cells_datetime.
  - rewrite Hct, List.map_map in Hci. symmetry in Hci.
    exact (map_eq_pointwise _ _ _ Hci).
Qed.

(** The frames [fetch_data] returns: the empty frame, or what lines 60-63
    make of the result of the query. *)
Lemma fetch_data_frame creds query d log :
  fetch_data creds query = (inr d, log) ->
  d = pd.empty_frame \/
  exists conn df, connect creds = Connected conn /\
    read_sql_query query conn = inr df /\ add_year df = inr d.
Proof.
  unfold fetch_data, get_db_connection.
  destruct (negb _); [intros [= <- <-]; now left |].
  destruct (connect creds) as [conn | e | e] eqn:Hconn;
    [| intros [= <- <-]; now left | discriminate].
  destruct (read_sql_query query conn) as [e | df] eqn:Hq; [intros [= <- <-]; now left |].
  destruct (add_year df) as [e | d'] eqn:Hadd; intros [= <- <-]; [now left |].
  right. exists conn, df. auto.
Qed.

End DataLayer.

Lemma set_cell_in_range i r :
  (i < length (cells r))%nat -> pd.set_cell i (pd.cell_at i r) r = r.
Proof.
  intros Hi. destruct r as [lbl cs]. unfold pd.set_cell. cbn [label cells] in *. f_equal.
  apply list_insert_id. rewrite cell_at_lookup. cbn [cells].
  destruct (lookup_lt_is_Some_2 cs i Hi) as [c Hc]. rewrite Hc. reflexivity.
Qed.

Lemma isin_year years z :
  pd.isin years (Num (inject_Z z)) = true <-> In z years.
Proof.
  rewrite isin_spec. split.
  - intros (q & y & Heq & Hy & Hq). assert (Hq' : q = inject_Z z) by congruence.
    rewrite Hq' in Hq. destruct (inject_Z_injective z y) as [Hinj _].
    now rewrite (Hinj Hq).
  - intros Hz. exists (inject_Z z), z. split; [reflexivity |]. split; [exact Hz | reflexivity].
Qed.

Section DataLayerProperties.
Context `{Database} `{Datetimes}.

(** Property X9.  When one of the five settings is absent, empty or zero,
    [fetch_data] returns the empty frame and shows the message that the
    credentials are not configured, and nothing else happens: no connection is
    opened and no query is run. *)
Theorem fetch_data_without_credentials (creds : credentials) (query : string) (v : setting) :
  In v [DB_HOST creds; DB_PORT creds; DB_NAME creds; DB_USER creds; DB_PASSWORD creds] ->
  truthy v = false ->
  fetch_data creds query = (inr pd.empty_frame, [db_st_error CredentialsNotConfigured]).
Proof.
  intros Hv Hfalse. unfold fetch_data, get_db_connection.
  assert (Hall : forallb truthy [DB_HOST creds; DB_PORT creds; DB_NAME creds;
                                 DB_USER creds; DB_PASSWORD creds] = false).
  { destruct (forallb _ _) eqn:Hall; [| reflexivity].
    rewrite forallb_forall in Hall. rewrite (Hall v Hv) in Hfalse. discriminate. }
  now rewrite Hall.
Qed.

(** Property X10.  Unless [psycopg2.connect] raises something other than an
    [OperationalError], [fetch_data] does not raise: it returns a frame.
    Whenever it shows an error that frame is the empty frame, and it only runs
    the query it was given, on a connection that was opened. *)
Theorem fetch_data_degrades (creds : credentials) (query : string)
    (r : Py.exc + DataFrame) (log : list db_event) :
  fetch_data creds query = (r, log) ->
  (forall e, connect creds <> ConnectRaised e) ->
  exists d, r = inr d /\
    ((exists m, In (db_st_error m) log) -> d = pd.empty_frame) /\
    (forall q, In (db_read_sql q) log ->
       q = query /\ exists conn, connect creds = Connected conn).
Proof.
  unfold fetch_data, get_db_connection. intros Hrun Hconnect.
  destruct (negb _).
  { injection Hrun as <- <-. eexists. split; [reflexivity |]. split; [reflexivity |].
    intros q [Hq | []]. discriminate. }
  destruct (connect creds) as [conn | e | e] eqn:Hconn.
  - destruct (match read_sql_query query conn with
              | inl e => inl e
              | inr df => add_year df
              end) as [e | d]; injection Hrun as <- <-.
    + eexists. split; [reflexivity |]. split; [reflexivity |].
      intros q [Hq | [Hq | [Hq | [Hq | []]]]]; try discriminate.
      injection Hq as <-. eauto.
    + exists d. split; [reflexivity |]. split.
      * intros (m & [Hm | [Hm | []]]); discriminate.
      * intros q [Hq | [Hq | []]]; try discriminate. injection Hq as <-. eauto.
  - injection Hrun as <- <-. eexists. split; [reflexivity |]. split; [reflexivity |].
    intros q [Hq | [Hq | [Hq | []]]]; discriminate.
  - exfalso. exact (Hconnect e eq_refl).
Qed.

(** Property X11.  A frame [fetch_data] returns with a ["data_referencia"]
    column has timestamps in that column and an ["ano"] column, and the
    ["ano"] cell of every row is the calendar year of the row's timestamp,
    missing where the timestamp is. *)
Theorem fetch_data_years (creds : credentials) (query : string)
    (d : DataFrame) (log : list db_event) :
  fetch_data creds query = (inr d, log) ->
  pd.has_column "data_referencia" d = true ->
  timestamped d = true /\
  exists i t,
    pd.index_of "ano" (columns d) = Some i /\
    pd.index_of "data_referencia" (columns d) = Some t /\
    forall r, In r (rows d) -> pd.cell_at i r = dt_year (pd.cell_at t r).
Proof.
  intros Hrun Hhas.
  destruct (fetch_data_frame _ _ _ _ Hrun) as [-> | (conn & df & _ & Hq & Hadd)];
    [discriminate |].
  pose proof (read_sql_query_shape _ _ _ Hq) as Hwf.
  assert (Hhas0 : pd.has_column "data_referencia" df = true).
  { destruct (pd.has_column "data_referencia" df) eqn:Hdf; [reflexivity |].
    unfold add_year in Hadd. rewrite Hdf in Hadd. injection Hadd as <-. congruence. }
  destruct (add_year_timestamps df d Hwf Hhas0 Hadd)
    as (_ & _ & i & t & Hi & Ht & Hdt & Hyear).
  split; [unfold timestamped; now rewrite Ht |]. exists i, t. auto.
Qed.

(** Property X12.  [filter_df_by_years] does not raise on a frame that
    [fetch_data] returned with a ["data_referencia"] column, and it keeps
    exactly the rows, as they were, whose timestamp lies in one of the
    calendar years given. *)
Theorem filter_fetched_by_calendar_year `{Pandas} (creds : credentials) (query : string)
    (d : DataFrame) (log : list db_event) (w : world) (df : loc) (years : list Z) (t : nat) :
  fetch_data creds query = (inr d, log) ->
  pd.index_of "data_referencia" (columns d) = Some t ->
  heap w !! df = Some d ->
  exists res w' d',
    filter_df_by_years df years w = (inr res, w') /\ heap w' !! res = Some d' /\
    forall r, In r (rows d') <->
      In r (rows d) /\ exists day, pd.cell_at t r = Date day /\ In (year_of day) years.
Proof.
  intros Hrun Ht Hd.
  assert (Hhas : pd.has_column "data_referencia" d = true)
    by (apply has_column_index_of; eauto).
  destruct (fetch_data_frame _ _ _ _ Hrun) as [-> | (conn & df0 & _ & Hq & Hadd)];
    [discriminate |].
  pose proof (read_sql_query_shape _ _ _ Hq) as Hwf0.
  assert (Hhas0 : pd.has_column "data_referencia" df0 = true).
  { destruct (pd.has_column "data_referencia" df0) eqn:Hdf; [reflexivity |].
    unfold add_year in Hadd. rewrite Hdf in Hadd. injection Hadd as <-. congruence. }
  destruct (add_year_timestamps df0 d Hwf0 Hhas0 Hadd)
    as (Hwf & _ & i & t' & Hi & Ht' & Hdt & Hyear).
  assert (t' = t) as -> by congruence.
  destruct (pd.empty d) eqn:He.
  { exists df, w, d. rewrite (filter_df_by_years_guard w df d years Hd) by auto.
    split; [reflexivity |]. split; [exact Hd |].
    rewrite (empty_rows d t "data_referencia" Ht He). simpl. intros r. tauto. }
  destruct (filter_df_by_years_value w df d years i t Hd He Hi Ht Hdt)
    as (res & w' & Hfilter & _ & Hres).
  exists res, w'. eexists. split; [exact Hfilter |]. split; [exact Hres |]. cbn [rows].
  assert (Hfixed : forall r, In r (rows d) -> coerce_year i r = r).
  { intros r Hr. unfold coerce_year.
    assert (Hc : pd.to_numeric_coerce (pd.cell_at i r) = pd.cell_at i r)
      by (rewrite (Hyear r Hr); now destruct (pd.cell_at t r)).
    rewrite Hc. apply set_cell_in_range. rewrite (well_formed_cells d r Hwf Hr).
    eapply index_of_length; eauto. }
  assert (Hsel : forall r, In r (rows d) ->
            pd.isin years (pd.cell_at i r) = true <->
            exists day, pd.cell_at t r = Date day /\ In (year_of day) years).
  { intros r Hr. rewrite (Hyear r Hr). destruct (pd.cell_at t r) as [q|day|s| |]; simpl;
      try (split; [discriminate | intros (day' & Hday & _); discriminate]).
    change (existsb _ years) with (pd.isin years (Num (inject_Z (year_of day)))).
    rewrite isin_year. split; [eauto |]. now intros (day' & [= <-] & Hin). }
  intros r. split.
  - intros Hr. apply sorted_by_timestamp_In in Hr.
    apply filtered_rows_In in Hr as (Hin & r0 & Hr0 & ->).
    rewrite (Hfixed r0 Hr0) in *. split; [exact Hr0 |]. now apply Hsel.
  - intros [Hr Hday]. apply sorted_by_timestamp_In.
    unfold filtered_rows. apply filter_In. split; [| now apply Hsel].
    apply in_map_iff. exists r. split; [now apply Hfixed | exact Hr].
Qed.

End DataLayerProperties.

Lemma fetch_data_without_credentials_witness :
  @fetch_data memory_database plain_datetimes no_password "SELECT 1" =
    (inr pd.empty_frame, [db_st_error CredentialsNotConfigured]).
Proof.
  apply (@fetch_data_without_credentials memory_database plain_datetimes no_password
           "SELECT 1" Unset); [| reflexivity].
  right. right. right. right. left. reflexivity.
Defined.

Lemma fetch_data_degrades_witness :
  exists d, @inr Py.exc DataFrame selic_two = inr d /\
    ((exists m, In (db_st_error m) [db_connect full_credentials; db_read_sql "SELECT 1"]) ->
       d = pd.empty_frame) /\
    (forall q, In (db_read_sql q) [db_connect full_credentials; db_read_sql "SELECT 1"] ->
       q = "SELECT 1"%string /\
       exists conn, @connect memory_database full_credentials = Connected conn).
Proof.
  apply (@fetch_data_degrades memory_database plain_datetimes full_credentials "SELECT 1"
           (inr selic_two) [db_connect full_credentials; db_read_sql "SELECT 1"] eq_refl).
  discriminate.
Defined.

Lemma fetch_data_years_witness :
  timestamped selic_two = true /\
  exists i t,
    pd.index_of "ano" (columns selic_two) = Some i /\
    pd.index_of "data_referencia" (columns selic_two) = Some t /\
    forall r, In r (rows selic_two) ->
      pd.cell_at i r = @dt_year plain_datetimes (pd.cell_at t r).
Proof.
  apply (@fetch_data_years memory_database plain_datetimes full_credentials "SELECT 1"
           selic_two [db_connect full_credentials; db_read_sql "SELECT 1"] eq_refl eq_refl).
Defined.

Lemma filter_fetched_by_calendar_year_witness :
  exists res w' d',
    @filter_df_by_years decimal_pandas 1%positive [2020] two_world = (inr res, w') /\
    heap w' !! res = Some d' /\
    forall r, In r (rows d') <->
      In r (rows selic_two) /\
      exists day, pd.cell_at 0 r = Date day /\ In (@year_of plain_datetimes day) [2020].
Proof.
  apply (@filter_fetched_by_calendar_year memory_database plain_datetimes decimal_pandas
           full_credentials "SELECT 1" selic_two
           [db_connect full_credentials; db_read_sql "SELECT 1"] two_world 1%positive [2020]
           0%nat eq_refl eq_refl eq_refl).
Defined.

(** ** Choosing and joining two indicators *)

Lemma same_key_sym a b : pd.same_key a b = pd.same_key b a.
Proof.
  destruct a as [p|d|s| |], b as [q|e|t| |]; simpl; try reflexivity.
  - destruct (Qeq_bool p q) eqn:E1, (Qeq_bool q p) eqn:E2; try reflexivity.
    + apply Qeq_bool_iff in E1. symmetry in E1. apply Qeq_bool_iff in E1. congruence.
    + apply Qeq_bool_iff in E2. symmetry in E2. apply Qeq_bool_iff in E2. congruence.
  - apply Z.eqb_sym.
  - apply String.eqb_sym.
Qed.

Lemma merge_inner_rows_nil l cols :
  rows (pd.merge_inner l (Frame cols [])) = [].
Proof.
  unfold pd.merge_inner. simpl. induction (rows l) as [|a rest IH]; [reflexivity | exact IH].
Qed.

(** The join has one row per pair of rows with the same label. *)
Lemma merge_inner_length_cons_l cl a l r :
  length (rows (pd.merge_inner (Frame cl (a :: l)) r)) =
    (length (List.filter (fun b => pd.same_key (label a) (label b)) (rows r)) +
     length (rows (pd.merge_inner (Frame cl l) r)))%nat.
Proof. unfold pd.merge_inner. simpl. now rewrite length_app, length_map. Qed.

Lemma merge_inner_length_cons_r cr l b r :
  length (rows (pd.merge_inner l (Frame cr (b :: r)))) =
    (length (List.filter (fun a => pd.same_key (label a) (label b)) (rows l)) +
     length (rows (pd.merge_inner l (Frame cr r))))%nat.
Proof.
  unfold pd.merge_inner. simpl. induction (rows l) as [|a rest IH]; [reflexivity |].
  simpl. rewrite !length_app, !length_map, IH.
  destruct (pd.same_key (label a) (label b)); simpl; rewrite ?length_map; lia.
Qed.

Lemma merge_inner_length_sym l r :
  length (rows (pd.merge_inner l r)) = length (rows (pd.merge_inner r l)).
Proof.
  destruct l as [cl rl], r as [cr rr]. revert rr.
  induction rl as [|a rl IH]; intros rr.
  - rewrite merge_inner_rows_nil. reflexivity.
  - rewrite merge_inner_length_cons_l, merge_inner_length_cons_r, IH. simpl rows.
    f_equal. f_equal. apply filter_ext. intros b. apply same_key_sym.
Qed.







(** For two series the section returns, with the warning when fewer than 2
    rows are joined and with the coefficient otherwise. *)
Lemma correlation_section_shape indicator1_name indicator2_name a b w fa fb :
  heap w !! a = Some fa -> heap w !! b = Some fb ->
  series fa = true -> series fb = true ->
  exists df1 df2,
    pd.set_index "data_referencia" fa = inr df1 /\
    pd.set_index "data_referencia" fb = inr df2 /\
    (((length (rows (pd.merge_inner df1 df2)) < 2)%nat /\
      correlation_section indicator1_name indicator2_name a b w =
        (inr tt, World (heap w)
                   (ui w ++ [st_warning (InsufficientCommonData indicator1_name
                                           indicator2_name)]))) \/
     ((2 <= length (rows (pd.merge_inner df1 df2)))%nat /\
      exists col_name1 col_name2 xs ys,
        correlation_section indicator1_name indicator2_name a b w =
          (inr tt, World (heap w)
                     (ui w ++ [st_subheader [indicator1_name; indicator2_name];
                               st_metric (pd.corr xs ys);
                               st_scatter col_name1 col_name2 (pd.merge_inner df1 df2)])))).
Proof.
  intros Ha Hb Hsa Hsb.
  destruct (series_set_index fa Hsa) as (df1 & H1 & Hc1).
  destruct (series_set_index fb Hsb) as (df2 & H2 & Hc2).
  exists df1, df2. split; [exact H1 |]. split; [exact H2 |].
  destruct (Nat.lt_ge_cases (length (rows (pd.merge_inner df1 df2))) 2) as [Hlt | Hge].
  - left. split; [exact Hlt |].
    now apply (correlation_section_warning _ _ a b w fa fb df1 df2).
  - right. split; [exact Hge |].
    pose proof (merge_inner_columns df1 df2) as Hcols.
    destruct (columns (pd.merge_inner df1 df2)) as [|c1 [|c2 cols]] eqn:Hcm;
      simpl in Hcols; try lia.
    assert (H0 : columns (pd.merge_inner df1 df2) !! 0%nat = Some c1) by now rewrite Hcm.
    assert (H1' : columns (pd.merge_inner df1 df2) !! 1%nat = Some c2) by now rewrite Hcm.
    destruct (getitem_present _ 0 c1 H0) as [xs Hxs].
    destruct (getitem_present _ 1 c2 H1') as [ys Hys].
    exists c1, c2, xs, ys.
    now apply (correlation_section_metric _ _ a b w fa fb df1 df2).
Qed.

(** Property X13.  Which of the two indicators is chosen first does not
    decide whether a coefficient is shown: for two series, the section shows
    the warning that the common data does not suffice for one order of the
    indicators exactly when it shows it for the other. *)
Theorem correlation_warning_symmetric (indicator1_name indicator2_name : string)
    (a b : loc) (w : world) (fa fb : DataFrame) :
  heap w !! a = Some fa -> heap w !! b = Some fb ->
  series fa = true -> series fb = true ->
  correlation_section indicator1_name indicator2_name a b w =
    (inr tt, World (heap w)
               (ui w ++ [st_warning (InsufficientCommonData indicator1_name
                                       indicator2_name)])) <->
  correlation_section indicator2_name indicator1_name b a w =
    (inr tt, World (heap w)
               (ui w ++ [st_warning (InsufficientCommonData indicator2_name
                                       indicator1_name)])).
Proof.
  intros Ha Hb Hsa Hsb.
  destruct (correlation_section_shape indicator1_name indicator2_name a b w fa fb
              Ha Hb Hsa Hsb) as (df1 & df2 & H1 & H2 & Hab).
  destruct (correlation_section_shape indicator2_name indicator1_name b a w fb fa
              Hb Ha Hsb Hsa) as (df2' & df1' & H2' & H1' & Hba).
  assert (df1' = df1) as -> by congruence. assert (df2' = df2) as -> by congruence.
  pose proof (merge_inner_length_sym df1 df2) as Hsym.
  destruct Hab as [[Hlt Hrun] | [Hge (c1 & c2 & xs & ys & Hrun)]];
    destruct Hba as [[Hlt' Hrun'] | [Hge' (c1' & c2' & xs' & ys' & Hrun')]]; try lia.
  - rewrite Hrun, Hrun'. split; reflexivity.
  - rewrite Hrun, Hrun'. split; intros Heq; exfalso;
      injection Heq as Heq; apply app_inv_head in Heq; discriminate.
Qed.


Lemma correlation_warning_symmetric_witness :
  correlation_section "Selic" "IPCA" 1%positive 2%positive two_world =
    (inr tt, World (heap two_world)
               (ui two_world ++ [st_warning (InsufficientCommonData "Selic" "IPCA")])) <->
  correlation_section "IPCA" "Selic" 2%positive 1%positive two_world =
    (inr tt, World (heap two_world)
               (ui two_world ++ [st_warning (InsufficientCommonData "IPCA" "Selic")])).
Proof.
  apply (correlation_warning_symmetric "Selic" "IPCA" 1%positive 2%positive two_world
           selic_two ipca_two eq_refl eq_refl eq_refl eq_refl).
Defined.


(** ** Failures of the forecasting library *)

Section ForecastFailures.
Context `{Pandas} `{Prophet}.


End ForecastFailures.


(** ** The latest values *)

Section SortHead.
Context {A : Type} (leb : A -> A -> bool) (P : A -> Prop).
Hypothesis leb_total : forall x y, leb x y = false -> leb y x = true.
Hypothesis leb_trans :
  forall x y z, P x -> P y -> P z -> leb x y = true -> leb y z = true -> leb x z = true.

Lemma leb_refl x : leb x x = true.
Proof using leb_total.
  destruct (leb x x) eqn:E; [reflexivity |]. pose proof (leb_total _ _ E). congruence.
Qed.

(** The first element of a sorted list is below or equal to all of them. *)
Lemma sort_by_head l :
  Forall P l -> l <> [] ->
  exists h rest, Py.sort_by leb l = h :: rest /\ In h l /\
    forall x, In x l -> leb h x = true.
Proof using leb_total leb_trans.
  induction l as [|x l IH]; intros HP Hne; [congruence |].
  apply Forall_cons_iff in HP as [Px HP]. simpl.
  destruct l as [|y l'].
  { simpl. exists x, []. split; [reflexivity |]. split; [now left |].
    intros z [<- | []]. apply leb_refl. }
  destruct (IH HP ltac:(discriminate)) as (h & rest & Hs & Hh & Hmin).
  rewrite Hs. simpl. destruct (leb x h) eqn:Hxh.
  - exists x, (h :: rest). split; [reflexivity |]. split; [now left |].
    intros z [<- | Hz]; [apply leb_refl |].
    rewrite List.Forall_forall in HP.
    apply (leb_trans x h z); [exact Px | now apply HP | now apply HP | exact Hxh |].
    now apply Hmin.
  - exists h, (Py.insert_by leb x rest). split; [reflexivity |]. split; [now right |].
    intros z [<- | Hz]; [now apply leb_total | now apply Hmin].
Qed.

End SortHead.

Lemma key_geb_total a b : key_geb a b = false -> key_geb b a = true.
Proof.
  unfold key_geb. destruct (pd.isna b) eqn:Hb; [discriminate |].
  destruct (pd.isna a) eqn:Ha; [reflexivity |]. apply key_leb_total.
Qed.

Lemma key_geb_datetime a b :
  pd.is_datetime64 [a; b] = true ->
  key_geb a b = true <->
  pd.isna b = true \/ exists x y, a = Date x /\ b = Date y /\ y <= x.
Proof.
  unfold key_geb, pd.key_leb.
  destruct a as [p|x|s| |], b as [q|y|t| |]; simpl; try discriminate; intros _.
  - rewrite Z.leb_le. split.
    + intros Hle. right. exists x, y. auto.
    + intros [Hna | (x' & y' & [= ->] & [= ->] & Hle)]; [discriminate | exact Hle].
  - split; [now left | reflexivity].
  - split; [intros Hf; discriminate |].
    intros [Hna | (x' & y' & Hx & _)]; discriminate.
  - split; [now left | reflexivity].
Qed.

Lemma key_geb_datetime_trans a b c :
  pd.is_datetime64 [a] = true -> pd.is_datetime64 [b] = true ->
  pd.is_datetime64 [c] = true ->
  key_geb a b = true -> key_geb b c = true -> key_geb a c = true.
Proof.
  intros Ha Hb Hc Hab Hbc.
  assert (Hab' : pd.is_datetime64 [a; b] = true).
  { simpl in *. now rewrite andb_true_r in *; rewrite Ha, Hb. }
  assert (Hbc' : pd.is_datetime64 [b; c] = true).
  { simpl in *. now rewrite andb_true_r in *; rewrite Hb, Hc. }
  assert (Hac' : pd.is_datetime64 [a; c] = true).
  { simpl in *. now rewrite andb_true_r in *; rewrite Ha, Hc. }
  apply (key_geb_datetime a b Hab') in Hab. apply (key_geb_datetime b c Hbc') in Hbc.
  apply (key_geb_datetime a c Hac').
  destruct Hbc as [Hc' | (y & z & -> & -> & Hzy)]; [now left |].
  destruct Hab as [Hb' | (x & y' & -> & [= <-] & Hyx)]; [discriminate |].
  right. exists x, z. split; [reflexivity |]. split; [reflexivity | lia].
Qed.

Section LatestValues.
Context `{Pandas}.

(** The first row of a frame sorted in descending order of timestamps. *)
Lemma sort_values_descending_head d t :
  pd.index_of "data_referencia" (columns d) = Some t ->
  pd.is_datetime64 (List.map (pd.cell_at t) (rows d)) = true ->
  rows d <> [] ->
  exists sorted h rest,
    sort_values_descending "data_referencia" d = inr sorted /\
    columns sorted = columns d /\ rows sorted = h :: rest /\ In h (rows d) /\
    forall r, In r (rows d) -> key_geb (pd.cell_at t h) (pd.cell_at t r) = true.
Proof.
  intros Ht Hdt Hne. unfold sort_values_descending. rewrite Ht.
  rewrite (datetime_sortable _ Hdt).
  set (geb := fun a b => key_geb (pd.cell_at t a) (pd.cell_at t b)).
  pose proof (tie_order_perm false (pd.cell_at t) (rows d)) as Hperm.
  destruct (sort_by_head geb (fun r => pd.is_datetime64 [pd.cell_at t r] = true))
    with (l := tie_order false (pd.cell_at t) (rows d)) as (h & rest & Hs & Hh & Hmax).
  - intros x y. apply key_geb_total.
  - intros x y z. apply key_geb_datetime_trans.
  - apply List.Forall_forall. intros r Hr. simpl. rewrite andb_true_r.
    unfold pd.is_datetime64 in Hdt. rewrite forallb_forall in Hdt.
    apply Hdt. apply in_map. now apply (Permutation_in _ Hperm).
  - intros Hnil. rewrite Hnil in Hperm. apply Permutation_nil in Hperm. contradiction.
  - eexists. exists h, rest. split; [reflexivity |]. split; [reflexivity |].
    split; [exact Hs |]. split; [now apply (Permutation_in _ Hperm) |].
    intros r Hr. apply Hmax. now apply (Permutation_in _ (Permutation_sym Hperm)).
Qed.

Lemma datetime_cell d t r :
  pd.is_datetime64 (List.map (pd.cell_at t) (rows d)) = true -> In r (rows d) ->
  pd.is_datetime64 [pd.cell_at t r] = true.
Proof.
  intros Hdt Hr. simpl. rewrite andb_true_r.
  unfold pd.is_datetime64 in Hdt. rewrite forallb_forall in Hdt.
  apply Hdt. now apply in_map.
Qed.

Lemma latest_metric_run df value_col w d t j h rest sorted :
  heap w !! df = Some d -> pd.empty d = false ->
  pd.index_of "data_referencia" (columns d) = Some t ->
  pd.index_of value_col (columns d) = Some j ->
  sort_values_descending "data_referencia" d = inr sorted ->
  columns sorted = columns d -> rows sorted = h :: rest ->
  latest_metric df value_col w =
    match strftime_day (pd.cell_at t h) with
    | inr day => (inr (Latest day (pd.cell_at j h)), w)
    | inl e => (inl e, w)
    end.
Proof.
  intros Hd He Ht Hj Hs Hc Hr. unfold latest_metric.
  rewrite bind_run, (load_run w df d Hd). cbv beta iota. rewrite He.
  change (negb false) with true. cbv beta iota.
  rewrite bind_run. unfold lift at 1. rewrite Hs.
  rewrite bind_run. unfold lift at 1, iloc0 at 1. rewrite Hr.
  rewrite bind_run. unfold lift at 1, row_getitem at 1. rewrite Hc, Ht.
  rewrite bind_run. unfold lift at 1.
  destruct (strftime_day (pd.cell_at t h)) as [e | day]; [reflexivity |].
  rewrite bind_run. unfold lift at 1, row_getitem at 1. rewrite Hc, Hj. reflexivity.
Qed.

Lemma not_empty_rows d : pd.empty d = false -> rows d <> [].
Proof.
  unfold pd.empty. intros He Hr. rewrite Hr in He. simpl in He.
  now rewrite orb_true_r in He.
Qed.

(** Property X16.  For a frame that is not empty, has timestamps in
    ["data_referencia"], at least one of them present, and the value column,
    picking the latest row for the card does not raise and changes nothing:
    the day and the value the card formats are those of one row of the frame,
    and no row of the frame has a later timestamp, whatever order the sort
    gives rows with equal timestamps. *)
Theorem latest_metric_is_latest (df_orig : loc) (value_col : string) (w : world)
    (d : DataFrame) (t j : nat) (r0 : row) (day0 : Z) :
  heap w !! df_orig = Some d -> pd.empty d = false ->
  pd.index_of "data_referencia" (columns d) = Some t ->
  pd.is_datetime64 (List.map (pd.cell_at t) (rows d)) = true ->
  pd.index_of value_col (columns d) = Some j ->
  In r0 (rows d) -> pd.cell_at t r0 = Date day0 ->
  exists r day,
    latest_metric df_orig value_col w = (inr (Latest day (pd.cell_at j r)), w) /\
    In r (rows d) /\ pd.cell_at t r = Date day /\
    forall r' day', In r' (rows d) -> pd.cell_at t r' = Date day' -> day' <= day.
Proof.
  intros Hd He Ht Hdt Hj Hr0 Hday0.
  destruct (sort_values_descending_head d t Ht Hdt (not_empty_rows d He))
    as (sorted & h & rest & Hs & Hc & Hr & Hh & Hmax).
  assert (Hlater : forall r' day', In r' (rows d) -> pd.cell_at t r' = Date day' ->
            exists day, pd.cell_at t h = Date day /\ day' <= day).
  { intros r' day' Hr' Hday'. pose proof (Hmax r' Hr') as Hge.
    apply key_geb_datetime in Hge.
    - rewrite Hday' in Hge. destruct Hge as [Hna | (x & y & Hx & [= <-] & Hle)];
        [discriminate |]. eauto.
    - pose proof (datetime_cell d t h Hdt Hh) as H1.
      pose proof (datetime_cell d t r' Hdt Hr') as H2.
      simpl in *. now rewrite andb_true_r in *; rewrite H1, H2. }
  destruct (Hlater r0 day0 Hr0 Hday0) as (day & Hday & _).
  exists h, day. split.
  - rewrite (latest_metric_run df_orig value_col w d t j h rest sorted Hd He Ht Hj Hs Hc Hr).
    now rewrite Hday.
  - split; [exact Hh |]. split; [exact Hday |].
    intros r' day' Hr' Hday'. destruct (Hlater r' day' Hr' Hday') as (x & Hx & Hle).
    congruence.
Qed.

(** Property X17.  A frame that is not empty but has no timestamp at all,
    every cell of ["data_referencia"] being [NaT], makes the card raise
    [ValueError] instead of showing ["N/D"]: the script stops there. *)
Theorem latest_metric_without_timestamps (df_orig : loc) (value_col : string) (w : world)
    (d : DataFrame) (t : nat) :
  heap w !! df_orig = Some d -> pd.empty d = false ->
  pd.index_of "data_referencia" (columns d) = Some t ->
  (forall r, In r (rows d) -> pd.cell_at t r = NaT) ->
  latest_metric df_orig value_col w = (inl Py.ValueError, w).
Proof.
  intros Hd He Ht Hnat.
  assert (Hdt : pd.is_datetime64 (List.map (pd.cell_at t) (rows d)) = true).
  { unfold pd.is_datetime64. apply forallb_forall. intros c Hc.
    apply in_map_iff in Hc as (r & <- & Hr). now rewrite (Hnat r Hr). }
  destruct (sort_values_descending_head d t Ht Hdt (not_empty_rows d He))
    as (sorted & h & rest & Hs & Hc & Hr & Hh & _).
  unfold latest_metric.
  rewrite bind_run, (load_run w df_orig d Hd). cbv beta iota. rewrite He.
  change (negb false) with true. cbv beta iota.
  rewrite bind_run. unfold lift at 1. rewrite Hs.
  rewrite bind_run. unfold lift at 1, iloc0 at 1. rewrite Hr.
  rewrite bind_run. unfold lift at 1, row_getitem at 1. rewrite Hc, Ht.
  rewrite bind_run. unfold lift at 1. now rewrite (Hnat h Hh).
Qed.

End LatestValues.

Lemma latest_metric_is_latest_witness :
  exists r day,
    @latest_metric reversing_pandas 1%positive "pib" gappy_world =
      (inr (Latest day (pd.cell_at 1 r)), gappy_world) /\
    In r (rows gappy_frame) /\ pd.cell_at 0 r = Date day /\
    forall r' day', In r' (rows gappy_frame) -> pd.cell_at 0 r' = Date day' -> day' <= day.
Proof.
  apply (@latest_metric_is_latest reversing_pandas 1%positive "pib" gappy_world gappy_frame 0 1
           (Row (Num 0) [Date 18262; NaN; Num 2020]) 18262
           eq_refl eq_refl eq_refl eq_refl eq_refl).
  - now left.
  - reflexivity.
Defined.

Lemma latest_metric_without_timestamps_witness :
  @latest_metric reversing_pandas 1%positive "pib" undated_world =
    (inl Py.ValueError, undated_world).
Proof.
  apply (@latest_metric_without_timestamps reversing_pandas 1%positive "pib" undated_world undated_frame 0
           eq_refl eq_refl eq_refl).
  intros r [<- | [<- | []]]; reflexivity.
Defined.

(** ** From the database to the filtered frames *)

Lemma for_each_lift_total {A B : Type} (f : A -> Py.exc + B) (l : list A) w :
  (forall x, In x l -> exists y, f x = inr y) ->
  exists ys, for_each (fun x => lift (f x)) l w = (inr ys, w).
Proof.
  induction l as [|x l IH]; intros Hall; [exists []; reflexivity |].
  destruct (Hall x (or_introl eq_refl)) as [y Hy].
  destruct IH as [ys Hys]; [intros z Hz; apply Hall; now right |].
  exists (y :: ys). simpl. rewrite bind_run. unfold lift at 1. rewrite Hy.
  rewrite bind_run, Hys. reflexivity.
Qed.

Lemma update_all_years_total s df w d :
  heap w !! df = Some d -> exists s', update_all_years s df w = (inr s', w).
Proof.
  intros Hd. unfold update_all_years. rewrite bind_run, (load_run w df d Hd).
  cbv beta iota. destruct (negb (pd.empty d) && pd.has_column "ano" d) eqn:Hg.
  - apply andb_true_iff in Hg as [_ Hc]. apply has_column_index_of in Hc as [i Hi].
    rewrite bind_run. unfold lift at 1, pd.getitem at 1. rewrite Hi. eexists. reflexivity.
  - eexists. reflexivity.
Qed.

Section Page.
Context `{Database} `{Datetimes}.

(** A fetched frame has no years, or the years of its timestamps. *)
Lemma fetched_shape d :
  fetched d ->
  d = pd.empty_frame \/
  exists i t,
    pd.index_of "ano" (columns d) = Some i /\
    pd.index_of "data_referencia" (columns d) = Some t /\
    pd.is_datetime64 (List.map (pd.cell_at t) (rows d)) = true /\
    well_formed d = true /\
    forall r, In r (rows d) -> pd.cell_at i r = dt_year (pd.cell_at t r).
Proof.
  intros (creds & query & log & Hrun & Hcol).
  destruct (fetch_data_frame _ _ _ _ Hrun) as [-> | (conn & df0 & _ & Hq & Hadd)];
    [now left |].
  destruct Hcol as [-> | Hhas]; [now left |]. right.
  pose proof (read_sql_query_shape _ _ _ Hq) as Hwf0.
  assert (Hhas0 : pd.has_column "data_referencia" df0 = true).
  { destruct (pd.has_column "data_referencia" df0) eqn:Hdf; [reflexivity |].
    unfold add_year in Hadd. rewrite Hdf in Hadd. injection Hadd as <-. congruence. }
  destruct (add_year_timestamps df0 d Hwf0 Hhas0 Hadd)
    as (Hwf & _ & i & t & Hi & Ht & Hdt & Hyear).
  exists i, t. auto.
Qed.

(** The years of the fetched frames are whole numbers or missing. *)
Lemma fetched_year_cell d col c :
  fetched d -> pd.getitem "ano" d = inr col -> In c col ->
  pd.isna c = true \/ exists z, c = Num (inject_Z z).
Proof.
  intros Hf Hcol Hc. destruct (fetched_shape d Hf) as [-> | (i & t & Hi & _ & _ & _ & Hyear)];
    [discriminate |].
  rewrite (getitem_cells _ _ _ _ Hi Hcol) in Hc.
  apply in_map_iff in Hc as (r & <- & Hr). rewrite (Hyear r Hr).
  destruct (pd.cell_at t r); simpl; eauto.
Qed.

Section Filtering.
Context `{Pandas}.

(** The filter on a fetched frame: it returns, keeps every object, and
    selects the rows by the year of their timestamp. *)
Lemma filter_fetched w df d years :
  heap w !! df = Some d -> fetched d ->
  exists res w' d',
    filter_df_by_years df years w = (inr res, w') /\ ui w' = ui w /\
    (forall l x, heap w !! l = Some x -> heap w' !! l = Some x) /\
    heap w' !! res = Some d' /\
    forall r, In r (rows d') <-> In r (rows d) /\ in_years years d r.
Proof.
  intros Hd Hf.
  assert (Hguard : rows d = [] ->
            (pd.empty d = true \/ pd.has_column "ano" d = false) ->
            exists res w' d',
              filter_df_by_years df years w = (inr res, w') /\ ui w' = ui w /\
              (forall l x, heap w !! l = Some x -> heap w' !! l = Some x) /\
              heap w' !! res = Some d' /\
              forall r, In r (rows d') <-> In r (rows d) /\ in_years years d r).
  { intros Hrows Hg. exists df, w, d.
    rewrite (filter_df_by_years_guard w df d years Hd Hg).
    split; [reflexivity |]. split; [reflexivity |]. split; [auto |]. split; [exact Hd |].
    rewrite Hrows. simpl. intros r. tauto. }
  destruct (fetched_shape d Hf) as [-> | (i & t & Hi & Ht & Hdt & Hwf & Hyear)].
  { apply Hguard; [reflexivity | now left]. }
  destruct (pd.empty d) eqn:He.
  { apply Hguard; [exact (empty_rows d t _ Ht He) | now left]. }
  pose proof (timestamp_not_year d i t Hi Ht) as Hne.
  rewrite (filter_df_by_years_run w df d years i Hd He Hi).
  unfold pd.sort_values. cbn [columns rows]. rewrite Ht.
  rewrite datetime_sortable by (now apply filtered_rows_datetime).
  set (l1 := fresh (dom (heap w))).
  set (h1 := <[l1 := Frame (columns d) (List.map (coerce_year i) (rows d))]>
               (<[l1 := d]> (heap w))).
  assert (Hl1 : heap w !! l1 = None) by (apply fresh_not_allocated; auto).
  assert (Hl2 : heap w !! fresh (dom h1) = None).
  { apply fresh_not_allocated. intros l Hl. now do 2 apply insert_keeps. }
  do 3 eexists. split; [reflexivity |]. split; [reflexivity |]. cbn [heap]. split.
  { intros l x Hl.
    assert (Hne1 : l1 <> l) by (intros ->; congruence).
    assert (Hne2 : fresh (dom h1) <> l) by (intros E; rewrite E in Hl2; congruence).
    rewrite lookup_insert_ne by exact Hne2. unfold h1.
    now rewrite !lookup_insert_ne by exact Hne1. }
  split; [now rewrite lookup_insert_eq |]. cbn [rows].
  assert (Hfixed : forall r, In r (rows d) -> coerce_year i r = r).
  { intros r Hr. unfold coerce_year.
    assert (Hc : pd.to_numeric_coerce (pd.cell_at i r) = pd.cell_at i r)
      by (rewrite (Hyear r Hr); now destruct (pd.cell_at t r)).
    rewrite Hc. apply set_cell_in_range. rewrite (well_formed_cells d r Hwf Hr).
    eapply index_of_length; eauto. }
  assert (Hsel : forall r, In r (rows d) ->
            pd.isin years (pd.cell_at i r) = true <-> in_years years d r).
  { intros r Hr. rewrite (Hyear r Hr).
    assert (Hin : in_years years d r <->
              exists day, pd.cell_at t r = Date day /\ In (year_of day) years).
    { unfold in_years. rewrite Ht. split.
      - intros (t' & day & [= <-] & Hday & Hy). eauto.
      - intros (day & Hday & Hy). eauto. }
    rewrite Hin. destruct (pd.cell_at t r) as [q|day|s| |]; simpl;
      try (split; [discriminate | intros (day' & Hday & _); discriminate]).
    change (existsb _ years) with (pd.isin years (Num (inject_Z (year_of day)))).
    rewrite isin_year. split; [eauto |]. now intros (day' & [= <-] & Hy). }
  intros r. split.
  - intros Hr. apply sorted_by_timestamp_In in Hr.
    apply filtered_rows_In in Hr as (Hin & r0 & Hr0 & ->).
    rewrite (Hfixed r0 Hr0) in *. split; [exact Hr0 |]. now apply Hsel.
  - intros [Hr Hday]. apply sorted_by_timestamp_In.
    unfold filtered_rows. apply filter_In. split; [| now apply Hsel].
    apply in_map_iff. exists r. split; [now apply Hfixed | exact Hr].
Qed.

(** Lines 175-179 on fetched frames. *)
Lemma filter_each_fetched years locs : forall w,
  (forall df, In df locs -> exists d, heap w !! df = Some d /\ fetched d) ->
  exists filtered w',
    for_each (fun df => filter_df_by_years df years) locs w = (inr filtered, w') /\
    ui w' = ui w /\
    (forall l x, heap w !! l = Some x -> heap w' !! l = Some x) /\
    Forall2 (fun df res =>
               forall d, heap w !! df = Some d ->
                 exists d', heap w' !! res = Some d' /\
                   forall r, In r (rows d') <-> In r (rows d) /\ in_years years d r)
            locs filtered.
Proof.
  induction locs as [|df locs IH]; intros w Hall.
  { exists [], w. split; [reflexivity |]. split; [reflexivity |]. split; [auto | constructor]. }
  destruct (Hall df (or_introl eq_refl)) as (d & Hd & Hf).
  destruct (filter_fetched w df d years Hd Hf)
    as (res & w1 & d' & Hrun & Hui & Hkeep & Hres & Hrows).
  destruct (IH w1) as (filtered & w2 & Hrest & Hui2 & Hkeep2 & Hall2).
  { intros df' Hdf'. destruct (Hall df' (or_intror Hdf')) as (x & Hx & Hfx).
    exists x. split; [now apply Hkeep | exact Hfx]. }
  exists (res :: filtered), w2. simpl. rewrite bind_run, Hrun, bind_run, Hrest.
  split; [reflexivity |]. split; [congruence |]. split; [auto |].
  constructor.
  - intros x Hx. assert (x = d) as -> by congruence.
    exists d'. split; [now apply Hkeep2 | exact Hrows].
  - eapply Forall2_impl; [exact Hall2 |]. intros df' res' Hrel x Hx.
    apply Hrel. now apply Hkeep.
Qed.

Context `{Python}.

(** Lines 120-127 on fetched frames. *)
Lemma sorted_years_fetched o w :
  (forall df, In df (original_frames o) -> exists d, heap w !! df = Some d /\ fetched d) ->
  exists ys, sorted_years o w = (inr ys, w).
Proof.
  intros Hall.
  assert (Hstep : forall s df,
            In df (original_frames o) ->
            (forall c, In c s -> pd.isna c = true \/ exists z, c = Num (inject_Z z)) ->
            exists s', update_all_years s df w = (inr s', w) /\
              forall c, In c s' -> pd.isna c = true \/ exists z, c = Num (inject_Z z)).
  { intros s df Hdf Hs. destruct (Hall df Hdf) as (d & Hd & Hf).
    destruct (update_all_years_total s df w d Hd) as [s' Hs'].
    exists s'. split; [exact Hs' |]. intros c Hc.
    destruct (update_all_years_sound _ _ _ _ _ Hs' c Hc)
      as [Hin | (d0 & col & Hd0 & _ & Hcol & Hin)]; [now apply Hs |].
    assert (d0 = d) as -> by congruence.
    exact (fetched_year_cell d col c Hf Hcol Hin). }
  unfold sorted_years, original_frames in *.
  destruct (Hstep [] (df_selic_orig o)) as (s1 & E1 & Hs1); [simpl; auto | intros c [] |].
  destruct (Hstep s1 (df_ipca_orig o)) as (s2 & E2 & Hs2); [simpl; auto | exact Hs1 |].
  destruct (Hstep s2 (df_cambio_orig o)) as (s3 & E3 & Hs3); [simpl; auto | exact Hs2 |].
  destruct (Hstep s3 (df_desemprego_orig o)) as (s4 & E4 & Hs4); [simpl; auto | exact Hs3 |].
  destruct (Hstep s4 (df_pib_orig o)) as (s5 & E5 & Hs5); [simpl; auto 10 | exact Hs4 |].
  rewrite bind_run, E1, bind_run, E2, bind_run, E3, bind_run, E4, bind_run, E5.
  destruct (for_each_lift_total py_int (List.filter (fun x => negb (pd.isna x)) s5) w)
    as [years Hyears].
  { intros c Hc. apply filter_In in Hc as [Hc Hna]. apply negb_true_iff in Hna.
    destruct (Hs5 c Hc) as [Hna' | [z ->]]; [congruence |]. simpl. eauto. }
  rewrite bind_run, Hyears. eexists. reflexivity.
Qed.

(** Property X18.  When the five originals are frames [fetch_data] returned,
    computing the years does not raise and only reads; and for every
    selection of years the sidebar comes to, the historical view does not
    raise either: it shows nothing, keeps every frame there was, and gives
    for each original a frame whose rows are the rows of the original with a
    timestamp in one of the selected years. *)
Theorem historical_view_on_fetched (o : originals) (sb : sidebar) (w : world) :
  (forall df, In df (original_frames o) -> exists d, heap w !! df = Some d /\ fetched d) ->
  exists ys,
    sorted_years o w = (inr ys, w) /\
    forall selected, selected_years_final sb ys = inr selected ->
      exists filtered w',
        historical_view o sb w = (inr filtered, w') /\ ui w' = ui w /\
        (forall l x, heap w !! l = Some x -> heap w' !! l = Some x) /\
        Forall2 (fun df res =>
                   forall d, heap w !! df = Some d ->
                     exists d', heap w' !! res = Some d' /\
                       forall r, In r (rows d') <-> In r (rows d) /\ in_years selected d r)
                (original_frames o) filtered.
Proof.
  intros Hall. destruct (sorted_years_fetched o w Hall) as [ys Hys].
  exists ys. split; [exact Hys |]. intros selected Hsel.
  destruct (filter_each_fetched selected (original_frames o) w Hall)
    as (filtered & w' & Hrun & Hrest).
  exists filtered, w'. split; [| exact Hrest].
  unfold historical_view. rewrite bind_run, Hys, bind_run. unfold lift at 1.
  rewrite Hsel. exact Hrun.
Qed.

End Filtering.
End Page.

Lemma historical_view_on_fetched_witness :
  exists ys,
    @sorted_years decimal_python five_originals fetched_world = (inr ys, fetched_world) /\
    forall selected,
      selected_years_final (Sidebar AnosEspecificos [2021] None) ys = inr selected ->
      exists filtered w',
        @historical_view decimal_pandas decimal_python five_originals
          (Sidebar AnosEspecificos [2021] None) fetched_world = (inr filtered, w') /\
        ui w' = ui fetched_world /\
        (forall l x, heap fetched_world !! l = Some x -> heap w' !! l = Some x) /\
        Forall2 (fun df res =>
                   forall d, heap fetched_world !! df = Some d ->
                     exists d', heap w' !! res = Some d' /\
                       forall r, In r (rows d') <->
                         In r (rows d) /\ @in_years plain_datetimes selected d r)
                (original_frames five_originals) filtered.
Proof.
  apply (@historical_view_on_fetched memory_database plain_datetimes decimal_pandas
           decimal_python five_originals (Sidebar AnosEspecificos [2021] None) fetched_world).
  assert (Hselic : @fetched memory_database plain_datetimes selic_two).
  { exists full_credentials, "SELECT 1"%string. eexists. split; [reflexivity | now right]. }
  assert (Hnone : @fetched memory_database plain_datetimes pd.empty_frame).
  { exists no_password, "SELECT 1"%string. eexists. split; [reflexivity | now left]. }
  intros df [<- | [<- | [<- | [<- | [<- | []]]]]].
  - exists selic_two. split; [reflexivity | exact Hselic].
  - exists pd.empty_frame. split; [reflexivity | exact Hnone].
  - exists pd.empty_frame. split; [reflexivity | exact Hnone].
  - exists pd.empty_frame. split; [reflexivity | exact Hnone].
  - exists pd.empty_frame. split; [reflexivity | exact Hnone].
Defined.

(** ** The label of the period *)

(** Property X19.  The label in the headers agrees with the years the filter
    uses.  In the mode of single years it lists exactly the years in effect,
    in ascending order whatever the order of the selection.  In the mode of
    biennia it reads ["Biênio s-e"] with [s] to [e] the very years in
    effect, or ["Todos os Anos"] when no biennium is selected and all years
    are in effect. *)
Theorem filter_label_agrees_with_selection (sb : sidebar) (sorted_years selected : list Z) :
  selected_years_final sb sorted_years = inr selected ->
  match hist_filter_type sb with
  | AnosEspecificos =>
      exists listed,
        filter_label sb sorted_years = inr (String.concat ", " (List.map Py.str listed)) /\
        Permutation listed selected /\ Sorted Z.le listed
  | Bienio =>
      (filter_label sb sorted_years = inr "Todos os Anos"%string /\
       selected = sorted_years) \/
      exists s e,
        filter_label sb sorted_years = inr ("Biênio " +:+ code_label s e)%string /\
        selected = Py.range s (e + 1)
  end.
Proof.
  unfold selected_years_final, filter_label. intros Hsel.
  destruct (hist_filter_type sb).
  - exists (Py.sorted selected).
    assert (Hsame : match hist_selected_years sb with
                    | [] => sorted_years
                    | _ :: _ => hist_selected_years sb
                    end = selected).
    { destruct (hist_selected_years sb); now injection Hsel. }
    cbv zeta. rewrite Hsame. split; [reflexivity |]. split.
    + apply sort_by_perm.
    + apply (Sorted_weaken (fun a b => (a <=? b) = true)).
      * intros a b. apply Z.leb_le.
      * apply sort_by_sorted. intros x y Hxy. apply Z.leb_le. apply Z.leb_gt in Hxy. lia.
  - cbv zeta in *. destruct (hist_selected_biennio sb) as [label|].
    2:{ left. split; [reflexivity | now injection Hsel]. }
    destruct (String.eqb label ""); [left; split; [reflexivity | now injection Hsel] |].
    destruct (biennio_dict (get_period_groups sorted_years 2) !! label) as [years|] eqn:Hyears;
      [| discriminate].
    injection Hsel as <-. right.
    pose proof (biennio_dict_sound _ _ _ Hyears) as Hin.
    destruct sorted_years as [|y ys]; [destruct Hin |].
    pose proof (get_period_groups_tiling y ys 2 ltac:(lia)) as Ht.
    destruct (tiling_windows _ _ _ Ht _ Hin) as (s & e & Hse & Hr & Hl). simpl in Hr, Hl.
    exists s, e. now rewrite Hl, Hr.
Qed.

Lemma filter_label_agrees_with_selection_witness :
  exists listed,
    filter_label (Sidebar AnosEspecificos [2021; 2019] None) [2021; 2020; 2019] =
      inr (String.concat ", " (List.map Py.str listed)) /\
    Permutation listed [2021; 2019] /\ Sorted Z.le listed.
Proof.
  apply (filter_label_agrees_with_selection (Sidebar AnosEspecificos [2021; 2019] None)
           [2021; 2020; 2019] [2021; 2019] eq_refl).
Defined.

(** ** The columns the correlation uses *)




